(** * The Gitea provider of package gits (pkg/gits/gitea.go)

    A shallow embedding of the Gitea adapter: every method of
    [GiteaProvider] that talks to the Gitea SDK client is a computation in
    a small monad that threads the state of the server behind the client,
    a monotonic clock and the trace of the requests that were issued. *)

From Stdlib Require Import ZArith Lia DecimalString.
From stdpp Require Import base decidable option list strings gmap.

Local Open Scope string_scope.
Local Open Scope list_scope.
Local Open Scope Z_scope.

(** ** Go values *)

(** A Go [error] value.  gitea.go only ever looks at the text of an error
    ([err.Error()]); the constructor records which code made the value:
    the SDK client, or a [fmt.Errorf] of this file. *)
Inductive error : Type :=
| ClientError (msg : string)
| Errorf (msg : string).

Definition Error (e : error) : string :=
  match e with
  | ClientError msg => msg
  | Errorf msg => msg
  end.

(** The verb [%s] applied to an [error] operand, which may be nil. *)
Definition fmt_s (e : option error) : string :=
  match e with
  | Some e => Error e
  | None => "%!s(<nil>)"
  end.

(** [strconv.Itoa] and [fmt.Sprint] on an integer. *)
Definition Itoa (n : Z) : string := NilZero.string_of_int (Z.to_int n).

(** [strings.Index], with [None] for Go's -1, and [strings.Contains]. *)
Definition Index (s substr : string) : option nat := String.index 0 substr s.

Definition Contains (s substr : string) : bool :=
  match Index s substr with
  | Some _ => true
  | None => false
  end.

(** Go's [int] on a 64-bit platform: addition wraps around. *)
Definition int_wrap (n : Z) : Z := (n + 2 ^ 63) mod 2 ^ 64 - 2 ^ 63.
Definition int_add (a b : Z) : Z := int_wrap (a + b).

(** [time.Duration] and the monotonic reading of a [time.Time], both in
    nanoseconds. *)
Definition Duration := Z.
Definition Time := Z.
Definition Second : Duration := 1000000000.
Definition Minute : Duration := 60 * Second.
Definition After (t u : Time) : bool := bool_decide (u < t).

(** ** The types of the Gitea SDK (code.gitea.io/sdk/gitea)

    Only the fields gitea.go reads or writes are kept.  A slice of
    pointers is a list of records: the elements the client decodes are
    never nil.  A pointer the client returns on its own is an [option]. *)

Module Response.
Record t := { StatusCode : Z }.
End Response.

Module Repository.
Record t := {
  ID : Z;
  Name : string;
  Private : bool;
  Fork : bool;
  Archived : bool;
  HTMLURL : string;
  SSHURL : string;
  CloneURL : string;
  Stars : Z;
  OpenIssues : Z;
  HasIssues : bool;
  HasWiki : bool;
  HasProjects : bool
}.
End Repository.

Module CreateRepoOption.
Record t := { Name : string; Private : bool }.
End CreateRepoOption.

Module CreateForkOption.
Record t := { Organization : option string }.
End CreateForkOption.

Module Hook.
Record t := { ID : Z; Config : gmap string string }.
End Hook.

Module CreateHookOption.
Record t := {
  Type_ : string;
  Config : gmap string string;
  Events : list string;
  Active : bool
}.
End CreateHookOption.

Module User.
Record t := {
  UserName : string;
  FullName : string;
  Email : string;
  AvatarURL : string
}.
End User.

Module PRBranchInfo.
Record t := { Sha : string }.
End PRBranchInfo.

Module PullRequest.
Record t := {
  Index : Z;
  URL : string;
  HTMLURL : string;
  Poster : option User.t;
  Title : string;
  Body : string;
  State : string;
  HasMerged : bool;
  Mergeable : bool;
  Merged : option Time;
  MergedCommitID : option string;
  Head : option PRBranchInfo.t
}.
End PullRequest.

Module ListPullRequestsOptions.
Record t := { Page : Z; PageSize : Z; State : string }.
Definition zero : t := {| Page := 0; PageSize := 0; State := "" |}.
Definition with_Page (o : t) (page : Z) : t :=
  {| Page := page; PageSize := PageSize o; State := State o |}.
End ListPullRequestsOptions.

Module Label.
Record t := { Name : string; Color : string; URL : string }.
End Label.

Module Issue.
Record t := {
  ID : Z;
  Title : string;
  Body : string;
  State : string;
  Poster : option User.t;
  Labels : list Label.t;
  Assignees : list User.t;
  PullRequest : option unit;
  Created : Time;
  Updated : Time;
  Closed : option Time
}.
End Issue.

Module Status.
Record t := {
  ID : Z;
  State : string;
  TargetURL : string;
  Description : string;
  URL : string;
  Context : string
}.
End Status.

Module Release.
Record t := {
  ID : Z;
  TagName : string;
  Title : string;
  Note : string;
  URL : string;
  IsPrerelease : bool
}.
End Release.

Module CreateReleaseOption.
Record t := {
  TagName : string;
  Title : string;
  Note : string;
  IsDraft : bool;
  IsPrerelease : bool
}.
End CreateReleaseOption.

Module EditReleaseOption.
Record t := {
  TagName : string;
  Title : string;
  Note : string;
  IsDraft : option bool;
  IsPrerelease : option bool
}.
Definition with_TagName (o : t) (v : string) : t :=
  {| TagName := v; Title := Title o; Note := Note o; IsDraft := IsDraft o;
     IsPrerelease := IsPrerelease o |}.
Definition with_Title (o : t) (v : string) : t :=
  {| TagName := TagName o; Title := v; Note := Note o; IsDraft := IsDraft o;
     IsPrerelease := IsPrerelease o |}.
Definition with_Note (o : t) (v : string) : t :=
  {| TagName := TagName o; Title := Title o; Note := v; IsDraft := IsDraft o;
     IsPrerelease := IsPrerelease o |}.
End EditReleaseOption.

(** [gitea.OptionalBool]. *)
Definition OptionalBool (v : bool) : option bool := Some v.

(** What a client method returns: the decoded value, the HTTP response and
    the error, any of which may be nil independently of the others.  The
    client hands over the text of its error; [err] is the [error] value the
    caller sees. *)
Record Reply (A : Type) := mkReply {
  value : A;
  resp : option Response.t;
  failure : option string
}.
Arguments mkReply {A} _ _ _.
Arguments value {A} _.
Arguments resp {A} _.
Arguments failure {A} _.

Definition err {A} (r : Reply A) : option error :=
  match failure r with
  | Some msg => Some (ClientError msg)
  | None => None
  end.

(** ** The neutral model of package gits *)

(** Modelled from the spec: the neutral [GitRepository] struct is declared
    elsewhere in package gits; these are the fields that [toGiteaRepo]
    assigns, the others keep their zero value. *)
Module GitRepository.
Record t := {
  ID : Z;
  Name : string;
  AllowMergeCommit : bool;
  HTMLURL : string;
  CloneURL : string;
  SSHURL : string;
  Fork : bool;
  Stars : Z;
  Private : bool;
  HasIssues : bool;
  OpenIssueCount : Z;
  HasWiki : bool;
  HasProjects : bool;
  Archived : bool
}.
End GitRepository.

(** Modelled from the spec: [GitRepositoryInfo] and [GitWebHookArguments]
    (owner, repo, target URL, secret), declared elsewhere in package gits.
    The [Repo] pointer of the arguments is taken to be non-nil. *)
Module GitRepositoryInfo.
Record t := { Name : string }.
End GitRepositoryInfo.

Module GitWebHookArguments.
Record t := {
  Owner : string;
  Repo : GitRepositoryInfo.t;
  URL : string;
  Secret : string
}.
End GitWebHookArguments.

(** Modelled from the spec: [GitUser], declared elsewhere in package gits. *)
Module GitUser.
Record t := {
  URL : string;
  Login : string;
  Name : string;
  Email : string;
  AvatarURL : string
}.
End GitUser.

(** Modelled from the spec: [GitPullRequest], declared elsewhere in package
    gits: the fields gitea.go touches. *)
Module GitPullRequest.
Record t := {
  URL : string;
  Author : option GitUser.t;
  Owner : string;
  Repo : string;
  Number : option Z;
  Mergeable : option bool;
  Merged : option bool;
  State : option string;
  Title : string;
  Body : string;
  MergeCommitSHA : option string;
  MergedAt : option Time;
  LastCommitSha : string
}.
End GitPullRequest.

(** Modelled from the spec: [GitLabel] and [GitIssue], declared elsewhere in
    package gits. *)
Module GitLabel.
Record t := { Name : string; Color : string; URL : string }.
End GitLabel.

Module GitIssue.
Record t := {
  URL : string;
  Number : option Z;
  State : option string;
  Title : string;
  Body : string;
  IsPullRequest : bool;
  User : option GitUser.t;
  Labels : list GitLabel.t;
  Assignees : list GitUser.t;
  CreatedAt : option Time;
  UpdatedAt : option Time;
  ClosedAt : option Time
}.
End GitIssue.

(** Modelled from the spec: [GitRepoStatus], declared elsewhere in package
    gits. *)
Module GitRepoStatus.
Record t := {
  ID : string;
  Context : string;
  URL : string;
  TargetURL : string;
  State : string;
  Description : string
}.
End GitRepoStatus.

(** Modelled from the spec: [GitRelease], declared elsewhere in package
    gits: the fields [UpdateRelease] reads and the one it writes. *)
Module GitRelease.
Record t := {
  Name : string;
  TagName : string;
  Body : string;
  URL : string;
  PreRelease : bool
}.
Definition with_URL (r : t) (url : string) : t :=
  {| Name := Name r; TagName := TagName r; Body := Body r; URL := url;
     PreRelease := PreRelease r |}.
End GitRelease.

(** [auth.AuthServer] and the provider itself; the [Client] field is the
    client the methods below are parameterised by. *)
Module AuthServer.
Record t := { URL : string }.
End AuthServer.

Module GiteaProvider.
Record t := { Username : string; Server : AuthServer.t }.
End GiteaProvider.

(** ** The client, the clock and the trace *)

(** The requests gitea.go sends through the client, and its sleeps, in the
    order they happen.  A request that is always sent with the zero value
    of its options struct does not list the options. *)
Inductive Event : Type :=
| EvSleep (d : Duration)
| EvListMyRepos
| EvListOrgRepos (org : string)
| EvCreateOrgRepo (org : string) (opt : CreateRepoOption.t)
| EvCreateRepo (opt : CreateRepoOption.t)
| EvCreateFork (owner repo : string) (opt : CreateForkOption.t)
| EvGetRepo (owner repo : string)
| EvListRepoHooks (owner repo : string)
| EvCreateRepoHook (owner repo : string) (opt : CreateHookOption.t)
| EvListRepoPullRequests (owner repo : string) (opt : ListPullRequestsOptions.t)
| EvGetIssue (owner repo : string) (index : Z)
| EvListStatuses (owner repo sha : string)
| EvGetReleaseByTag (owner repo tag : string)
| EvCreateRelease (owner repo : string) (opt : CreateReleaseOption.t)
| EvEditRelease (owner repo : string) (id : Z) (opt : EditReleaseOption.t).

(** [*gitea.Client] as gitea.go uses it.  [B] is the state of whatever
    answers the requests; a method maps the state before the request to the
    reply and the state after it.  [elapsed] reads off the state after a
    request how long the request took (the time by which the sleep before
    it overran included). *)
Module Client.
Record t (B : Type) := {
  ListMyRepos : B -> Reply (list Repository.t) * B;
  ListOrgRepos : string -> B -> Reply (list Repository.t) * B;
  CreateOrgRepo : string -> CreateRepoOption.t -> B -> Reply (option Repository.t) * B;
  CreateRepo : CreateRepoOption.t -> B -> Reply (option Repository.t) * B;
  CreateFork : string -> string -> CreateForkOption.t -> B -> Reply (option Repository.t) * B;
  GetRepo : string -> string -> B -> Reply (option Repository.t) * B;
  ListRepoHooks : string -> string -> B -> Reply (list Hook.t) * B;
  CreateRepoHook : string -> string -> CreateHookOption.t -> B -> Reply (option Hook.t) * B;
  ListRepoPullRequests :
    string -> string -> ListPullRequestsOptions.t -> B -> Reply (list PullRequest.t) * B;
  GetIssue : string -> string -> Z -> B -> Reply (option Issue.t) * B;
  ListStatuses : string -> string -> string -> B -> Reply (list Status.t) * B;
  GetReleaseByTag : string -> string -> string -> B -> Reply (option Release.t) * B;
  CreateRelease : string -> string -> CreateReleaseOption.t -> B -> Reply (option Release.t) * B;
  EditRelease :
    string -> string -> Z -> EditReleaseOption.t -> B -> Reply (option Release.t) * B;
  elapsed : B -> Duration
}.
Arguments ListMyRepos {B} _ _.
Arguments ListOrgRepos {B} _ _ _.
Arguments CreateOrgRepo {B} _ _ _ _.
Arguments CreateRepo {B} _ _ _.
Arguments CreateFork {B} _ _ _ _ _.
Arguments GetRepo {B} _ _ _ _.
Arguments ListRepoHooks {B} _ _ _ _.
Arguments CreateRepoHook {B} _ _ _ _ _.
Arguments ListRepoPullRequests {B} _ _ _ _ _.
Arguments GetIssue {B} _ _ _ _ _.
Arguments ListStatuses {B} _ _ _ _ _.
Arguments GetReleaseByTag {B} _ _ _ _ _.
Arguments CreateRelease {B} _ _ _ _ _.
Arguments EditRelease {B} _ _ _ _ _ _.
Arguments elapsed {B} _ _.
End Client.

Record World (B : Type) := mkWorld {
  backend : B;
  now : Time;
  trace : list Event
}.
Arguments mkWorld {B} _ _ _.
Arguments backend {B} _.
Arguments now {B} _.
Arguments trace {B} _.

(** How a method ends: it returns, it dereferences a nil pointer, or the
    model of one of its loops has used up its fuel. *)
Inductive outcome (A : Type) : Type :=
| Ret (a : A)
| NilDereference
| OutOfFuel.
Arguments Ret {A} _.
Arguments NilDereference {A}.
Arguments OutOfFuel {A}.

Definition M (B A : Type) : Type := World B -> outcome A * World B.

Definition ret {B A} (a : A) : M B A := fun w => (Ret a, w).

Definition bind {B A A'} (m : M B A) (k : A -> M B A') : M B A' :=
  fun w =>
    match m w with
    | (Ret a, w') => k a w'
    | (NilDereference, w') => (NilDereference, w')
    | (OutOfFuel, w') => (OutOfFuel, w')
    end.

Notation "'let*' x ':=' m 'in' k" := (bind m (fun x => k))
  (at level 10, x pattern, m at level 100, k at level 200).

Definition out_of_fuel {B A} : M B A := fun w => (OutOfFuel, w).

(** Reading through a pointer. *)
Definition deref {B A} (ptr : option A) : M B A :=
  fun w =>
    match ptr with
    | Some a => (Ret a, w)
    | None => (NilDereference, w)
    end.

(** One request through the client. *)
Definition call {B A} (c : Client.t B) (method : B -> Reply A * B) (ev : Event)
  : M B (Reply A) :=
  fun w =>
    let '(r, b) := method (backend w) in
    (Ret r, mkWorld b (now w + Client.elapsed c b) (trace w ++ [ev])).

(** [time.Sleep] and [time.Now]. *)
Definition Sleep {B} (d : Duration) : M B unit :=
  fun w => (Ret tt, mkWorld (backend w) (now w + d) (trace w ++ [EvSleep d])).

Definition Now {B} : M B Time := fun w => (Ret (now w), w).

(** A [for ... range] loop whose body may dereference. *)
Fixpoint foldM {B A X} (body : A -> X -> M B A) (xs : list X) (a : A) : M B A :=
  match xs with
  | [] => ret a
  | x :: xs' => let* a' := body a x in foldM body xs' a'
  end.

(** [len] of a slice. *)
Definition len {X} (xs : list X) : Z := Z.of_nat (length xs).

(** ** The methods of GiteaProvider

    Calls to the logger are left out. *)

Definition toGiteaRepo (name : string) (repo : Repository.t) : GitRepository.t :=
  {| GitRepository.AllowMergeCommit := true;
     GitRepository.Archived := Repository.Archived repo;
     GitRepository.CloneURL := Repository.CloneURL repo;
     GitRepository.Fork := Repository.Fork repo;
     GitRepository.HTMLURL := Repository.HTMLURL repo;
     GitRepository.HasIssues := Repository.HasIssues repo;
     GitRepository.HasProjects := Repository.HasProjects repo;
     GitRepository.HasWiki := Repository.HasWiki repo;
     GitRepository.ID := Repository.ID repo;
     GitRepository.Name := name;
     GitRepository.OpenIssueCount := Repository.OpenIssues repo;
     GitRepository.Private := Repository.Private repo;
     GitRepository.SSHURL := Repository.SSHURL repo;
     GitRepository.Stars := Repository.Stars repo |}.

Section Provider.
Context {B : Type}.
Variable c : Client.t B.
Variable p : GiteaProvider.t.

Definition ListRepositories (org : string)
  : M B (list GitRepository.t * option error) :=
  let answer : list GitRepository.t := [] in
  if decide (org = "") then
    let* r := call c (Client.ListMyRepos c) EvListMyRepos in
    match err r with
    | Some e => ret (answer, Some e)
    | None =>
        ret (fold_left
               (fun answer repo => answer ++ [toGiteaRepo (Repository.Name repo) repo])
               (value r) answer, None)
    end
  else
    let* r := call c (Client.ListOrgRepos c org) (EvListOrgRepos org) in
    match err r with
    | Some e => ret (answer, Some e)
    | None =>
        ret (fold_left
               (fun answer repo => answer ++ [toGiteaRepo (Repository.Name repo) repo])
               (value r) answer, None)
    end.

Definition CreateRepository (org name : string) (private : bool)
  : M B (option GitRepository.t * option error) :=
  let options :=
    {| CreateRepoOption.Name := name; CreateRepoOption.Private := private |} in
  let* _ :=
    if decide (Z.of_nat (String.length org) ≠ 0) then
      let* r := call c (Client.CreateOrgRepo c org options) (EvCreateOrgRepo org options) in
      ret (value r, err r)
    else ret (None, None) in
  let* r := call c (Client.CreateRepo c options) (EvCreateRepo options) in
  match err r with
  | Some e =>
      ret (None,
           Some (Errorf ("Failed to create repository " +:+ org +:+ "/" +:+ name
                         +:+ " due to: " +:+ Error e)))
  | None =>
      let* repo := deref (value r) in
      ret (Some (toGiteaRepo name repo), None)
  end.

(** The polling loop of [ForkRepository]: [inl] when the loop is left by
    [break], [inr] when the method returns from inside the loop. *)
Fixpoint waitForFork (fuel : nat) (owner name : string) (deadline : Time)
  : M B (Repository.t + error) :=
  match fuel with
  | O => out_of_fuel
  | S fuel' =>
      let* _ := Sleep (5 * Second) in
      let* r := call c (Client.GetRepo c owner name) (EvGetRepo owner name) in
      match value r, err r with
      | Some repo, None => ret (inl repo)
      | _, _ =>
          let* t := Now in
          if After t deadline then
            ret (inr (Errorf ("Gave up waiting for Repository " +:+ owner +:+ "/"
                              +:+ name +:+ " to appear: " +:+ fmt_s (err r))))
          else waitForFork fuel' owner name deadline
      end
  end.

Definition ForkRepository (fuel : nat) (originalOrg name destinationOrg : string)
  : M B (option GitRepository.t * option error) :=
  let repoConfig := {| CreateForkOption.Organization := Some destinationOrg |} in
  let* r := call c (Client.CreateFork c originalOrg name repoConfig)
                 (EvCreateFork originalOrg name repoConfig) in
  match err r with
  | Some e =>
      let msg := if decide (destinationOrg ≠ "") then " to " +:+ destinationOrg else "" in
      let owner :=
        if decide (destinationOrg = "") then GiteaProvider.Username p
        else destinationOrg in
      if Contains (Error e) "try again later" then
        let* start := Now in
        let deadline := start + Minute in
        let* polled := waitForFork fuel owner name deadline in
        match polled with
        | inl repo => ret (Some (toGiteaRepo name repo), None)
        | inr e' => ret (None, Some e')
        end
      else
        ret (None,
             Some (Errorf ("Failed to fork repository " +:+ originalOrg +:+ "/" +:+ name
                           +:+ msg +:+ " due to: " +:+ Error e)))
  | None =>
      let* repo := deref (value r) in
      ret (Some (toGiteaRepo name repo), None)
  end.

(** The [range] loop of [CreateWebHook] over the existing hooks: [true]
    when it returns from the method. *)
Fixpoint alreadyRegistered (hooks : list Hook.t) (webhookUrl : string) : bool :=
  match hooks with
  | [] => false
  | hook :: hooks' =>
      let s := default "" (Hook.Config hook !! "url") in
      if decide (s = webhookUrl) then true
      else alreadyRegistered hooks' webhookUrl
  end.

(** The verb [%#v] applied to the hook options and to a pull request. *)
Variable goSyntaxHook : CreateHookOption.t -> string.
Variable goSyntaxPR : GitPullRequest.t -> string.

Definition CreateWebHook (data : GitWebHookArguments.t) : M B (option error) :=
  let owner :=
    if decide (GitWebHookArguments.Owner data = "") then GiteaProvider.Username p
    else GitWebHookArguments.Owner data in
  let repo := GitRepositoryInfo.Name (GitWebHookArguments.Repo data) in
  if decide (repo = "") then ret (Some (Errorf "Missing property Repo"))
  else
    let webhookUrl := GitWebHookArguments.URL data in
    if decide (repo = "") then ret (Some (Errorf "Missing property URL"))
    else
      let* r := call c (Client.ListRepoHooks c owner repo) (EvListRepoHooks owner repo) in
      match err r with
      | Some e => ret (Some e)
      | None =>
          if alreadyRegistered (value r) webhookUrl then ret None
          else
            let config : gmap string string :=
              <["content_type" := "json"]> (<["url" := webhookUrl]> ∅) in
            let config :=
              if decide (GitWebHookArguments.Secret data ≠ "")
              then <["secret" := GitWebHookArguments.Secret data]> config
              else config in
            let hook :=
              {| CreateHookOption.Type_ := "gitea";
                 CreateHookOption.Config := config;
                 CreateHookOption.Events := ["create"; "push"; "pull_request"];
                 CreateHookOption.Active := true |} in
            let* r' := call c (Client.CreateRepoHook c owner repo hook)
                            (EvCreateRepoHook owner repo hook) in
            match err r' with
            | Some e =>
                ret (Some (Errorf ("Failed to create webhook for " +:+ owner +:+ "/"
                                   +:+ repo +:+ " with " +:+ goSyntaxHook hook
                                   +:+ " due to: " +:+ Error e)))
            | None => ret None
            end
      end.

(** [updatePullRequest] writes through its [pr] pointer: the updated
    struct is the result. *)
Definition updatePullRequest (pr : GitPullRequest.t) (source : PullRequest.t)
  : M B GitPullRequest.t :=
  let* poster := deref (PullRequest.Poster source) in
  ret {| GitPullRequest.URL := GitPullRequest.URL pr;
         GitPullRequest.Owner := GitPullRequest.Owner pr;
         GitPullRequest.Repo := GitPullRequest.Repo pr;
         GitPullRequest.Number := GitPullRequest.Number pr;
         GitPullRequest.Author :=
           Some {| GitUser.Login := User.UserName poster;
                   GitUser.URL := ""; GitUser.Name := ""; GitUser.Email := "";
                   GitUser.AvatarURL := "" |};
         GitPullRequest.Merged := Some (PullRequest.HasMerged source);
         GitPullRequest.Mergeable := Some (PullRequest.Mergeable source);
         GitPullRequest.MergedAt := PullRequest.Merged source;
         GitPullRequest.MergeCommitSHA := PullRequest.MergedCommitID source;
         GitPullRequest.Title := PullRequest.Title source;
         GitPullRequest.Body := PullRequest.Body source;
         GitPullRequest.State := Some (PullRequest.State source);
         GitPullRequest.LastCommitSha :=
           match PullRequest.Head source with
           | Some head => PRBranchInfo.Sha head
           | None => ""
           end |}.

Definition toPullRequest (owner repo : string) (pr : PullRequest.t)
  : M B GitPullRequest.t :=
  let id := PullRequest.Index pr in
  let answer :=
    {| GitPullRequest.URL := PullRequest.URL pr;
       GitPullRequest.Owner := owner;
       GitPullRequest.Repo := repo;
       GitPullRequest.Number := Some id;
       GitPullRequest.Author := None;
       GitPullRequest.Merged := None;
       GitPullRequest.Mergeable := None;
       GitPullRequest.MergedAt := None;
       GitPullRequest.MergeCommitSHA := None;
       GitPullRequest.Title := "";
       GitPullRequest.Body := "";
       GitPullRequest.State := None;
       GitPullRequest.LastCommitSha := "" |} in
  updatePullRequest answer pr.

(** The page size constant of package gits, declared in another file. *)
Variable pageSize : Z.

(** The [for] loop of [ListOpenPullRequests], entered with the current
    values of [opt] and [answer]. *)
Fixpoint listOpenPullRequestsFrom (fuel : nat) (owner repo : string)
    (opt : ListPullRequestsOptions.t) (answer : list GitPullRequest.t)
  : M B (list GitPullRequest.t * option error) :=
  match fuel with
  | O => out_of_fuel
  | S fuel' =>
      let* r := call c (Client.ListRepoPullRequests c owner repo opt)
                     (EvListRepoPullRequests owner repo opt) in
      match err r with
      | Some e => ret (answer, Some e)
      | None =>
          let prs := value r in
          let* answer :=
            foldM (fun answer pr =>
                     let* converted := toPullRequest owner repo pr in
                     ret (answer ++ [converted]))
                  prs answer in
          if decide (len prs < pageSize ∨ len prs = 0) then ret (answer, None)
          else
            listOpenPullRequestsFrom fuel' owner repo
              (ListPullRequestsOptions.with_Page opt
                 (int_add (ListPullRequestsOptions.Page opt) 1))
              answer
      end
  end.

Definition ListOpenPullRequests (fuel : nat) (owner repo : string)
  : M B (list GitPullRequest.t * option error) :=
  let opt := ListPullRequestsOptions.zero in
  let answer : list GitPullRequest.t := [] in
  listOpenPullRequestsFrom fuel owner repo opt answer.

(** [resp != nil && resp.StatusCode == code]. *)
Definition hasStatus (resp : option Response.t) (code : Z) : bool :=
  match resp with
  | Some rs => bool_decide (Response.StatusCode rs = code)
  | None => false
  end.

(** [util.UrlJoin], of another package of the repository. *)
Variable UrlJoin : list string -> string.

Definition IssueURL (org name : string) (number : Z) (isPull : bool) : string :=
  let serverPrefix := AuthServer.URL (GiteaProvider.Server p) in
  let serverPrefix :=
    match Index serverPrefix "://" with
    | None => "https://" +:+ serverPrefix
    | Some _ => serverPrefix
    end in
  let path := if isPull then "pulls" else "issues" in
  UrlJoin [serverPrefix; org; name; path; Itoa number].

Definition toGiteaLabel (label : Label.t) : GitLabel.t :=
  {| GitLabel.Name := Label.Name label;
     GitLabel.Color := Label.Color label;
     GitLabel.URL := Label.URL label |}.

Definition toGiteaUser (serverURL : string) (user : User.t) : GitUser.t :=
  {| GitUser.URL := serverURL +:+ "/" +:+ User.UserName user;
     GitUser.Login := User.UserName user;
     GitUser.Name := User.FullName user;
     GitUser.Email := User.Email user;
     GitUser.AvatarURL := User.AvatarURL user |}.

Definition fromGiteaIssue (org name : string) (i : Issue.t)
  : M B (option GitIssue.t * option error) :=
  let state := Issue.State i in
  let labels :=
    fold_left (fun labels label => labels ++ [toGiteaLabel label]) (Issue.Labels i) [] in
  let assignees :=
    fold_left
      (fun assignees assignee =>
         assignees ++ [toGiteaUser (AuthServer.URL (GiteaProvider.Server p)) assignee])
      (Issue.Assignees i) [] in
  let number := Issue.ID i in
  let* poster := deref (Issue.Poster i) in
  ret (Some {| GitIssue.Number := Some number;
               GitIssue.URL := IssueURL org name number false;
               GitIssue.State := Some state;
               GitIssue.Title := Issue.Title i;
               GitIssue.Body := Issue.Body i;
               GitIssue.IsPullRequest :=
                 match Issue.PullRequest i with Some _ => true | None => false end;
               GitIssue.Labels := labels;
               GitIssue.User :=
                 Some (toGiteaUser (AuthServer.URL (GiteaProvider.Server p)) poster);
               GitIssue.Assignees := assignees;
               GitIssue.CreatedAt := Some (Issue.Created i);
               GitIssue.UpdatedAt := Some (Issue.Updated i);
               GitIssue.ClosedAt := Issue.Closed i |},
       None).

Definition GetIssue (org name : string) (number : Z)
  : M B (option GitIssue.t * option error) :=
  let* r := call c (Client.GetIssue c org name number) (EvGetIssue org name number) in
  match err r with
  | Some e =>
      if hasStatus (resp r) 404 then ret (None, None)
      else ret (None, Some e)
  | None =>
      let* i := deref (value r) in
      fromGiteaIssue org name i
  end.

(** The [range] loop of [PullRequestLastCommitStatus]: [Some text] when it
    returns from the method. *)
Fixpoint firstState (results : list Status.t) : option string :=
  match results with
  | [] => None
  | result :: results' =>
      let text := Status.State result in
      if decide (text ≠ "") then Some text else firstState results'
  end.

Definition PullRequestLastCommitStatus (pr : GitPullRequest.t)
  : M B (string * option error) :=
  let ref := GitPullRequest.LastCommitSha pr in
  if decide (ref = "") then
    ret ("", Some (Errorf ("Missing String for LastCommitSha " +:+ goSyntaxPR pr)))
  else
    let* r := call c (Client.ListStatuses c (GitPullRequest.Owner pr)
                        (GitPullRequest.Repo pr) ref)
                   (EvListStatuses (GitPullRequest.Owner pr) (GitPullRequest.Repo pr) ref) in
    match err r with
    | Some e => ret ("", Some e)
    | None =>
        match firstState (value r) with
        | Some text => ret (text, None)
        | None =>
            ret ("",
                 Some (Errorf ("Could not find a status for repository "
                               +:+ GitPullRequest.Owner pr +:+ "/"
                               +:+ GitPullRequest.Repo pr +:+ " with ref " +:+ ref)))
        end
    end.

Definition ListCommitStatus (org repo sha : string)
  : M B (list GitRepoStatus.t * option error) :=
  let answer : list GitRepoStatus.t := [] in
  let* r := call c (Client.ListStatuses c org repo sha) (EvListStatuses org repo sha) in
  match err r with
  | Some _ =>
      ret (answer,
           Some (Errorf ("Could not find a status for repository " +:+ org +:+ "/"
                         +:+ repo +:+ " with ref " +:+ sha)))
  | None =>
      ret (fold_left
             (fun answer result =>
                let status :=
                  {| GitRepoStatus.ID := Itoa (Status.ID result);
                     GitRepoStatus.Context := Status.Context result;
                     GitRepoStatus.URL := Status.URL result;
                     GitRepoStatus.TargetURL := Status.TargetURL result;
                     GitRepoStatus.State := Status.State result;
                     GitRepoStatus.Description := Status.Description result |} in
                answer ++ [status])
             (value r) answer,
           None)
  end.

(** The request [UpdateRelease] sends for a release that exists. *)
Definition editReleaseOption (release : Release.t) (releaseInfo : GitRelease.t)
  : EditReleaseOption.t :=
  let editRelease :=
    {| EditReleaseOption.TagName := Release.TagName release;
       EditReleaseOption.Title := Release.Title release;
       EditReleaseOption.Note := Release.Note release;
       EditReleaseOption.IsDraft := OptionalBool false;
       EditReleaseOption.IsPrerelease := OptionalBool false |} in
  let editRelease :=
    if decide (EditReleaseOption.Title editRelease = "" ∧ GitRelease.Name releaseInfo ≠ "")
    then EditReleaseOption.with_Title editRelease (GitRelease.Name releaseInfo)
    else editRelease in
  let editRelease :=
    if decide (EditReleaseOption.TagName editRelease = ""
               ∧ GitRelease.TagName releaseInfo ≠ "")
    then EditReleaseOption.with_TagName editRelease (GitRelease.TagName releaseInfo)
    else editRelease in
  let editRelease :=
    if decide (EditReleaseOption.Note editRelease = "" ∧ GitRelease.Body releaseInfo ≠ "")
    then EditReleaseOption.with_Note editRelease (GitRelease.Body releaseInfo)
    else editRelease in
  editRelease.

(** [UpdateRelease] writes [releaseInfo.URL] through its pointer: the
    struct as the method leaves it is returned next to the error. *)
Definition UpdateRelease (owner repo tag : string) (releaseInfo : GitRelease.t)
  : M B (GitRelease.t * option error) :=
  let* r := call c (Client.GetReleaseByTag c owner repo tag)
                 (EvGetReleaseByTag owner repo tag) in
  if bool_decide (err r ≠ None) && negb (hasStatus (resp r) 404) then
    ret (releaseInfo, err r)
  else
    match value r with
    | None =>
        let createRelease :=
          {| CreateReleaseOption.TagName := GitRelease.TagName releaseInfo;
             CreateReleaseOption.Title := GitRelease.Name releaseInfo;
             CreateReleaseOption.Note := GitRelease.Body releaseInfo;
             CreateReleaseOption.IsDraft := false;
             CreateReleaseOption.IsPrerelease := false |} in
        let* r' := call c (Client.CreateRelease c owner repo createRelease)
                        (EvCreateRelease owner repo createRelease) in
        ret (releaseInfo, err r')
    | Some release =>
        let editRelease := editReleaseOption release releaseInfo in
        let* r2 := call c (Client.EditRelease c owner repo (Release.ID release) editRelease)
                        (EvEditRelease owner repo (Release.ID release) editRelease) in
        match err r2 with
        | Some e => ret (releaseInfo, Some e)
        | None =>
            let releaseInfo :=
              match value r2 with
              | Some r2 => GitRelease.with_URL releaseInfo (Release.URL r2)
              | None => releaseInfo
              end in
            (* the [err] in scope at the last line of the method is the
               one of [GetReleaseByTag] *)
            ret (releaseInfo, err r)
        end
    end.

End Provider.

(** ** An in-memory server behind the client

    A test double for the client: it keeps repositories, hooks, pull
    requests, issues, statuses and releases in lists, numbers the pages of
    pull requests from 0 and serves [limit] of them per page.  A fork shows
    up after [fork_delay] further polls, and every request takes [lag]
    nanoseconds. *)
Module Fake.

Record state := mkState {
  offline : bool;
  lag : N;
  repos : list Repository.t;
  fork_delay : nat;
  hooks : list Hook.t;
  pulls : list PullRequest.t;
  limit : nat;
  issues : list Issue.t;
  statuses : list Status.t;
  releases : list Release.t
}.

Definition with_repos (b : state) (v : list Repository.t) : state :=
  mkState (offline b) (lag b) v (fork_delay b) (hooks b) (pulls b) (limit b)
          (issues b) (statuses b) (releases b).
Definition with_fork_delay (b : state) (v : nat) : state :=
  mkState (offline b) (lag b) (repos b) v (hooks b) (pulls b) (limit b)
          (issues b) (statuses b) (releases b).
Definition with_hooks (b : state) (v : list Hook.t) : state :=
  mkState (offline b) (lag b) (repos b) (fork_delay b) v (pulls b) (limit b)
          (issues b) (statuses b) (releases b).
Definition with_releases (b : state) (v : list Release.t) : state :=
  mkState (offline b) (lag b) (repos b) (fork_delay b) (hooks b) (pulls b) (limit b)
          (issues b) (statuses b) v.

Definition empty : state :=
  mkState false 0%N [] 0%nat [] [] 2%nat [] [] [].

Definition ok : option Response.t := Some {| Response.StatusCode := 200 |}.
Definition not_found : option Response.t := Some {| Response.StatusCode := 404 |}.

(** Every request to a server that is [offline] fails in transport. *)
Definition online {A} (nothing : A) (handler : state -> Reply A * state)
  : state -> Reply A * state :=
  fun b =>
    if offline b then (mkReply nothing None (Some "connection refused"), b)
    else handler b.

Definition new_repo (owner : string) (opt : CreateRepoOption.t) (id : Z)
  : Repository.t :=
  {| Repository.ID := id;
     Repository.Name := CreateRepoOption.Name opt;
     Repository.Private := CreateRepoOption.Private opt;
     Repository.Fork := false;
     Repository.Archived := false;
     Repository.HTMLURL := "https://gitea.test/" +:+ owner +:+ "/" +:+ CreateRepoOption.Name opt;
     Repository.SSHURL := "";
     Repository.CloneURL := "";
     Repository.Stars := 0;
     Repository.OpenIssues := 0;
     Repository.HasIssues := true;
     Repository.HasWiki := false;
     Repository.HasProjects := false |}.

Definition create_repo (owner : string) (opt : CreateRepoOption.t)
  : state -> Reply (option Repository.t) * state :=
  online None (fun b =>
    let repo := new_repo owner opt (len (repos b) + 1) in
    (mkReply (Some repo) ok None, with_repos b (repos b ++ [repo]))).

Definition find_repo (name : string) (b : state) : option Repository.t :=
  List.find (fun repo => bool_decide (Repository.Name repo = name)) (repos b).

Definition create_fork (owner name : string) (opt : CreateForkOption.t)
  : state -> Reply (option Repository.t) * state :=
  online None (fun b =>
    let fork :=
      new_repo (default "" (CreateForkOption.Organization opt))
               {| CreateRepoOption.Name := name; CreateRepoOption.Private := false |}
               (len (repos b) + 1) in
    let b' := with_repos b (repos b ++ [fork]) in
    match fork_delay b with
    | O => (mkReply (Some fork) ok None, b')
    | S _ =>
        (mkReply None (Some {| Response.StatusCode := 500 |})
                 (Some "repository is being forked, try again later"), b')
    end).

Definition get_repo (owner name : string)
  : state -> Reply (option Repository.t) * state :=
  online None (fun b =>
    match fork_delay b with
    | S n => (mkReply None not_found (Some "404 Not Found"), with_fork_delay b n)
    | O =>
        match find_repo name b with
        | Some repo => (mkReply (Some repo) ok None, b)
        | None => (mkReply None not_found (Some "404 Not Found"), b)
        end
    end).

Definition create_hook (owner repo : string) (opt : CreateHookOption.t)
  : state -> Reply (option Hook.t) * state :=
  online None (fun b =>
    let hook :=
      {| Hook.ID := len (hooks b) + 1; Hook.Config := CreateHookOption.Config opt |} in
    (mkReply (Some hook) ok None, with_hooks b (hooks b ++ [hook]))).

Definition list_pulls (owner repo : string) (opt : ListPullRequestsOptions.t)
  : state -> Reply (list PullRequest.t) * state :=
  online [] (fun b =>
    let page := Z.to_nat (ListPullRequestsOptions.Page opt) in
    (mkReply (take (limit b) (drop (page * limit b) (pulls b))) ok None, b)).

Definition get_issue (owner repo : string) (index : Z)
  : state -> Reply (option Issue.t) * state :=
  online None (fun b =>
    match List.find (fun i => bool_decide (Issue.ID i = index)) (issues b) with
    | Some i => (mkReply (Some i) ok None, b)
    | None => (mkReply None not_found (Some "404 Not Found"), b)
    end).

Definition get_release (owner repo tag : string)
  : state -> Reply (option Release.t) * state :=
  online None (fun b =>
    match List.find (fun r => bool_decide (Release.TagName r = tag)) (releases b) with
    | Some r => (mkReply (Some r) ok None, b)
    | None => (mkReply None not_found (Some "404 Not Found"), b)
    end).

Definition create_release (owner repo : string) (opt : CreateReleaseOption.t)
  : state -> Reply (option Release.t) * state :=
  online None (fun b =>
    let r :=
      {| Release.ID := len (releases b) + 1;
         Release.TagName := CreateReleaseOption.TagName opt;
         Release.Title := CreateReleaseOption.Title opt;
         Release.Note := CreateReleaseOption.Note opt;
         Release.URL := "https://gitea.test/releases/" +:+ CreateReleaseOption.TagName opt;
         Release.IsPrerelease := CreateReleaseOption.IsPrerelease opt |} in
    (mkReply (Some r) ok None, with_releases b (releases b ++ [r]))).

Definition edit_release (owner repo : string) (id : Z) (opt : EditReleaseOption.t)
  : state -> Reply (option Release.t) * state :=
  online None (fun b =>
    match List.find (fun r => bool_decide (Release.ID r = id)) (releases b) with
    | Some r =>
        let r' :=
          {| Release.ID := id;
             Release.TagName := EditReleaseOption.TagName opt;
             Release.Title := EditReleaseOption.Title opt;
             Release.Note := EditReleaseOption.Note opt;
             Release.URL := Release.URL r;
             Release.IsPrerelease := default (Release.IsPrerelease r)
                                             (EditReleaseOption.IsPrerelease opt) |} in
        (mkReply (Some r') ok None,
         with_releases b
           (List.map (fun x => if bool_decide (Release.ID x = id) then r' else x)
                     (releases b)))
    | None => (mkReply None not_found (Some "404 Not Found"), b)
    end).

Definition client : Client.t state :=
  {| Client.ListMyRepos := online [] (fun b => (mkReply (repos b) ok None, b));
     Client.ListOrgRepos := fun _ => online [] (fun b => (mkReply (repos b) ok None, b));
     Client.CreateOrgRepo := create_repo;
     Client.CreateRepo := create_repo "me";
     Client.CreateFork := create_fork;
     Client.GetRepo := get_repo;
     Client.ListRepoHooks := fun _ _ => online [] (fun b => (mkReply (hooks b) ok None, b));
     Client.CreateRepoHook := create_hook;
     Client.ListRepoPullRequests := list_pulls;
     Client.GetIssue := get_issue;
     Client.ListStatuses :=
       fun _ _ _ => online [] (fun b => (mkReply (statuses b) ok None, b));
     Client.GetReleaseByTag := get_release;
     Client.CreateRelease := create_release;
     Client.EditRelease := edit_release;
     Client.elapsed := fun b => Z.of_N (lag b) |}.

Definition provider : GiteaProvider.t :=
  {| GiteaProvider.Username := "me";
     GiteaProvider.Server := {| AuthServer.URL := "gitea.test" |} |}.

(** Stand-ins for [%#v] and [util.UrlJoin]. *)
Definition goSyntax {A} (_ : A) : string := "{...}".

Definition UrlJoin (paths : list string) : string :=
  fold_right (fun path rest => path +:+ "/" +:+ rest) "" paths.

Definition boot (b : state) : World state := mkWorld b 0 [].

End Fake.


(** ** Vocabulary of the statements *)

(** The request [ListRepositories] sends for [org]. *)
Definition listing {B} (c : Client.t B) (org : string)
  : B -> Reply (list Repository.t) * B :=
  if decide (org = "") then Client.ListMyRepos c else Client.ListOrgRepos c org.

(** A repository object whose name the backend left out. *)
Definition nameless : Repository.t :=
  Fake.new_repo "me" {| CreateRepoOption.Name := ""; CreateRepoOption.Private := false |} 7.


(** The owner [CreateWebHook] works on and the hook it asks the client to
    create. *)
Definition hookOwner (p : GiteaProvider.t) (data : GitWebHookArguments.t) : string :=
  if decide (GitWebHookArguments.Owner data = "") then GiteaProvider.Username p
  else GitWebHookArguments.Owner data.

Definition hookOption (data : GitWebHookArguments.t) : CreateHookOption.t :=
  let config : gmap string string :=
    <["content_type" := "json"]> (<["url" := GitWebHookArguments.URL data]> ∅) in
  {| CreateHookOption.Type_ := "gitea";
     CreateHookOption.Config :=
       if decide (GitWebHookArguments.Secret data ≠ "")
       then <["secret" := GitWebHookArguments.Secret data]> config
       else config;
     CreateHookOption.Events := ["create"; "push"; "pull_request"];
     CreateHookOption.Active := true |}.

(** The url a hook is configured with; Go reads a missing key as [""]. *)
Definition targets (url : string) (hook : Hook.t) : Prop :=
  default "" (Hook.Config hook !! "url") = url.

(** The number of hooks a trace creates. *)
Definition isCreateRepoHook (ev : Event) : bool :=
  match ev with
  | EvCreateRepoHook _ _ _ => true
  | _ => false
  end.

Definition hooksCreated (t : list Event) : nat :=
  length (List.filter isCreateRepoHook t).

(** A backend that lists a hook of a repository once it has created it,
    under the url it was created with. *)
Definition RemembersHooks {B} (c : Client.t B) : Prop :=
  forall owner repo opt b r b',
    Client.CreateRepoHook c owner repo opt b = (r, b') ->
    failure r = None ->
    exists hooks rs b'',
      Client.ListRepoHooks c owner repo b' = (mkReply hooks rs None, b'')
      /\ Exists (targets (default "" (CreateHookOption.Config opt !! "url"))) hooks.


(** Arguments and server states the statements are tried on. *)
Definition demoHook (url : string) : GitWebHookArguments.t :=
  {| GitWebHookArguments.Owner := "acme";
     GitWebHookArguments.Repo := {| GitRepositoryInfo.Name := "demo" |};
     GitWebHookArguments.URL := url;
     GitWebHookArguments.Secret := "s3cret" |}.

Definition hookedServer (url : string) : Fake.state :=
  Fake.with_hooks Fake.empty
    [{| Hook.ID := 1; Hook.Config := <["url" := url]> ∅ |}].


Definition demoStatus (id : Z) (state : string) : Status.t :=
  {| Status.ID := id; Status.State := state; Status.TargetURL := "";
     Status.Description := ""; Status.URL := ""; Status.Context := "ci" |}.

Definition statusServer (statuses : list Status.t) : Fake.state :=
  Fake.mkState false 0%N [] 0%nat [] [] 2%nat [] statuses [].

Definition downServer : Fake.state :=
  Fake.mkState true 0%N [] 0%nat [] [] 2%nat [] [] [].

Definition demoPullRequest (sha : string) : GitPullRequest.t :=
  {| GitPullRequest.URL := ""; GitPullRequest.Author := None;
     GitPullRequest.Owner := "acme"; GitPullRequest.Repo := "demo";
     GitPullRequest.Number := Some 1; GitPullRequest.Mergeable := None;
     GitPullRequest.Merged := None; GitPullRequest.State := None;
     GitPullRequest.Title := ""; GitPullRequest.Body := "";
     GitPullRequest.MergeCommitSHA := None; GitPullRequest.MergedAt := None;
     GitPullRequest.LastCommitSha := sha |}.


Definition demoRelease : Release.t :=
  {| Release.ID := 1; Release.TagName := "v1.0.0"; Release.Title := "";
     Release.Note := "first notes"; Release.URL := "https://gitea.test/releases/v1.0.0";
     Release.IsPrerelease := false |}.

Definition releaseServer : Fake.state := Fake.with_releases Fake.empty [demoRelease].

Definition demoReleaseInfo : GitRelease.t :=
  {| GitRelease.Name := "One"; GitRelease.TagName := "v9.9.9";
     GitRelease.Body := "other notes"; GitRelease.URL := "";
     GitRelease.PreRelease := false |}.


(** The options [ListOpenPullRequests] sends when it asks for page [k]:
    but for the page they are the zero value. *)
Definition pageRequest (k : Z) : ListPullRequestsOptions.t :=
  {| ListPullRequestsOptions.Page := k;
     ListPullRequestsOptions.PageSize := 0;
     ListPullRequestsOptions.State := "" |}.

(** [Serves c owner repo k b pages b']: asked for the pages [k], [k+1], ...
    one after the other from the state [b], the backend answers with
    [pages], without an error, and is left in the state [b']. *)
Inductive Serves {B} (c : Client.t B) (owner repo : string)
  : Z -> B -> list (list PullRequest.t) -> B -> Prop :=
| serves_nil k b : Serves c owner repo k b [] b
| serves_cons k b prs rs b1 pages b' :
    Client.ListRepoPullRequests c owner repo (pageRequest k) b = (mkReply prs rs None, b1) ->
    Serves c owner repo (k + 1) b1 pages b' ->
    Serves c owner repo k b (prs :: pages) b'.

(** A page on which the traversal stops. *)
Definition short (pageSize : Z) (prs : list PullRequest.t) : Prop :=
  len prs < pageSize \/ len prs = 0.

(** [g] is what [toPullRequest] makes of [pr]. *)
Definition converts (owner repo : string) (pr : PullRequest.t) (g : GitPullRequest.t)
  : Prop :=
  forall (B : Type) (w : World B), toPullRequest owner repo pr w = (Ret g, w).

(** The requests for the first [n] pages. *)
Definition pageRequests (owner repo : string) (k : Z) (n : nat) : list Event :=
  List.map (fun i => EvListRepoPullRequests owner repo (pageRequest (k + Z.of_nat i)))
           (seq 0 n).

Definition demoPull (index : Z) : PullRequest.t :=
  {| PullRequest.Index := index;
     PullRequest.URL := "https://gitea.test/api/v1/repos/acme/demo/pulls/" +:+ Itoa index;
     PullRequest.HTMLURL := "https://gitea.test/acme/demo/pulls/" +:+ Itoa index;
     PullRequest.Poster :=
       Some {| User.UserName := "dev"; User.FullName := "Dev"; User.Email := "";
               User.AvatarURL := "" |};
     PullRequest.Title := "change " +:+ Itoa index;
     PullRequest.Body := "";
     PullRequest.State := "open";
     PullRequest.HasMerged := false;
     PullRequest.Mergeable := true;
     PullRequest.Merged := None;
     PullRequest.MergedCommitID := None;
     PullRequest.Head := Some {| PRBranchInfo.Sha := "abc" +:+ Itoa index |} |}.

Definition pullServer (pulls : list PullRequest.t) : Fake.state :=
  Fake.mkState false 0%N [] 0%nat [] pulls 2%nat [] [] [].


(** The owner [ForkRepository] polls for. *)
Definition forkOwner (p : GiteaProvider.t) (destinationOrg : string) : string :=
  if decide (destinationOrg = "") then GiteaProvider.Username p else destinationOrg.

(** One round of the polling loop of [ForkRepository]: the sleep, then the
    request; its reply and the world after it. *)
Definition pollOnce {B} (c : Client.t B) (owner name : string) (w : World B)
  : Reply (option Repository.t) * World B :=
  let slept := mkWorld (backend w) (now w + 5 * Second) (trace w ++ [EvSleep (5 * Second)]) in
  let '(r, b) := Client.GetRepo c owner name (backend slept) in
  (r, mkWorld b (now slept + Client.elapsed c b) (trace slept ++ [EvGetRepo owner name])).

(** The world after [n] rounds, and the [k]-th round itself, [k] from 1. *)
Fixpoint afterPolls {B} (c : Client.t B) (owner name : string) (n : nat) (w : World B)
  : World B :=
  match n with
  | O => w
  | S n' => afterPolls c owner name n' (snd (pollOnce c owner name w))
  end.

Definition attempt {B} (c : Client.t B) (owner name : string) (k : nat) (w : World B)
  : Reply (option Repository.t) * World B :=
  pollOnce c owner name (afterPolls c owner name (pred k) w).

(** The repository of a reply that has one and no error. *)
Definition found (r : Reply (option Repository.t)) : option Repository.t :=
  match value r, failure r with
  | Some repo, None => Some repo
  | _, _ => None
  end.

Definition forkingServer (delay : nat) : Fake.state :=
  Fake.mkState false 0%N [] delay [] [] 2%nat [] [] [].


(** ** The rest of the adapter

    The types, the client methods and the methods of [GiteaProvider] that
    the statements above do not need. *)

Module Organization.
Record t := { UserName : string }.
End Organization.

Module Attachment.
Record t := { ID : Z; Name : string; DownloadCount : Z; DownloadURL : string }.
End Attachment.

(** [gitea.Release] with its [Attachments], which [Release.t] leaves out. *)
Module FullRelease.
Record t := { base : Release.t; Attachments : list Attachment.t }.
End FullRelease.

Module ListReleasesOptions.
Record t := { Page : Z; PageSize : Z }.
Definition zero : t := {| Page := 0; PageSize := 0 |}.
End ListReleasesOptions.

Module CreatePullRequestOption.
Record t := { Head : string; Base : string; Title : string; Body : string }.
Definition zero : t := {| Head := ""; Base := ""; Title := ""; Body := "" |}.
Definition with_Title (o : t) (v : string) : t :=
  {| Head := Head o; Base := Base o; Title := v; Body := Body o |}.
Definition with_Body (o : t) (v : string) : t :=
  {| Head := Head o; Base := Base o; Title := Title o; Body := v |}.
Definition with_Head (o : t) (v : string) : t :=
  {| Head := v; Base := Base o; Title := Title o; Body := Body o |}.
Definition with_Base (o : t) (v : string) : t :=
  {| Head := Head o; Base := v; Title := Title o; Body := Body o |}.
End CreatePullRequestOption.

Module MergePullRequestOption.
Record t := { Style : string; Title : string; Message : string }.
End MergePullRequestOption.

(** [gitea.MergeStyleMerge] and [gitea.StateClosed]. *)
Definition MergeStyleMerge : string := "merge".

Module ListIssueOption.
Record t := { Page : Z; State : string; KeyWord : string }.
Definition with_Page (o : t) (page : Z) : t :=
  {| Page := page; State := State o; KeyWord := KeyWord o |}.
End ListIssueOption.

Module CreateIssueOption.
Record t := { Title : string; Body : string }.
End CreateIssueOption.

Module CreateIssueCommentOption.
Record t := { Body : string }.
End CreateIssueCommentOption.

(** Modelled from the spec: [GitOrganisation] and [GitReleaseAsset],
    declared elsewhere in package gits. *)
Module GitOrganisation.
Record t := { Login : string }.
End GitOrganisation.

Module GitReleaseAsset.
Record t := { ID : Z; Name : string; BrowserDownloadURL : string }.
End GitReleaseAsset.

(** Modelled from the spec: [GitRelease] with the fields [toGiteaRelease]
    assigns and [GitRelease.t] leaves out. *)
Module FullGitRelease.
Record t := {
  base : GitRelease.t;
  ID : Z;
  HTMLURL : string;
  DownloadCount : Z;
  Assets : option (list GitReleaseAsset.t)
}.
End FullGitRelease.

(** Modelled from the spec: [GitPullRequestArguments], declared elsewhere
    in package gits; of the [GitRepository] it points to the method reads
    [Organisation] and [Name]. *)
Module GitPullRequestArguments.
Record t := {
  Organisation : string;
  Name : string;
  Title : string;
  Body : string;
  Head : string;
  Base : string
}.
End GitPullRequestArguments.

(** The further methods of [*gitea.Client], over the same state as
    [Client.t].  Where gitea.go does not look at the value a method
    returns, the value is [unit]. *)
Module More.
Record t (B : Type) := {
  ListMyOrgs : B -> Reply (list Organization.t) * B;
  ListReleases :
    string -> string -> ListReleasesOptions.t -> B -> Reply (list FullRelease.t) * B;
  DeleteRepo : string -> string -> B -> Reply unit * B;
  CreatePullRequest :
    string -> string -> CreatePullRequestOption.t -> B -> Reply (option PullRequest.t) * B;
  GetPullRequest : string -> string -> Z -> B -> Reply (option PullRequest.t) * B;
  ListRepoIssues : string -> string -> ListIssueOption.t -> B -> Reply (list Issue.t) * B;
  CreateIssue : string -> string -> CreateIssueOption.t -> B -> Reply (option Issue.t) * B;
  MergePullRequest :
    string -> string -> Z -> MergePullRequestOption.t -> B -> Reply unit * B;
  CreateIssueComment :
    string -> string -> Z -> CreateIssueCommentOption.t -> B -> Reply unit * B;
  GetUserInfo : string -> B -> Reply (option User.t) * B
}.
Arguments ListMyOrgs {B} _ _.
Arguments ListReleases {B} _ _ _ _ _.
Arguments DeleteRepo {B} _ _ _ _.
Arguments CreatePullRequest {B} _ _ _ _ _.
Arguments GetPullRequest {B} _ _ _ _ _.
Arguments ListRepoIssues {B} _ _ _ _ _.
Arguments CreateIssue {B} _ _ _ _ _.
Arguments MergePullRequest {B} _ _ _ _ _ _.
Arguments CreateIssueComment {B} _ _ _ _ _ _.
Arguments GetUserInfo {B} _ _ _.
End More.

(** One request through a method of [More.t].  [Event] has no name for
    these requests: the trace is left as it is, the state and the clock
    move as for [call]. *)
Definition request {B A} (c : Client.t B) (method : B -> Reply A * B) : M B (Reply A) :=
  fun w =>
    let '(r, b) := method (backend w) in
    (Ret r, mkWorld b (now w + Client.elapsed c b) (trace w)).

(** [errors.Wrapf] of github.com/pkg/errors, on an error that is not nil. *)
Definition Wrapf (e : error) (msg : string) : error := Errorf (msg +:+ ": " +:+ Error e).

Definition toGiteaRelease (release : FullRelease.t) : FullGitRelease.t :=
  let '(totalDownloadCount, assets) :=
    fold_left
      (fun acc asset =>
         let '(totalDownloadCount, assets) := acc in
         (int_add totalDownloadCount (Attachment.DownloadCount asset),
          assets ++ [{| GitReleaseAsset.ID := Attachment.ID asset;
                        GitReleaseAsset.Name := Attachment.Name asset;
                        GitReleaseAsset.BrowserDownloadURL := Attachment.DownloadURL asset |}]))
      (FullRelease.Attachments release) (0, []) in
  {| FullGitRelease.ID := Release.ID (FullRelease.base release);
     FullGitRelease.base :=
       {| GitRelease.Name := Release.Title (FullRelease.base release);
          GitRelease.TagName := Release.TagName (FullRelease.base release);
          GitRelease.Body := Release.Note (FullRelease.base release);
          GitRelease.PreRelease := Release.IsPrerelease (FullRelease.base release);
          GitRelease.URL := Release.URL (FullRelease.base release) |};
     FullGitRelease.HTMLURL := Release.URL (FullRelease.base release);
     FullGitRelease.DownloadCount := totalDownloadCount;
     FullGitRelease.Assets := Some assets |}.

Section MoreProvider.
Context {B : Type}.
Variable c : Client.t B.
Variable x : More.t B.
Variable p : GiteaProvider.t.

Definition ListOrganisations : M B (list GitOrganisation.t * option error) :=
  let answer : list GitOrganisation.t := [] in
  let* r := request c (More.ListMyOrgs x) in
  match err r with
  | Some e => ret (answer, Some e)
  | None =>
      ret (fold_left
             (fun answer org =>
                let name := Organization.UserName org in
                if decide (name ≠ "") then answer ++ [{| GitOrganisation.Login := name |}]
                else answer)
             (value r) answer,
           None)
  end.

Definition ListReleases (org name : string)
  : M B (list FullGitRelease.t * option error) :=
  let owner := if decide (org = "") then GiteaProvider.Username p else org in
  let answer : list FullGitRelease.t := [] in
  let* r := request c (More.ListReleases x owner name ListReleasesOptions.zero) in
  match err r with
  | Some e => ret (answer, Some e)
  | None =>
      ret (fold_left (fun answer r => answer ++ [toGiteaRelease r]) (value r) answer, None)
  end.

Definition GetLatestRelease (org name : string)
  : M B (option FullGitRelease.t * option error) :=
  let* r := request c (More.ListReleases x org name
                         {| ListReleasesOptions.Page := 1;
                            ListReleasesOptions.PageSize := 1 |}) in
  match err r with
  | Some e =>
      ret (None, Some (Wrapf e ("getting releases for " +:+ org +:+ "/" +:+ name)))
  | None =>
      match value r with
      | release :: _ => ret (Some (toGiteaRelease release), None)
      | [] => ret (None, None)
      end
  end.

Definition GetRepository (org name : string)
  : M B (option GitRepository.t * option error) :=
  let* r := call c (Client.GetRepo c org name) (EvGetRepo org name) in
  match err r with
  | Some e =>
      ret (None,
           Some (Errorf ("Failed to get repository " +:+ org +:+ "/" +:+ name
                         +:+ " due to: " +:+ Error e)))
  | None =>
      let* repo := deref (value r) in
      ret (Some (toGiteaRepo name repo), None)
  end.

Definition DeleteRepository (org name : string) : M B (option error) :=
  let owner := if decide (org = "") then GiteaProvider.Username p else org in
  let* r := request c (More.DeleteRepo x owner name) in
  match err r with
  | Some e =>
      ret (Some (Errorf ("Failed to delete repository " +:+ owner +:+ "/" +:+ name
                         +:+ " due to: " +:+ Error e)))
  | None => ret None
  end.

Definition CreatePullRequest (data : GitPullRequestArguments.t)
  : M B (option GitPullRequest.t * option error) :=
  let owner := GitPullRequestArguments.Organisation data in
  let repo := GitPullRequestArguments.Name data in
  let title := GitPullRequestArguments.Title data in
  let body := GitPullRequestArguments.Body data in
  let head := GitPullRequestArguments.Head data in
  let base := GitPullRequestArguments.Base data in
  let config := CreatePullRequestOption.zero in
  let config :=
    if decide (title ≠ "") then CreatePullRequestOption.with_Title config title
    else config in
  let config :=
    if decide (body ≠ "") then CreatePullRequestOption.with_Body config body
    else config in
  let config :=
    if decide (head ≠ "") then CreatePullRequestOption.with_Head config head
    else config in
  let config :=
    if decide (base ≠ "") then CreatePullRequestOption.with_Base config base
    else config in
  let* r := request c (More.CreatePullRequest x owner repo config) in
  match err r with
  | Some e => ret (None, Some e)
  | None =>
      let* pr := deref (value r) in
      let id := PullRequest.Index pr in
      ret (Some {| GitPullRequest.URL := PullRequest.HTMLURL pr;
                   GitPullRequest.Number := Some id;
                   GitPullRequest.Owner := GitPullRequestArguments.Organisation data;
                   GitPullRequest.Repo := GitPullRequestArguments.Name data;
                   GitPullRequest.Author := None;
                   GitPullRequest.Merged := None;
                   GitPullRequest.Mergeable := None;
                   GitPullRequest.MergedAt := None;
                   GitPullRequest.MergeCommitSHA := None;
                   GitPullRequest.Title := "";
                   GitPullRequest.Body := "";
                   GitPullRequest.State := None;
                   GitPullRequest.LastCommitSha :=
                     match PullRequest.Head pr with
                     | Some head => PRBranchInfo.Sha head
                     | None => ""
                     end |},
           None)
  end.

Variable goSyntaxPR : GitPullRequest.t -> string.

(** [UpdatePullRequestStatus] writes through its [pr] pointer: the struct
    as the method leaves it is returned next to the error. *)
Definition UpdatePullRequestStatus (pr : GitPullRequest.t)
  : M B (GitPullRequest.t * option error) :=
  match GitPullRequest.Number pr with
  | None =>
      ret (pr, Some (Errorf ("Missing Number for GitPullRequest " +:+ goSyntaxPR pr)))
  | Some n =>
      let* r := request c (More.GetPullRequest x (GitPullRequest.Owner pr)
                             (GitPullRequest.Repo pr) n) in
      match err r with
      | Some e =>
          ret (pr,
               Some (Errorf ("Could not find pull request for " +:+ GitPullRequest.Owner pr
                             +:+ "/" +:+ GitPullRequest.Repo pr +:+ " #" +:+ Itoa n
                             +:+ ": " +:+ Error e)))
      | None =>
          let* result := deref (value r) in
          let* pr := updatePullRequest pr result in
          ret (pr, None)
      end
  end.

Definition GetPullRequest (owner : string) (repo : GitRepository.t) (number : Z)
  : M B (GitPullRequest.t * option error) :=
  let pr :=
    {| GitPullRequest.Owner := owner;
       GitPullRequest.Repo := GitRepository.Name repo;
       GitPullRequest.Number := Some number;
       GitPullRequest.URL := "";
       GitPullRequest.Author := None;
       GitPullRequest.Merged := None;
       GitPullRequest.Mergeable := None;
       GitPullRequest.MergedAt := None;
       GitPullRequest.MergeCommitSHA := None;
       GitPullRequest.Title := "";
       GitPullRequest.Body := "";
       GitPullRequest.State := None;
       GitPullRequest.LastCommitSha := "" |} in
  UpdatePullRequestStatus pr.

Variable UrlJoin : list string -> string.

(** The [range] loop of [searchIssuesWithOptions]; the slice holds the
    pointers as [fromGiteaIssue] hands them over. *)
Fixpoint convertIssues (org name : string) (issues : list Issue.t)
    (answer : list (option GitIssue.t))
  : M B (list (option GitIssue.t) * option error) :=
  match issues with
  | [] => ret (answer, None)
  | issue :: issues' =>
      let* (i, err) := fromGiteaIssue p UrlJoin org name issue in
      match err with
      | Some e => ret (answer, Some e)
      | None => convertIssues org name issues' (answer ++ [i])
      end
  end.

Definition searchIssuesWithOptions (org name : string) (opts : ListIssueOption.t)
  : M B (list (option GitIssue.t) * option error) :=
  let opts := ListIssueOption.with_Page opts 0 in
  let answer : list (option GitIssue.t) := [] in
  let* r := request c (More.ListRepoIssues x org name opts) in
  match err r with
  | Some e =>
      if hasStatus (resp r) 404 then ret (answer, None)
      else ret (answer, Some e)
  | None => convertIssues org name (value r) answer
  end.

Definition SearchIssues (org name filter : string)
  : M B (list (option GitIssue.t) * option error) :=
  let opts :=
    {| ListIssueOption.KeyWord := filter; ListIssueOption.Page := 0;
       ListIssueOption.State := "" |} in
  searchIssuesWithOptions org name opts.

(** [FilterIssuesClosedSince], of another file of package gits. *)
Variable FilterIssuesClosedSince : list (option GitIssue.t) -> Time -> list (option GitIssue.t).


Definition CreateIssue (owner repo : string) (issue : GitIssue.t)
  : M B (option GitIssue.t * option error) :=
  let config :=
    {| CreateIssueOption.Title := GitIssue.Title issue;
       CreateIssueOption.Body := GitIssue.Body issue |} in
  let* r := request c (More.CreateIssue x owner repo config) in
  match err r with
  | Some e => ret (None, Some e)
  | None =>
      let* i := deref (value r) in
      fromGiteaIssue p UrlJoin owner repo i
  end.

Definition MergePullRequest (pr : GitPullRequest.t) (message : string)
  : M B (option error) :=
  match GitPullRequest.Number pr with
  | None => ret (Some (Errorf ("Missing Number for GitPullRequest " +:+ goSyntaxPR pr)))
  | Some n =>
      let* r := request c (More.MergePullRequest x (GitPullRequest.Owner pr)
                             (GitPullRequest.Repo pr) n
                             {| MergePullRequestOption.Style := MergeStyleMerge;
                                MergePullRequestOption.Title :=
                                  GitPullRequest.Title pr +:+ " (#" +:+ Itoa n +:+ ")";
                                MergePullRequestOption.Message := message |}) in
      ret (err r)
  end.

Definition AddPRComment (pr : GitPullRequest.t) (comment : string) : M B (option error) :=
  match GitPullRequest.Number pr with
  | None => ret (Some (Errorf ("Missing Number for GitPullRequest " +:+ goSyntaxPR pr)))
  | Some n =>
      let prComment := {| CreateIssueCommentOption.Body := comment |} in
      let* r := request c (More.CreateIssueComment x (GitPullRequest.Owner pr)
                             (GitPullRequest.Repo pr) n prComment) in
      ret (err r)
  end.

Definition CreateIssueComment (owner repo : string) (number : Z) (comment : string)
  : M B (option error) :=
  let issueComment := {| CreateIssueCommentOption.Body := comment |} in
  let* r := request c (More.CreateIssueComment x owner repo number issueComment) in
  match err r with
  | Some e => ret (Some e)
  | None => ret None
  end.

(** [p.Git.RepoName], of the [Gitter] the provider holds. *)
Variable RepoName : string -> string -> string.

Definition ValidateRepositoryName (org name : string) : M B (option error) :=
  let* r := call c (Client.GetRepo c org name) (EvGetRepo org name) in
  match err r with
  | None => ret (Some (Errorf ("Repository " +:+ RepoName org name +:+ " already exists")))
  | Some e =>
      if hasStatus (resp r) 404 then ret None
      else ret (Some e)
  end.

Definition UpdateReleaseStatus (owner repo tag : string) (releaseInfo : GitRelease.t)
  : M B (option error) :=
  let* r := call c (Client.GetReleaseByTag c owner repo tag)
                 (EvGetReleaseByTag owner repo tag) in
  match err r with
  | Some e => ret (Some e)
  | None =>
      let* release := deref (value r) in
      let editRelease :=
        {| EditReleaseOption.TagName := Release.TagName release;
           EditReleaseOption.Title := Release.Title release;
           EditReleaseOption.Note := Release.Note release;
           EditReleaseOption.IsDraft := OptionalBool false;
           EditReleaseOption.IsPrerelease := None |} in
      let editRelease :=
        if decide (Release.IsPrerelease release ≠ GitRelease.PreRelease releaseInfo)
        then {| EditReleaseOption.TagName := EditReleaseOption.TagName editRelease;
                EditReleaseOption.Title := EditReleaseOption.Title editRelease;
                EditReleaseOption.Note := EditReleaseOption.Note editRelease;
                EditReleaseOption.IsDraft := EditReleaseOption.IsDraft editRelease;
                EditReleaseOption.IsPrerelease := Some (GitRelease.PreRelease releaseInfo) |}
        else editRelease in
      let* r' := call c (Client.EditRelease c owner repo (Release.ID release) editRelease)
                      (EvEditRelease owner repo (Release.ID release) editRelease) in
      match err r' with
      | Some e => ret (Some e)
      | None => ret None
      end
  end.

Definition UserInfo (username : string) : M B (option GitUser.t) :=
  let* r := request c (More.GetUserInfo x username) in
  match err r with
  | Some _ => ret None
  | None =>
      let* user := deref (value r) in
      ret (Some {| GitUser.Login := User.UserName user;
                   GitUser.Name := User.FullName user;
                   GitUser.AvatarURL := User.AvatarURL user;
                   GitUser.Email := User.Email user;
                   GitUser.URL :=
                     AuthServer.URL (GiteaProvider.Server p) +:+ "/" +:+ User.UserName user |})
  end.

Definition IsWikiEnabled (owner repo : string) : M B (bool * option error) :=
  let* r := call c (Client.GetRepo c owner repo) (EvGetRepo owner repo) in
  match value r, err r with
  | Some r', None => ret (Repository.HasWiki r', None)
  | _, e => ret (false, e)
  end.

End MoreProvider.


(** A test double for [More.t] over the state of [Fake]: it answers from a
    script, and fails in transport when the server is offline. *)
Module Script.

Record t := {
  orgs : list Organization.t;
  releases : list FullRelease.t;
  pulls : list PullRequest.t;
  issues : option (list Issue.t);
  users : list User.t
}.

Definition lookup {A} (found : option A) : Fake.state -> Reply (option A) * Fake.state :=
  Fake.online None (fun b =>
    match found with
    | Some a => (mkReply (Some a) Fake.ok None, b)
    | None => (mkReply None Fake.not_found (Some "404 Not Found"), b)
    end).

Definition new_pull (opt : CreatePullRequestOption.t) (index : Z) : PullRequest.t :=
  {| PullRequest.Index := index;
     PullRequest.URL := "https://gitea.test/api/v1/pulls/" +:+ Itoa index;
     PullRequest.HTMLURL := "https://gitea.test/pulls/" +:+ Itoa index;
     PullRequest.Poster :=
       Some {| User.UserName := "me"; User.FullName := ""; User.Email := "";
               User.AvatarURL := "" |};
     PullRequest.Title := CreatePullRequestOption.Title opt;
     PullRequest.Body := CreatePullRequestOption.Body opt;
     PullRequest.State := "open";
     PullRequest.HasMerged := false;
     PullRequest.Mergeable := true;
     PullRequest.Merged := None;
     PullRequest.MergedCommitID := None;
     PullRequest.Head := Some {| PRBranchInfo.Sha := "f00d" |} |}.

Definition client (s : t) : More.t Fake.state :=
  {| More.ListMyOrgs := Fake.online [] (fun b => (mkReply (orgs s) Fake.ok None, b));
     More.ListReleases :=
       fun _ _ opt =>
         Fake.online [] (fun b =>
           (mkReply (if decide (ListReleasesOptions.PageSize opt = 0) then releases s
                     else take (Z.to_nat (ListReleasesOptions.PageSize opt)) (releases s))
                    Fake.ok None, b));
     More.DeleteRepo :=
       fun _ name =>
         Fake.online tt (fun b =>
           match Fake.find_repo name b with
           | Some _ =>
               (mkReply tt Fake.ok None,
                Fake.with_repos b
                  (List.filter (fun r => negb (bool_decide (Repository.Name r = name)))
                               (Fake.repos b)))
           | None => (mkReply tt Fake.not_found (Some "404 Not Found"), b)
           end);
     More.CreatePullRequest :=
       fun _ _ opt =>
         Fake.online None (fun b =>
           (mkReply (Some (new_pull opt (len (pulls s) + 1))) Fake.ok None, b));
     More.GetPullRequest :=
       fun _ _ index =>
         lookup (List.find (fun pr => bool_decide (PullRequest.Index pr = index)) (pulls s));
     More.ListRepoIssues :=
       fun _ _ _ =>
         Fake.online [] (fun b =>
           match issues s with
           | Some found => (mkReply found Fake.ok None, b)
           | None => (mkReply [] Fake.not_found (Some "404 Not Found"), b)
           end);
     More.CreateIssue := fun _ _ _ => lookup None;
     More.MergePullRequest :=
       fun _ _ index _ =>
         Fake.online tt (fun b =>
           match List.find (fun pr => bool_decide (PullRequest.Index pr = index)) (pulls s) with
           | Some _ => (mkReply tt Fake.ok None, b)
           | None => (mkReply tt Fake.not_found (Some "404 Not Found"), b)
           end);
     More.CreateIssueComment :=
       fun _ _ _ _ => Fake.online tt (fun b => (mkReply tt Fake.ok None, b));
     More.GetUserInfo :=
       fun username =>
         lookup (List.find (fun u => bool_decide (User.UserName u = username)) (users s)) |}.

Definition empty : t :=
  {| orgs := []; releases := []; pulls := []; issues := None; users := [] |}.

End Script.

(** A client that serves the same full page whatever page it is asked for. *)
Definition endless : Client.t Fake.state :=
  {| Client.ListMyRepos := Client.ListMyRepos Fake.client;
     Client.ListOrgRepos := Client.ListOrgRepos Fake.client;
     Client.CreateOrgRepo := Client.CreateOrgRepo Fake.client;
     Client.CreateRepo := Client.CreateRepo Fake.client;
     Client.CreateFork := Client.CreateFork Fake.client;
     Client.GetRepo := Client.GetRepo Fake.client;
     Client.ListRepoHooks := Client.ListRepoHooks Fake.client;
     Client.CreateRepoHook := Client.CreateRepoHook Fake.client;
     Client.ListRepoPullRequests :=
       fun _ _ _ b => (mkReply [demoPull 1; demoPull 2] Fake.ok None, b);
     Client.GetIssue := Client.GetIssue Fake.client;
     Client.ListStatuses := Client.ListStatuses Fake.client;
     Client.GetReleaseByTag := Client.GetReleaseByTag Fake.client;
     Client.CreateRelease := Client.CreateRelease Fake.client;
     Client.EditRelease := Client.EditRelease Fake.client;
     Client.elapsed := Client.elapsed Fake.client |}.

(** The asset [toGiteaRelease] makes of an attachment, and the sum of the
    download counts of attachments. *)
Definition assetOf (asset : Attachment.t) : GitReleaseAsset.t :=
  {| GitReleaseAsset.ID := Attachment.ID asset;
     GitReleaseAsset.Name := Attachment.Name asset;
     GitReleaseAsset.BrowserDownloadURL := Attachment.DownloadURL asset |}.

Definition downloads (attachments : list Attachment.t) : Z :=
  foldr Z.add 0 (List.map Attachment.DownloadCount attachments).

Definition demoAttachment (id count : Z) : Attachment.t :=
  {| Attachment.ID := id; Attachment.Name := "asset-" +:+ Itoa id;
     Attachment.DownloadCount := count;
     Attachment.DownloadURL := "https://gitea.test/attachments/" +:+ Itoa id |}.

Definition demoFullRelease (attachments : list Attachment.t) : FullRelease.t :=
  {| FullRelease.base := demoRelease; FullRelease.Attachments := attachments |}.

Definition demoUser (name : string) : User.t :=
  {| User.UserName := name; User.FullName := "Full " +:+ name;
     User.Email := name +:+ "@gitea.test"; User.AvatarURL := "" |}.

Definition demoIssue (id : Z) (poster : option User.t) : Issue.t :=
  {| Issue.ID := id; Issue.Title := "issue " +:+ Itoa id; Issue.Body := "";
     Issue.State := "open"; Issue.Poster := poster;
     Issue.Labels := [{| Label.Name := "bug"; Label.Color := "ff0000"; Label.URL := "" |}];
     Issue.Assignees := [demoUser "dev"];
     Issue.PullRequest := None; Issue.Created := 1; Issue.Updated := 2;
     Issue.Closed := None |}.

(** The request [CreatePullRequest] sends for its arguments. *)
Definition pullRequestOption (data : GitPullRequestArguments.t) : CreatePullRequestOption.t :=
  {| CreatePullRequestOption.Head := GitPullRequestArguments.Head data;
     CreatePullRequestOption.Base := GitPullRequestArguments.Base data;
     CreatePullRequestOption.Title := GitPullRequestArguments.Title data;
     CreatePullRequestOption.Body := GitPullRequestArguments.Body data |}.

Definition demoPullArguments : GitPullRequestArguments.t :=
  {| GitPullRequestArguments.Organisation := "acme";
     GitPullRequestArguments.Name := "demo";
     GitPullRequestArguments.Title := "Fix the build";
     GitPullRequestArguments.Body := "";
     GitPullRequestArguments.Head := "fix";
     GitPullRequestArguments.Base := "" |}.

(** A [GitPullRequest] with a number and without. *)
Definition numbered (number : option Z) : GitPullRequest.t :=
  {| GitPullRequest.URL := "https://old.test/1"; GitPullRequest.Author := None;
     GitPullRequest.Owner := "acme"; GitPullRequest.Repo := "demo";
     GitPullRequest.Number := number; GitPullRequest.Mergeable := None;
     GitPullRequest.Merged := None; GitPullRequest.State := None;
     GitPullRequest.Title := "Fix"; GitPullRequest.Body := "";
     GitPullRequest.MergeCommitSHA := None; GitPullRequest.MergedAt := None;
     GitPullRequest.LastCommitSha := "stale" |}.

(** What the two status methods make of one status of the backend. *)
Definition statusOf (result : Status.t) : GitRepoStatus.t :=
  {| GitRepoStatus.ID := Itoa (Status.ID result);
     GitRepoStatus.Context := Status.Context result;
     GitRepoStatus.URL := Status.URL result;
     GitRepoStatus.TargetURL := Status.TargetURL result;
     GitRepoStatus.State := Status.State result;
     GitRepoStatus.Description := Status.Description result |}.


(** [g] is the pointer to what [fromGiteaIssue] makes of the issue [i]. *)
Definition issueOf (p : GiteaProvider.t) (UrlJoin : list string -> string)
    (org name : string) (i : Issue.t) (g : option GitIssue.t) : Prop :=
  exists gi,
    g = Some gi
    /\ GitIssue.Number gi = Some (Issue.ID i)
    /\ GitIssue.URL gi = IssueURL p UrlJoin org name (Issue.ID i) false
    /\ GitIssue.Title gi = Issue.Title i
    /\ GitIssue.State gi = Some (Issue.State i)
    /\ GitIssue.Labels gi = List.map toGiteaLabel (Issue.Labels i)
    /\ GitIssue.Assignees gi
       = List.map (toGiteaUser (AuthServer.URL (GiteaProvider.Server p))) (Issue.Assignees i).

(** A pull request of the listing that bears the owner and repo asked for,
    a number and an author. *)
Definition listedFor (owner repo : string) (g : GitPullRequest.t) : Prop :=
  GitPullRequest.Owner g = owner
  /\ GitPullRequest.Repo g = repo
  /\ is_Some (GitPullRequest.Number g)
  /\ is_Some (GitPullRequest.Author g).



Definition issueScript : Script.t :=
  {| Script.orgs := []; Script.releases := []; Script.pulls := [];
     Script.issues := Some [demoIssue 5 (Some (demoUser "dev"));
                            demoIssue 9 (Some (demoUser "ops"))];
     Script.users := [demoUser "dev"] |}.

Definition issueServer : Fake.state :=
  Fake.mkState false 0%N [] 0%nat [] [] 2%nat [demoIssue 5 (Some (demoUser "dev"))] [] [].

(** * Properties *)

(** ** Helpers *)

Lemma fold_left_snoc {X Y} (f : X -> Y) (xs : list X) (acc : list Y) :
  fold_left (fun acc x => acc ++ [f x]) xs acc = acc ++ List.map f xs.
Proof.
  revert acc. induction xs as [|x xs IH]; intros acc; simpl.
  - by rewrite app_nil_r.
  - rewrite IH. by rewrite <- app_assoc.
Qed.

(** Unfolds the monad in the goal. *)
Ltac run := unfold bind, call, ret, deref, out_of_fuel, Sleep, Now; simpl.

(** ** ListRepositories *)

Section ListRepositories_facts.
Context {B : Type} (c : Client.t B).

Lemma ListRepositories_unfold org w :
  ListRepositories c org w =
  let '(r, b) := listing c org (backend w) in
  (Ret (match err r with
        | Some e => ([], Some e)
        | None => (List.map (fun repo => toGiteaRepo (Repository.Name repo) repo) (value r),
                   None)
        end),
   mkWorld b (now w + Client.elapsed c b)
           (trace w ++ [if decide (org = "") then EvListMyRepos else EvListOrgRepos org])).
Proof.
  unfold ListRepositories, listing. destruct (decide (org = "")); run.
  - destruct (Client.ListMyRepos c (backend w)) as [r b]; simpl.
    destruct (err r); simpl; [done|]. by rewrite fold_left_snoc.
  - destruct (Client.ListOrgRepos c org (backend w)) as [r b]; simpl.
    destruct (err r); simpl; [done|]. by rewrite fold_left_snoc.
Qed.

(** C9, as amended: in the list a successful [ListRepositories] returns,
    the [Name] of every repository is the [Name] of the corresponding
    repository object of the backend, in the same order; so it is
    non-empty exactly when the backend's object carries a name. *)
Theorem ListRepositories_names org w answer w' :
  ListRepositories c org w = (Ret (answer, None), w') ->
  List.map GitRepository.Name answer
  = List.map Repository.Name (value (fst (listing c org (backend w)))).
Proof.
  rewrite ListRepositories_unfold.
  destruct (listing c org (backend w)) as [r b]; simpl.
  destruct (err r); intros H; inversion H; subst.
  rewrite List.map_map. reflexivity.
Qed.

End ListRepositories_facts.

Lemma ListRepositories_names_witness :
  List.map GitRepository.Name [toGiteaRepo "" nameless] = [""].
Proof.
  apply (ListRepositories_names Fake.client ""
           (Fake.boot (Fake.with_repos Fake.empty [nameless]))
           [toGiteaRepo "" nameless]
           (mkWorld (Fake.with_repos Fake.empty [nameless]) 0 [EvListMyRepos])).
  reflexivity.
Defined.

(** C9 as stated fails: the backend lists a repository without a name and
    the call succeeds with a repository whose [Name] is empty. *)
Lemma ListRepositories_empty_name :
  exists answer w',
    ListRepositories Fake.client "" (Fake.boot (Fake.with_repos Fake.empty [nameless]))
    = (Ret (answer, None), w')
    /\ ~ (forall g, g ∈ answer -> GitRepository.Name g <> "").
Proof.
  eexists _, _. split; [reflexivity|].
  intros H. apply (H (toGiteaRepo "" nameless)); [|reflexivity].
  apply list_elem_of_here.
Qed.

(** ** CreateRepository *)

Section CreateRepository_facts.
Context {B : Type} (c : Client.t B).

(** C1 fails on the code: for a non-empty [org] the method sends the
    org-scoped request and then, whatever came back, the user-scoped one;
    what it returns is made from the reply to the second. *)
Theorem CreateRepository_org_then_user org name private w r1 b1 r2 b2 :
  org <> "" ->
  let options :=
    {| CreateRepoOption.Name := name; CreateRepoOption.Private := private |} in
  Client.CreateOrgRepo c org options (backend w) = (r1, b1) ->
  Client.CreateRepo c options b1 = (r2, b2) ->
  CreateRepository c org name private w =
  (match err r2, value r2 with
   | Some e, _ =>
       Ret (None, Some (Errorf ("Failed to create repository " +:+ org +:+ "/" +:+ name
                                +:+ " due to: " +:+ Error e)))
   | None, Some repo => Ret (Some (toGiteaRepo name repo), None)
   | None, None => NilDereference
   end,
   mkWorld b2 (now w + Client.elapsed c b1 + Client.elapsed c b2)
           (trace w ++ [EvCreateOrgRepo org options; EvCreateRepo options])).
Proof.
  intros Horg options H1 H2. unfold CreateRepository. fold options.
  destruct (decide (Z.of_nat (String.length org) ≠ 0)) as [_|Hlen].
  - run. rewrite H1. simpl. rewrite H2. simpl.
    rewrite <- app_assoc. simpl.
    destruct (err r2); [reflexivity|]. destruct (value r2); reflexivity.
  - exfalso. destruct org; [done|]. apply Hlen. simpl. lia.
Qed.

(** With an empty [org] only the user-scoped request is sent. *)
Lemma CreateRepository_user name private w r2 b2 :
  let options :=
    {| CreateRepoOption.Name := name; CreateRepoOption.Private := private |} in
  Client.CreateRepo c options (backend w) = (r2, b2) ->
  trace (snd (CreateRepository c "" name private w)) = trace w ++ [EvCreateRepo options].
Proof.
  intros options H2. unfold CreateRepository. fold options. run. rewrite H2. simpl.
  destruct (err r2); [reflexivity|]. destruct (value r2); reflexivity.
Qed.

End CreateRepository_facts.

Lemma CreateRepository_org_then_user_witness :
  trace (snd (CreateRepository Fake.client "acme" "demo" false (Fake.boot Fake.empty)))
  = [EvCreateOrgRepo "acme" {| CreateRepoOption.Name := "demo"; CreateRepoOption.Private := false |};
     EvCreateRepo {| CreateRepoOption.Name := "demo"; CreateRepoOption.Private := false |}].
Proof.
  rewrite (CreateRepository_org_then_user Fake.client "acme" "demo" false
             (Fake.boot Fake.empty) _ _ _ _ ltac:(discriminate) eq_refl eq_refl).
  reflexivity.
Defined.

(** ** CreateWebHook *)

Lemma alreadyRegistered_Exists hooks url :
  alreadyRegistered hooks url = true <-> Exists (targets url) hooks.
Proof.
  induction hooks as [|hook hooks IH]; simpl.
  - split; [discriminate|]. intros H. inversion H.
  - destruct (decide (default "" (Hook.Config hook !! "url") = url)) as [Heq|Hne].
    + split; [|done]. intros _. by apply Exists_cons_hd.
    + rewrite IH. split.
      * intros H. by apply Exists_cons_tl.
      * intros H. inversion H; subst; [contradiction|done].
Qed.

Lemma alreadyRegistered_Forall hooks url :
  alreadyRegistered hooks url = false <-> Forall (fun hook => ~ targets url hook) hooks.
Proof.
  rewrite Forall_Exists_neg. rewrite <- alreadyRegistered_Exists.
  destruct (alreadyRegistered hooks url); split; congruence.
Qed.

Lemma hookOption_url data :
  CreateHookOption.Config (hookOption data) !! "url" = Some (GitWebHookArguments.URL data).
Proof.
  unfold hookOption. simpl.
  destruct (decide (GitWebHookArguments.Secret data ≠ "")).
  - rewrite lookup_insert_ne by done. rewrite lookup_insert_ne by done.
    apply lookup_insert_eq.
  - rewrite lookup_insert_ne by done. apply lookup_insert_eq.
Qed.

Arguments hookOption : simpl never.

Lemma hooksCreated_app t t' : hooksCreated (t ++ t') = (hooksCreated t + hooksCreated t')%nat.
Proof. unfold hooksCreated. by rewrite List.filter_app, length_app. Qed.

Section CreateWebHook_facts.
Context {B : Type} (c : Client.t B) (p : GiteaProvider.t).
Variable goSyntaxHook : CreateHookOption.t -> string.

(** What the method does once the repository name is there. *)
Lemma CreateWebHook_unfold data w :
  GitRepositoryInfo.Name (GitWebHookArguments.Repo data) <> "" ->
  let owner := hookOwner p data in
  let repo := GitRepositoryInfo.Name (GitWebHookArguments.Repo data) in
  let hook := hookOption data in
  CreateWebHook c p goSyntaxHook data w =
  let '(r, b) := Client.ListRepoHooks c owner repo (backend w) in
  let w1 := mkWorld b (now w + Client.elapsed c b) (trace w ++ [EvListRepoHooks owner repo]) in
  match err r with
  | Some e => (Ret (Some e), w1)
  | None =>
      if alreadyRegistered (value r) (GitWebHookArguments.URL data) then (Ret None, w1)
      else
        let '(r', b') := Client.CreateRepoHook c owner repo hook b in
        (Ret (match err r' with
              | Some e =>
                  Some (Errorf ("Failed to create webhook for " +:+ owner +:+ "/"
                                +:+ repo +:+ " with " +:+ goSyntaxHook hook
                                +:+ " due to: " +:+ Error e))
              | None => None
              end),
         mkWorld b' (now w1 + Client.elapsed c b')
                 (trace w1 ++ [EvCreateRepoHook owner repo hook]))
  end.
Proof.
  intros Hname owner repo hook. unfold CreateWebHook.
  fold repo. change (if decide (GitWebHookArguments.Owner data = "")
                     then GiteaProvider.Username p
                     else GitWebHookArguments.Owner data) with owner.
  destruct (decide (repo = "")) as [|_]; [contradiction|].
  run. destruct (Client.ListRepoHooks c owner repo (backend w)) as [r b]; simpl.
  destruct (err r); [reflexivity|].
  destruct (alreadyRegistered (value r) (GitWebHookArguments.URL data)); [reflexivity|].
  simpl. change (CreateHookOption.Build_t _ _ _ _) with hook.
  destruct (Client.CreateRepoHook c owner repo hook b) as [r' b']; simpl.
  destruct (err r'); reflexivity.
Qed.

(** C4: when the repository already lists a hook whose url is the
    requested one, the call succeeds and sends nothing but the listing;
    and on a backend that lists what it has created, a second call with
    the same arguments after a first one that had to create the hook
    creates nothing: the two calls together create exactly one hook. *)
Theorem CreateWebHook_idempotent data w hooks rs b :
  GitRepositoryInfo.Name (GitWebHookArguments.Repo data) <> "" ->
  let owner := hookOwner p data in
  let repo := GitRepositoryInfo.Name (GitWebHookArguments.Repo data) in
  Client.ListRepoHooks c owner repo (backend w) = (mkReply hooks rs None, b) ->
  (Exists (targets (GitWebHookArguments.URL data)) hooks ->
   CreateWebHook c p goSyntaxHook data w
   = (Ret None,
      mkWorld b (now w + Client.elapsed c b) (trace w ++ [EvListRepoHooks owner repo])))
  /\ (RemembersHooks c ->
      Forall (fun hook => ~ targets (GitWebHookArguments.URL data) hook) hooks ->
      forall w1,
        CreateWebHook c p goSyntaxHook data w = (Ret None, w1) ->
        exists w2,
          CreateWebHook c p goSyntaxHook data w1 = (Ret None, w2)
          /\ trace w1 = trace w ++ [EvListRepoHooks owner repo;
                                    EvCreateRepoHook owner repo (hookOption data)]
          /\ trace w2 = trace w1 ++ [EvListRepoHooks owner repo]
          /\ hooksCreated (trace w2) = S (hooksCreated (trace w))).
Proof.
  intros Hname owner repo Hlist. split.
  - intros Hex. rewrite CreateWebHook_unfold by done. fold owner repo.
    rewrite Hlist. simpl.
    apply alreadyRegistered_Exists in Hex. by rewrite Hex.
  - intros Hlaw Hnone w1. rewrite CreateWebHook_unfold by done. fold owner repo.
    rewrite Hlist. simpl.
    apply alreadyRegistered_Forall in Hnone. rewrite Hnone.
    destruct (Client.CreateRepoHook c owner repo (hookOption data) b) as [r' b'] eqn:Hc.
    destruct (failure r') as [msg|] eqn:Hf; unfold err; rewrite Hf; [discriminate|].
    intros Hw1. inversion Hw1; subst w1; clear Hw1.
    destruct (Hlaw _ _ _ _ _ _ Hc Hf) as (hooks' & rs' & b'' & Hlist' & Hex).
    rewrite hookOption_url in Hex. simpl in Hex.
    eexists. split.
    + rewrite CreateWebHook_unfold by done. fold owner repo. simpl.
      rewrite Hlist'. simpl.
      apply alreadyRegistered_Exists in Hex. rewrite Hex. reflexivity.
    + simpl. split; [by rewrite <- app_assoc|]. split; [reflexivity|].
      rewrite !hooksCreated_app. unfold hooksCreated. simpl. lia.
Qed.


End CreateWebHook_facts.

Lemma Fake_remembers_hooks : RemembersHooks Fake.client.
Proof.
  intros owner repo opt b r b' Hcreate Hok. simpl in *.
  unfold Fake.create_hook, Fake.online in *.
  destruct (Fake.offline b) eqn:Hoff.
  - inversion Hcreate; subst. discriminate.
  - inversion Hcreate; subst. simpl. rewrite Hoff.
    eexists _, _, _. split; [reflexivity|].
    apply Exists_app. right. apply Exists_cons_hd. reflexivity.
Qed.

Lemma CreateWebHook_idempotent_witness :
  (CreateWebHook Fake.client Fake.provider Fake.goSyntax (demoHook "https://ci.test/hook")
     (Fake.boot (hookedServer "https://ci.test/hook"))
   = (Ret None,
      mkWorld (hookedServer "https://ci.test/hook") 0 [EvListRepoHooks "acme" "demo"]))
  /\ exists w1 w2,
       CreateWebHook Fake.client Fake.provider Fake.goSyntax (demoHook "https://ci.test/hook")
         (Fake.boot Fake.empty) = (Ret None, w1)
       /\ CreateWebHook Fake.client Fake.provider Fake.goSyntax
            (demoHook "https://ci.test/hook") w1 = (Ret None, w2)
       /\ hooksCreated (trace w2) = 1%nat.
Proof.
  split.
  - apply (proj1 (CreateWebHook_idempotent Fake.client Fake.provider Fake.goSyntax
                    (demoHook "https://ci.test/hook")
                    (Fake.boot (hookedServer "https://ci.test/hook"))
                    _ _ _ ltac:(discriminate) eq_refl)).
    apply Exists_cons_hd. reflexivity.
  - set (w1 := snd (CreateWebHook Fake.client Fake.provider Fake.goSyntax
                      (demoHook "https://ci.test/hook") (Fake.boot Fake.empty))).
    assert (Hfirst : CreateWebHook Fake.client Fake.provider Fake.goSyntax
                       (demoHook "https://ci.test/hook") (Fake.boot Fake.empty)
                     = (Ret None, w1)) by reflexivity.
    destruct (proj2 (CreateWebHook_idempotent Fake.client Fake.provider Fake.goSyntax
                       (demoHook "https://ci.test/hook") (Fake.boot Fake.empty)
                       [] Fake.ok Fake.empty ltac:(discriminate) eq_refl)
                Fake_remembers_hooks (List.Forall_nil _) w1 Hfirst)
      as (w2 & Hsecond & _ & _ & Hcount).
    exists w1, w2. split; [exact Hfirst|]. split; [exact Hsecond|exact Hcount].
Defined.


(** ** GetIssue *)

Section GetIssue_facts.
Context {B : Type} (c : Client.t B) (p : GiteaProvider.t).
Variable UrlJoin : list string -> string.

(** C6: when the client fails, [GetIssue] returns a nil issue; the error
    is nil when the response is there with status 404, and the client's
    own error in every other case (no response, or another status). *)
Theorem GetIssue_not_found org name number w r b e :
  Client.GetIssue c org name number (backend w) = (r, b) ->
  err r = Some e ->
  let result := fst (GetIssue c p UrlJoin org name number w) in
  (forall rs, resp r = Some rs -> Response.StatusCode rs = 404 ->
              result = Ret (None, None))
  /\ (resp r = None \/ (exists rs, resp r = Some rs /\ Response.StatusCode rs <> 404) ->
      result = Ret (None, Some e)).
Proof.
  intros Hcall Herr result. unfold result, GetIssue. run. rewrite Hcall. simpl.
  rewrite Herr. split.
  - intros rs Hrs H404. rewrite Hrs. simpl.
    rewrite bool_decide_eq_true_2 by done. reflexivity.
  - intros [Hnil|(rs & Hrs & Hother)].
    + rewrite Hnil. reflexivity.
    + rewrite Hrs. simpl. rewrite bool_decide_eq_false_2 by done. reflexivity.
Qed.

(** A found issue is returned without an error. *)
Lemma GetIssue_found org name number w r b i poster :
  Client.GetIssue c org name number (backend w) = (r, b) ->
  err r = None -> value r = Some i -> Issue.Poster i = Some poster ->
  exists issue, fst (GetIssue c p UrlJoin org name number w) = Ret (Some issue, None).
Proof.
  intros Hcall Herr Hval Hposter. unfold GetIssue, fromGiteaIssue. run.
  rewrite Hcall. simpl. rewrite Herr, Hval, Hposter. by eexists.
Qed.

End GetIssue_facts.

Lemma GetIssue_not_found_witness :
  fst (GetIssue Fake.client Fake.provider Fake.UrlJoin "acme" "demo" 42
         (Fake.boot Fake.empty)) = Ret (None, None)
  /\ fst (GetIssue Fake.client Fake.provider Fake.UrlJoin "acme" "demo" 42
            (Fake.boot downServer)) = Ret (None, Some (ClientError "connection refused")).
Proof.
  split.
  - apply (proj1 (GetIssue_not_found Fake.client Fake.provider Fake.UrlJoin "acme" "demo" 42
                    (Fake.boot Fake.empty) _ _ _ eq_refl eq_refl)
             {| Response.StatusCode := 404 |}); reflexivity.
  - apply (proj2 (GetIssue_not_found Fake.client Fake.provider Fake.UrlJoin "acme" "demo" 42
                    (Fake.boot downServer) _ _ _ eq_refl eq_refl)).
    left. reflexivity.
Defined.

(** ** PullRequestLastCommitStatus *)

Lemma firstState_empty results :
  Forall (fun result => Status.State result = "") results -> firstState results = None.
Proof.
  induction 1 as [|result results Hempty _ IH]; simpl; [done|].
  destruct (decide (Status.State result ≠ "")); [contradiction|done].
Qed.

Lemma firstState_first before result after :
  Forall (fun result => Status.State result = "") before ->
  Status.State result <> "" ->
  firstState (before ++ result :: after) = Some (Status.State result).
Proof.
  intros Hbefore Hstate. induction Hbefore as [|x before Hx _ IH]; simpl.
  - destruct (decide (Status.State result ≠ "")); [done|contradiction].
  - destruct (decide (Status.State x ≠ "")); [contradiction|done].
Qed.

Section PullRequestLastCommitStatus_facts.
Context {B : Type} (c : Client.t B).
Variable goSyntaxPR : GitPullRequest.t -> string.

(** C7: without a last commit sha the method returns an error and sends
    nothing; with one, and a list of statuses from the client, it
    returns the state of the first status whose state is not empty, and
    an error when the state of every status is empty. *)
Theorem PullRequestLastCommitStatus_first_state pr w :
  let ref := GitPullRequest.LastCommitSha pr in
  let owner := GitPullRequest.Owner pr in
  let repo := GitPullRequest.Repo pr in
  (ref = "" ->
   exists e, PullRequestLastCommitStatus c goSyntaxPR pr w = (Ret ("", Some e), w))
  /\ (ref <> "" ->
      forall results rs b,
        Client.ListStatuses c owner repo ref (backend w) = (mkReply results rs None, b) ->
        let result := fst (PullRequestLastCommitStatus c goSyntaxPR pr w) in
        (forall before status after,
            results = before ++ status :: after ->
            Forall (fun s => Status.State s = "") before ->
            Status.State status <> "" ->
            result = Ret (Status.State status, None))
        /\ (Forall (fun s => Status.State s = "") results ->
            exists e, result = Ret ("", Some e))).
Proof.
  intros ref owner repo. unfold PullRequestLastCommitStatus. fold ref owner repo. split.
  - intros Href. destruct (decide (ref = "")); [|contradiction]. by eexists.
  - intros Href results rs b Hcall. destruct (decide (ref = "")); [contradiction|].
    run. rewrite Hcall. simpl. split.
    + intros before status after -> Hbefore Hstate.
      by rewrite firstState_first.
    + intros Hempty. rewrite firstState_empty by done. by eexists.
Qed.

End PullRequestLastCommitStatus_facts.

Lemma PullRequestLastCommitStatus_first_state_witness :
  (exists e,
      PullRequestLastCommitStatus Fake.client Fake.goSyntax (demoPullRequest "")
        (Fake.boot Fake.empty) = (Ret ("", Some e), Fake.boot Fake.empty))
  /\ fst (PullRequestLastCommitStatus Fake.client Fake.goSyntax (demoPullRequest "abc123")
            (Fake.boot (statusServer [demoStatus 1 ""; demoStatus 2 "pending";
                                      demoStatus 3 "success"])))
     = Ret ("pending", None)
  /\ exists e,
      fst (PullRequestLastCommitStatus Fake.client Fake.goSyntax (demoPullRequest "abc123")
             (Fake.boot (statusServer [demoStatus 1 ""; demoStatus 2 ""])))
      = Ret ("", Some e).
Proof.
  split; [|split].
  - apply (proj1 (PullRequestLastCommitStatus_first_state Fake.client Fake.goSyntax
                    (demoPullRequest "") (Fake.boot Fake.empty))).
    reflexivity.
  - apply (proj1 (proj2 (PullRequestLastCommitStatus_first_state Fake.client Fake.goSyntax
                           (demoPullRequest "abc123")
                           (Fake.boot (statusServer [demoStatus 1 ""; demoStatus 2 "pending";
                                                     demoStatus 3 "success"])))
                    ltac:(discriminate) _ _ _ eq_refl)
             [demoStatus 1 ""] (demoStatus 2 "pending") [demoStatus 3 "success"]).
    + reflexivity.
    + repeat constructor.
    + discriminate.
  - apply (proj2 (proj2 (PullRequestLastCommitStatus_first_state Fake.client Fake.goSyntax
                           (demoPullRequest "abc123")
                           (Fake.boot (statusServer [demoStatus 1 ""; demoStatus 2 ""])))
                    ltac:(discriminate) _ _ _ eq_refl)).
    repeat constructor.
Defined.

(** ** ListCommitStatus *)

Section ListCommitStatus_facts.
Context {B : Type} (c : Client.t B).

(** C8: when the client fails, whatever its error, [ListCommitStatus]
    returns the "Could not find a status" error made of [org], [repo] and
    [sha] alone: the client's error is not part of it. *)
Theorem ListCommitStatus_lossy org repo sha w r b :
  Client.ListStatuses c org repo sha (backend w) = (r, b) ->
  err r <> None ->
  fst (ListCommitStatus c org repo sha w)
  = Ret ([],
         Some (Errorf ("Could not find a status for repository " +:+ org +:+ "/"
                       +:+ repo +:+ " with ref " +:+ sha))).
Proof.
  intros Hcall Herr. unfold ListCommitStatus. run. rewrite Hcall. simpl.
  destruct (err r); [reflexivity|contradiction].
Qed.

End ListCommitStatus_facts.

Lemma ListCommitStatus_lossy_witness :
  fst (ListCommitStatus Fake.client "acme" "demo" "abc123" (Fake.boot downServer))
  = Ret ([], Some (Errorf "Could not find a status for repository acme/demo with ref abc123")).
Proof.
  apply (ListCommitStatus_lossy Fake.client "acme" "demo" "abc123" (Fake.boot downServer)
           _ _ eq_refl).
  discriminate.
Defined.

(** ** UpdateRelease *)

Lemma editReleaseOption_fields release releaseInfo :
  let opt := editReleaseOption release releaseInfo in
  EditReleaseOption.Title opt
  = (if decide (Release.Title release = "") then GitRelease.Name releaseInfo
     else Release.Title release)
  /\ EditReleaseOption.TagName opt
     = (if decide (Release.TagName release = "") then GitRelease.TagName releaseInfo
        else Release.TagName release)
  /\ EditReleaseOption.Note opt
     = (if decide (Release.Note release = "") then GitRelease.Body releaseInfo
        else Release.Note release).
Proof.
  unfold editReleaseOption. simpl.
  destruct (decide (Release.Title release = "")) as [Ht|Ht],
           (decide (GitRelease.Name releaseInfo = "")) as [Hn|Hn],
           (decide (Release.TagName release = "")) as [Hg|Hg],
           (decide (GitRelease.TagName releaseInfo = "")) as [Hi|Hi],
           (decide (Release.Note release = "")) as [Ho|Ho],
           (decide (GitRelease.Body releaseInfo = "")) as [Hb|Hb];
    repeat (case_decide; simpl);
    repeat split; solve [reflexivity | congruence | exfalso; tauto].
Qed.

Section UpdateRelease_facts.
Context {B : Type} (c : Client.t B).

(** C5: when fetching the release by tag does not fail for good (no
    error, or a 404 response) and yields no release, [UpdateRelease] asks
    the client to create a release from the tag name, name and body the
    caller supplies, and returns the error of that request; the backend is
    left as the creation leaves it.  When the fetch yields a release, it
    asks the client to edit that release with, for each of title, tag name
    and note, the backend's value if that is not empty and the caller's
    value otherwise, and returns as the edit decides; the backend is left
    as the edit leaves it. *)
Theorem UpdateRelease_fills_empty_fields owner repo tag releaseInfo w r b :
  Client.GetReleaseByTag c owner repo tag (backend w) = (r, b) ->
  err r = None \/ (exists rs, resp r = Some rs /\ Response.StatusCode rs = 404) ->
  let fetched :=
    mkWorld b (now w + Client.elapsed c b) (trace w ++ [EvGetReleaseByTag owner repo tag]) in
  (value r = None ->
   let createRelease :=
     {| CreateReleaseOption.TagName := GitRelease.TagName releaseInfo;
        CreateReleaseOption.Title := GitRelease.Name releaseInfo;
        CreateReleaseOption.Note := GitRelease.Body releaseInfo;
        CreateReleaseOption.IsDraft := false;
        CreateReleaseOption.IsPrerelease := false |} in
   forall r' b',
     Client.CreateRelease c owner repo createRelease b = (r', b') ->
     UpdateRelease c owner repo tag releaseInfo w
     = (Ret (releaseInfo, err r'),
        mkWorld b' (now fetched + Client.elapsed c b')
                (trace fetched ++ [EvCreateRelease owner repo createRelease])))
  /\ (forall release,
        value r = Some release ->
        exists opt,
          (Release.Title release <> "" ->
           EditReleaseOption.Title opt = Release.Title release)
          /\ (Release.TagName release <> "" ->
              EditReleaseOption.TagName opt = Release.TagName release)
          /\ (Release.Note release <> "" ->
              EditReleaseOption.Note opt = Release.Note release)
          /\ (Release.Title release = "" ->
              EditReleaseOption.Title opt = GitRelease.Name releaseInfo)
          /\ (Release.TagName release = "" ->
              EditReleaseOption.TagName opt = GitRelease.TagName releaseInfo)
          /\ (Release.Note release = "" ->
              EditReleaseOption.Note opt = GitRelease.Body releaseInfo)
          /\ EditReleaseOption.IsDraft opt = Some false
          /\ EditReleaseOption.IsPrerelease opt = Some false
          /\ forall r2 b2,
               Client.EditRelease c owner repo (Release.ID release) opt b = (r2, b2) ->
               UpdateRelease c owner repo tag releaseInfo w
               = (Ret (match err r2 with
                       | Some e => (releaseInfo, Some e)
                       | None =>
                           (match value r2 with
                            | Some edited =>
                                GitRelease.with_URL releaseInfo (Release.URL edited)
                            | None => releaseInfo
                            end,
                            err r)
                       end),
                  mkWorld b2 (now fetched + Client.elapsed c b2)
                          (trace fetched
                           ++ [EvEditRelease owner repo (Release.ID release) opt]))).
Proof.
  intros Hcall Hsoft fetched.
  assert (Hgo : bool_decide (err r ≠ None) && negb (hasStatus (resp r) 404) = false).
  { destruct Hsoft as [Hnil|(rs & Hrs & H404)].
    - rewrite bool_decide_eq_false_2; [done|]. intros H. by apply H.
    - rewrite Hrs. simpl. rewrite (bool_decide_eq_true_2 _ H404).
      apply andb_false_r. }
  split.
  - intros Hvalue createRelease r' b' Hcreate. subst createRelease.
    unfold UpdateRelease. unfold bind at 1. unfold call at 1. rewrite Hcall.
    cbv beta iota. rewrite Hgo, Hvalue. unfold bind, call, ret. cbn [backend].
    rewrite Hcreate. reflexivity.
  - intros release Hvalue. exists (editReleaseOption release releaseInfo).
    destruct (editReleaseOption_fields release releaseInfo) as (Htitle & Htag & Hnote).
    assert (Hflags : EditReleaseOption.IsDraft (editReleaseOption release releaseInfo)
                     = Some false
                     /\ EditReleaseOption.IsPrerelease (editReleaseOption release releaseInfo)
                        = Some false).
    { unfold editReleaseOption. simpl. repeat case_decide; split; reflexivity. }
    destruct Hflags as [Hdraft Hpre].
    rewrite Htitle, Htag, Hnote. clear Htitle Htag Hnote.
    repeat (split; [intros H; case_decide; solve [reflexivity | congruence]|]).
    split; [exact Hdraft|]. split; [exact Hpre|].
    intros r2 b2 Hedit.
    unfold UpdateRelease. unfold bind at 1. unfold call at 1. rewrite Hcall.
    cbv beta iota. rewrite Hgo, Hvalue. unfold bind, call, ret. cbn [backend].
    rewrite Hedit. destruct (err r2); reflexivity.
Qed.

End UpdateRelease_facts.

Lemma UpdateRelease_fills_empty_fields_witness :
  (exists b',
      UpdateRelease Fake.client "acme" "demo" "v9.9.9" demoReleaseInfo (Fake.boot Fake.empty)
      = (Ret (demoReleaseInfo, None),
         mkWorld b' 0
           [EvGetReleaseByTag "acme" "demo" "v9.9.9";
            EvCreateRelease "acme" "demo"
              {| CreateReleaseOption.TagName := "v9.9.9"; CreateReleaseOption.Title := "One";
                 CreateReleaseOption.Note := "other notes";
                 CreateReleaseOption.IsDraft := false;
                 CreateReleaseOption.IsPrerelease := false |}])
      /\ List.map Release.TagName (Fake.releases b') = ["v9.9.9"]
      /\ List.map Release.Title (Fake.releases b') = ["One"])
  /\ exists opt b2,
      UpdateRelease Fake.client "acme" "demo" "v1.0.0" demoReleaseInfo
        (Fake.boot releaseServer)
      = (Ret (GitRelease.with_URL demoReleaseInfo "https://gitea.test/releases/v1.0.0",
              None),
         mkWorld b2 0
           [EvGetReleaseByTag "acme" "demo" "v1.0.0"; EvEditRelease "acme" "demo" 1 opt])
      /\ EditReleaseOption.Title opt = "One"
      /\ EditReleaseOption.TagName opt = "v1.0.0"
      /\ EditReleaseOption.Note opt = "first notes"
      /\ List.map Release.Title (Fake.releases b2) = ["One"]
      /\ List.map Release.Note (Fake.releases b2) = ["first notes"].
Proof.
  split.
  - eexists. split.
    + apply (proj1 (UpdateRelease_fills_empty_fields Fake.client "acme" "demo" "v9.9.9"
                      demoReleaseInfo (Fake.boot Fake.empty) _ _ eq_refl
                      (or_intror (ex_intro _ {| Response.StatusCode := 404 |}
                                           (conj eq_refl eq_refl))))
               eq_refl _ _ eq_refl).
    + split; reflexivity.
  - destruct (proj2 (UpdateRelease_fills_empty_fields Fake.client "acme" "demo" "v1.0.0"
                       demoReleaseInfo (Fake.boot releaseServer) _ _ eq_refl
                       (or_introl eq_refl)) demoRelease eq_refl)
      as (opt & _ & Htag & Hnote & Htitle & _ & _ & _ & _ & Hrun).
    exists opt. eexists. split; [|split; [|split; [|split]]].
    + apply (Hrun _ _ eq_refl).
    + apply Htitle. reflexivity.
    + apply Htag. discriminate.
    + apply Hnote. discriminate.
    + pose proof (Htitle eq_refl) as Ht. pose proof (Htag ltac:(discriminate)) as Hg.
      pose proof (Hnote ltac:(discriminate)) as Ho.
      simpl. unfold Fake.edit_release, Fake.online. simpl.
      rewrite Ht, Ho. split; reflexivity.
Defined.

(** ** ListOpenPullRequests *)

Lemma int_add_1 k : 0 <= k -> k + 1 < 2 ^ 63 -> int_add k 1 = k + 1.
Proof.
  intros Hk Hmax. unfold int_add, int_wrap.
  rewrite Z.mod_small by lia. lia.
Qed.

Lemma toPullRequest_converts owner repo pr :
  is_Some (PullRequest.Poster pr) -> exists g, converts owner repo pr g.
Proof.
  intros [poster Hposter]. eexists. intros B w.
  unfold toPullRequest, updatePullRequest. run. rewrite Hposter. reflexivity.
Qed.

Lemma Serves_snoc {B} (c : Client.t B) owner repo k b pages last b' :
  Serves c owner repo k b (pages ++ [last]) b' ->
  exists b1 rs,
    Serves c owner repo k b pages b1
    /\ Client.ListRepoPullRequests c owner repo (pageRequest (k + len pages)) b1
       = (mkReply last rs None, b').
Proof.
  revert k b. induction pages as [|prs pages IH]; intros k b H; simpl in H.
  - inversion H as [|? ? ? rs b1 ? ? Hcall Hrest]; subst.
    inversion Hrest; subst. exists b, rs. split; [constructor|].
    unfold len. simpl. by rewrite Z.add_0_r.
  - inversion H as [|? ? ? rs b1 ? ? Hcall Hrest]; subst.
    destruct (IH _ _ Hrest) as (b2 & rs' & Hserves & Hlast).
    exists b2, rs'. split; [by econstructor|].
    unfold len in *. simpl length. rewrite Nat2Z.inj_succ.
    by replace (k + Z.succ (Z.of_nat (length pages))) with (k + 1 + Z.of_nat (length pages))
      by lia.
Qed.

Lemma pageRequests_S owner repo k n :
  pageRequests owner repo k (S n)
  = EvListRepoPullRequests owner repo (pageRequest k) :: pageRequests owner repo (k + 1) n.
Proof.
  unfold pageRequests. simpl. rewrite Z.add_0_r. f_equal.
  rewrite <- seq_shift, List.map_map. apply List.map_ext. intros i.
  do 2 f_equal. lia.
Qed.

Lemma pageRequests_NoDup owner repo k n : NoDup (pageRequests owner repo k n).
Proof.
  unfold pageRequests. apply NoDup_fmap_2; [|apply NoDup_seq].
  intros i j Heq. inversion Heq. lia.
Qed.

Section ListOpenPullRequests_facts.
Context {B : Type} (c : Client.t B).
Variable pageSize : Z.

(** The [range] loop over one page appends the converted page. *)
Lemma convert_page owner repo prs (answer : list GitPullRequest.t) (w : World B) :
  Forall (fun pr => is_Some (PullRequest.Poster pr)) prs ->
  exists gs,
    foldM (fun answer pr =>
             let* converted := toPullRequest owner repo pr in
             ret (answer ++ [converted]))
          prs answer w
    = (Ret (answer ++ gs), w)
    /\ Forall2 (converts owner repo) prs gs.
Proof.
  intros Hposters. revert answer.
  induction Hposters as [|pr prs Hposter _ IH]; intros answer; simpl.
  - exists []. split; [|constructor]. unfold ret. by rewrite app_nil_r.
  - destruct (toPullRequest_converts owner repo pr Hposter) as [g Hg].
    destruct (IH (answer ++ [g])) as (gs & Hrun & Hall).
    exists (g :: gs). split; [|by constructor].
    unfold bind at 1. unfold bind at 1. rewrite (Hg B w). unfold ret at 1.
    rewrite Hrun. by rewrite <- app_assoc.
Qed.

(** The loop, entered at page [k]: over full pages it goes on, and it
    ends with the reply to the request after them, a short page or a
    failure. *)
Lemma listOpenPullRequestsFrom_pages owner repo full :
  forall fuel k (w : World B) answer b1 final b',
    0 <= k -> k + len full < 2 ^ 63 ->
    Serves c owner repo k (backend w) full b1 ->
    Forall (fun prs => ~ short pageSize prs) full ->
    Client.ListRepoPullRequests c owner repo (pageRequest (k + len full)) b1
    = (final, b') ->
    (failure final = None -> short pageSize (value final)) ->
    let tail := match failure final with Some _ => [] | None => value final end in
    Forall (fun pr => is_Some (PullRequest.Poster pr)) (concat full ++ tail) ->
    (length full < fuel)%nat ->
    exists gs w',
      listOpenPullRequestsFrom c pageSize fuel owner repo (pageRequest k) answer w
      = (Ret (answer ++ gs, err final), w')
      /\ Forall2 (converts owner repo) (concat full ++ tail) gs
      /\ backend w' = b'
      /\ trace w' = trace w ++ pageRequests owner repo k (S (length full)).
Proof.
  induction full as [|prs full IH];
    intros fuel k w answer b1 final b' Hk Hmax Hserves Hfull Hfinal Hshort tail
           Hposters Hfuel.
  - inversion Hserves; subst. destruct fuel as [|fuel]; [lia|].
    unfold len in Hfinal. simpl in Hfinal. rewrite Z.add_0_r in Hfinal.
    simpl. unfold bind at 1. unfold call. rewrite Hfinal.
    unfold err. subst tail. simpl in Hposters.
    destruct (failure final) as [msg|] eqn:Hfail.
    + exists [], (mkWorld b' (now w + Client.elapsed c b')
                          (trace w ++ [EvListRepoPullRequests owner repo (pageRequest k)])).
      split; [by rewrite app_nil_r|]. split; [constructor|]. split; [done|].
      simpl. by rewrite pageRequests_S.
    + set (w1 := mkWorld b' (now w + Client.elapsed c b')
                         (trace w ++ [EvListRepoPullRequests owner repo (pageRequest k)])).
      destruct (convert_page owner repo (value final) answer w1 Hposters)
        as (gs & Hrun & Hall).
      exists gs, w1. split; [|split; [exact Hall|split; [done|]]].
      * unfold bind at 1. rewrite Hrun.
        destruct (decide (len (value final) < pageSize ∨ len (value final) = 0))
          as [_|Hnot]; [reflexivity|].
        exfalso. apply Hnot. by apply Hshort.
      * simpl. by rewrite pageRequests_S.
  - inversion Hserves as [|? ? ? rs b2 ? ? Hcall Hrest]; subst.
    inversion Hfull as [|? ? Hnotshort Hfull']; subst.
    destruct fuel as [|fuel]; [simpl in Hfuel; lia|].
    unfold len in Hmax, Hfinal. simpl length in Hmax, Hfinal.
    rewrite Nat2Z.inj_succ in Hmax, Hfinal.
    simpl in Hposters. rewrite <- app_assoc in Hposters.
    apply Forall_app in Hposters as [Hpage Hposters].
    set (w1 := mkWorld b2 (now w + Client.elapsed c b2)
                       (trace w ++ [EvListRepoPullRequests owner repo (pageRequest k)])).
    destruct (convert_page owner repo prs answer w1 Hpage) as (gs1 & Hrun & Hall1).
    destruct (IH fuel (k + 1) w1 (answer ++ gs1) b1 final b') as (gs & w' & Hloop & Hall & Hb & Ht).
    + lia.
    + unfold len. lia.
    + exact Hrest.
    + exact Hfull'.
    + rewrite <- Hfinal. unfold len. do 2 f_equal. lia.
    + exact Hshort.
    + exact Hposters.
    + simpl in Hfuel. lia.
    + exists (gs1 ++ gs), w'. split; [|split; [|split]].
      * simpl. unfold bind at 1. unfold call. rewrite Hcall. simpl.
        fold w1. unfold bind at 1. rewrite Hrun.
        destruct (decide (len prs < pageSize ∨ len prs = 0)) as [Hs|_];
          [contradiction|].
        unfold ListPullRequestsOptions.with_Page. simpl.
        rewrite int_add_1 by lia.
        change (ListPullRequestsOptions.Build_t (k + 1) 0 "") with (pageRequest (k + 1)).
        rewrite Hloop. by rewrite <- app_assoc.
      * simpl. rewrite <- app_assoc. by apply Forall2_app.
      * exact Hb.
      * rewrite Ht. subst w1. simpl trace. rewrite <- app_assoc.
        simpl length. by rewrite (pageRequests_S owner repo k).
Qed.

(** C3: when the backend serves full pages and then a short one, and
    [fuel] allows for that many requests, [ListOpenPullRequests] returns,
    without an error, the conversions of the pull requests of these
    pages, in the order of the pages; it has asked for the pages
    0, 1, ..., each once and with the same options otherwise, the short
    page being the last it asked for. *)
Theorem ListOpenPullRequests_pages fuel owner repo (w : World B) full last b' :
  Serves c owner repo 0 (backend w) (full ++ [last]) b' ->
  Forall (fun prs => ~ short pageSize prs) full ->
  short pageSize last ->
  Forall (fun pr => is_Some (PullRequest.Poster pr)) (concat (full ++ [last])) ->
  len full < 2 ^ 63 ->
  (length full < fuel)%nat ->
  exists answer w',
    ListOpenPullRequests c pageSize fuel owner repo w = (Ret (answer, None), w')
    /\ Forall2 (converts owner repo) (concat (full ++ [last])) answer
    /\ backend w' = b'
    /\ trace w' = trace w ++ pageRequests owner repo 0 (length (full ++ [last]))
    /\ NoDup (pageRequests owner repo 0 (length (full ++ [last]))).
Proof.
  intros Hserves Hfull Hlast Hposters Hmax Hfuel.
  destruct (Serves_snoc _ _ _ _ _ _ _ _ Hserves) as (b1 & rs & Hpages & Hfinal).
  rewrite concat_app in Hposters. simpl in Hposters. rewrite app_nil_r in Hposters.
  destruct (listOpenPullRequestsFrom_pages owner repo full fuel 0 w [] b1
              (mkReply last rs None) b')
    as (gs & w' & Hrun & Hall & Hb & Ht); try done.
  exists gs, w'. unfold ListOpenPullRequests.
  change ListPullRequestsOptions.zero with (pageRequest 0).
  rewrite concat_app. simpl concat. rewrite app_nil_r.
  rewrite length_app. simpl length. rewrite Nat.add_1_r.
  repeat split; try done. apply pageRequests_NoDup.
Qed.

(** When a request fails instead, the loop ends there as well: the
    method returns what the pages before have given, and the error. *)
Lemma ListOpenPullRequests_failure fuel owner repo (w : World B) full b1 final msg b' :
  Serves c owner repo 0 (backend w) full b1 ->
  Forall (fun prs => ~ short pageSize prs) full ->
  Client.ListRepoPullRequests c owner repo (pageRequest (len full)) b1 = (final, b') ->
  failure final = Some msg ->
  Forall (fun pr => is_Some (PullRequest.Poster pr)) (concat full) ->
  len full < 2 ^ 63 ->
  (length full < fuel)%nat ->
  exists answer w',
    ListOpenPullRequests c pageSize fuel owner repo w
    = (Ret (answer, Some (ClientError msg)), w')
    /\ Forall2 (converts owner repo) (concat full) answer.
Proof.
  intros Hserves Hfull Hfinal Hfail Hposters Hmax Hfuel.
  destruct (listOpenPullRequestsFrom_pages owner repo full fuel 0 w [] b1 final b')
    as (gs & w' & Hrun & Hall & _ & _); try done.
  - rewrite Hfail. discriminate.
  - rewrite Hfail. by rewrite app_nil_r.
  - exists gs, w'. unfold ListOpenPullRequests.
    change ListPullRequestsOptions.zero with (pageRequest 0).
    rewrite Hrun. unfold err. rewrite Hfail. simpl. split; [reflexivity|].
    rewrite Hfail in Hall. by rewrite app_nil_r in Hall.
Qed.

End ListOpenPullRequests_facts.

Lemma ListOpenPullRequests_pages_witness :
  exists answer w',
    ListOpenPullRequests Fake.client 2 3 "acme" "demo"
      (Fake.boot (pullServer (List.map demoPull [1; 2; 3; 4; 5])))
    = (Ret (answer, None), w')
    /\ Forall2 (converts "acme" "demo") (List.map demoPull [1; 2; 3; 4; 5]) answer
    /\ trace w' = [EvListRepoPullRequests "acme" "demo" (pageRequest 0);
                   EvListRepoPullRequests "acme" "demo" (pageRequest 1);
                   EvListRepoPullRequests "acme" "demo" (pageRequest 2)].
Proof.
  destruct (ListOpenPullRequests_pages Fake.client 2 3 "acme" "demo"
              (Fake.boot (pullServer (List.map demoPull [1; 2; 3; 4; 5])))
              [[demoPull 1; demoPull 2]; [demoPull 3; demoPull 4]] [demoPull 5]
              (pullServer (List.map demoPull [1; 2; 3; 4; 5])))
    as (answer & w' & Hrun & Hall & _ & Htrace & _).
  - repeat (eapply serves_cons; [reflexivity|]). apply serves_nil.
  - repeat constructor; unfold short, len; simpl; lia.
  - left. unfold len. simpl. lia.
  - repeat constructor; by eexists.
  - unfold len. simpl. lia.
  - simpl. lia.
  - exists answer, w'. split; [exact Hrun|]. split; [exact Hall|exact Htrace].
Defined.

(** ** ForkRepository *)

Section ForkRepository_facts.
Context {B : Type} (c : Client.t B) (p : GiteaProvider.t).

(** Requests take time, they do not give it back. *)
Hypothesis elapsed_nonneg : forall b, 0 <= Client.elapsed c b.

Lemma pollOnce_now owner name (w : World B) :
  now w + 5 * Second <= now (snd (pollOnce c owner name w)).
Proof.
  unfold pollOnce. simpl.
  destruct (Client.GetRepo c owner name (backend w)) as [r b]. simpl.
  pose proof (elapsed_nonneg b). lia.
Qed.

Lemma pollOnce_trace owner name (w : World B) :
  trace (snd (pollOnce c owner name w))
  = trace w ++ [EvSleep (5 * Second); EvGetRepo owner name].
Proof.
  unfold pollOnce. simpl.
  destruct (Client.GetRepo c owner name (backend w)) as [r b]. simpl.
  by rewrite <- app_assoc.
Qed.

Lemma attempt_S owner name k (w : World B) :
  (1 <= k)%nat ->
  attempt c owner name (S k) w = attempt c owner name k (snd (pollOnce c owner name w)).
Proof. intros Hk. destruct k as [|k]; [lia|]. reflexivity. Qed.

(** The loop stops at the first round that finds the repository or ends
    after the deadline; when [bound] rounds reach past the deadline it
    does so within [bound] rounds. *)
Lemma waitForFork_first owner name deadline bound :
  forall fuel (w : World B),
    (1 <= bound <= fuel)%nat ->
    deadline < now w + 5 * Second * Z.of_nat bound ->
    exists n,
      (1 <= n <= bound)%nat
      /\ (forall k, (1 <= k < n)%nat ->
                    found (fst (attempt c owner name k w)) = None
                    /\ now (snd (attempt c owner name k w)) <= deadline)
      /\ waitForFork c fuel owner name deadline w
         = (Ret (match found (fst (attempt c owner name n w)) with
                 | Some repo => inl repo
                 | None =>
                     inr (Errorf ("Gave up waiting for Repository " +:+ owner +:+ "/"
                                  +:+ name +:+ " to appear: "
                                  +:+ fmt_s (err (fst (attempt c owner name n w)))))
                 end),
            snd (attempt c owner name n w))
      /\ (found (fst (attempt c owner name n w)) = None ->
          deadline < now (snd (attempt c owner name n w)))
      /\ trace (snd (attempt c owner name n w))
         = trace w ++ concat (replicate n [EvSleep (5 * Second); EvGetRepo owner name]).
Proof.
  induction bound as [|bound IH]; intros fuel w [Hbound Hfuel] Hdeadline; [lia|].
  destruct fuel as [|fuel]; [lia|].
  pose proof (pollOnce_now owner name w) as Hnow.
  pose proof (pollOnce_trace owner name w) as Htrace.
  assert (Hstep : waitForFork c (S fuel) owner name deadline w
                  = let '(r, w1) := pollOnce c owner name w in
                    match found r with
                    | Some repo => (Ret (inl repo), w1)
                    | None =>
                        if After (now w1) deadline then
                          (Ret (inr (Errorf ("Gave up waiting for Repository " +:+ owner
                                             +:+ "/" +:+ name +:+ " to appear: "
                                             +:+ fmt_s (err r)))), w1)
                        else waitForFork c fuel owner name deadline w1
                    end).
  { simpl. unfold pollOnce, bind, Sleep, call, Now, found, err. simpl.
    destruct (Client.GetRepo c owner name (backend w)) as [r b]. simpl.
    destruct (value r), (failure r); simpl; try reflexivity;
      destruct (After _ _); reflexivity. }
  rewrite Hstep. clear Hstep.
  destruct (pollOnce c owner name w) as [r w1] eqn:Hpoll. simpl in Hnow, Htrace.
  assert (Hfirst : attempt c owner name 1 w = (r, w1)) by exact Hpoll.
  destruct (found r) as [repo|] eqn:Hfound.
  - exists 1%nat. rewrite Hfirst. simpl. rewrite Hfound.
    split; [lia|]. split; [intros k Hk; lia|]. split; [reflexivity|].
    split; [discriminate|]. exact Htrace.
  - unfold After. case_bool_decide as Hlate.
    + exists 1%nat. rewrite Hfirst. simpl. rewrite Hfound.
      split; [lia|]. split; [intros k Hk; lia|]. split; [reflexivity|].
      split; [done|]. exact Htrace.
    + destruct (IH fuel w1) as (n & Hn & Hbefore & Hrun & Hafter & Htr).
      * split; [|lia]. destruct bound; [|lia]. simpl in Hdeadline. lia.
      * lia.
      * assert (Hshift : attempt c owner name (S n) w = attempt c owner name n w1).
        { rewrite attempt_S by lia. by rewrite Hpoll. }
        exists (S n). rewrite Hshift.
        split; [lia|]. split; [|split; [exact Hrun|split; [exact Hafter|]]].
        -- intros k Hk. destruct (decide (k = 1%nat)) as [->|Hne].
           ++ rewrite Hfirst. simpl. split; [exact Hfound|lia].
           ++ destruct k as [|k]; [lia|]. rewrite attempt_S by lia.
              rewrite Hpoll. simpl. apply Hbefore. lia.
        -- rewrite Htr, Htrace. simpl. by rewrite <- app_assoc.
Qed.

(** C2: when the fork request fails with an error that says "try again
    later", and [fuel] allows for 13 rounds, [ForkRepository] returns
    after some [n] rounds of sleeping 5 seconds and asking for the
    repository, with [n] at most 13: no round before the [n]-th has found
    the repository or ended after the deadline, one minute after the
    polling began; the [n]-th either has found the repository, which is
    returned, or it has not and has ended after the deadline, and the
    error returned shows the error of that last request. *)
Theorem ForkRepository_polls fuel originalOrg name destinationOrg (w : World B) r0 b0 msg :
  Client.CreateFork c originalOrg name
    {| CreateForkOption.Organization := Some destinationOrg |} (backend w) = (r0, b0) ->
  failure r0 = Some msg ->
  Contains msg "try again later" = true ->
  (13 <= fuel)%nat ->
  let owner := forkOwner p destinationOrg in
  let w0 :=
    mkWorld b0 (now w + Client.elapsed c b0)
      (trace w ++ [EvCreateFork originalOrg name
                     {| CreateForkOption.Organization := Some destinationOrg |}]) in
  let deadline := now w0 + Minute in
  exists n,
    (1 <= n <= 13)%nat
    /\ (forall k, (1 <= k < n)%nat ->
                  found (fst (attempt c owner name k w0)) = None
                  /\ now (snd (attempt c owner name k w0)) <= deadline)
    /\ ForkRepository c p fuel originalOrg name destinationOrg w
       = (Ret (match found (fst (attempt c owner name n w0)) with
               | Some repo => (Some (toGiteaRepo name repo), None)
               | None =>
                   (None,
                    Some (Errorf ("Gave up waiting for Repository " +:+ owner +:+ "/"
                                  +:+ name +:+ " to appear: "
                                  +:+ fmt_s (err (fst (attempt c owner name n w0))))))
               end),
          snd (attempt c owner name n w0))
    /\ (found (fst (attempt c owner name n w0)) = None ->
        deadline < now (snd (attempt c owner name n w0)))
    /\ trace (snd (attempt c owner name n w0))
       = trace w0 ++ concat (replicate n [EvSleep (5 * Second); EvGetRepo owner name]).
Proof.
  intros Hfork Hfail Hretry Hfuel owner w0 deadline.
  destruct (waitForFork_first owner name deadline 13 fuel w0)
    as (n & Hn & Hbefore & Hrun & Hafter & Htrace).
  - lia.
  - unfold deadline, Minute, Second. lia.
  - exists n. split; [exact Hn|]. split; [exact Hbefore|].
    split; [|split; [exact Hafter|exact Htrace]].
    unfold ForkRepository. unfold bind at 1. unfold call. rewrite Hfork.
    unfold err at 1. rewrite Hfail. cbv beta iota.
    change (Error (ClientError msg)) with msg. rewrite Hretry.
    fold w0. unfold bind at 1. unfold Now at 1. fold deadline.
    change (if decide (destinationOrg = "") then GiteaProvider.Username p
            else destinationOrg) with owner.
    unfold bind at 1. rewrite Hrun.
    destruct (found (fst (attempt c owner name n w0))); reflexivity.
Qed.

End ForkRepository_facts.

Lemma ForkRepository_polls_witness :
  exists n,
    (1 <= n <= 13)%nat
    /\ ForkRepository Fake.client Fake.provider 13 "upstream" "demo" "acme"
         (Fake.boot (forkingServer 2))
       = (Ret (Some (toGiteaRepo "demo"
                       (Fake.new_repo "acme"
                          {| CreateRepoOption.Name := "demo";
                             CreateRepoOption.Private := false |} 1)), None),
          snd (attempt Fake.client "acme" "demo" 3
                 (mkWorld
                    (Fake.with_repos (forkingServer 2)
                       [Fake.new_repo "acme"
                          {| CreateRepoOption.Name := "demo";
                             CreateRepoOption.Private := false |} 1])
                    0
                    [EvCreateFork "upstream" "demo"
                       {| CreateForkOption.Organization := Some "acme" |}]))).
Proof.
  destruct (ForkRepository_polls Fake.client Fake.provider
              (fun b => N2Z.is_nonneg (Fake.lag b))
              13 "upstream" "demo" "acme" (Fake.boot (forkingServer 2))
              _ _ _ eq_refl eq_refl eq_refl ltac:(lia))
    as (n & Hn & _ & _ & _ & _).
  exists n. split; [exact Hn|]. vm_compute. reflexivity.
Defined.

(** The fork shows up at the third poll. *)
Example ForkRepository_appears :
  trace (snd (ForkRepository Fake.client Fake.provider 13 "upstream" "demo" ""
                (Fake.boot (forkingServer 2))))
  = [EvCreateFork "upstream" "demo" {| CreateForkOption.Organization := Some "" |};
     EvSleep 5000000000; EvGetRepo "me" "demo";
     EvSleep 5000000000; EvGetRepo "me" "demo";
     EvSleep 5000000000; EvGetRepo "me" "demo"].
Proof. vm_compute. reflexivity. Qed.

(** The fork never shows up: with requests that take no time the method
    gives up at the thirteenth poll, 65 seconds after the first sleep. *)
Example ForkRepository_gives_up :
  let result := ForkRepository Fake.client Fake.provider 13 "upstream" "demo" ""
                  (Fake.boot (forkingServer 100)) in
  fst result
  = Ret (None,
         Some (Errorf "Gave up waiting for Repository me/demo to appear: 404 Not Found"))
  /\ now (snd result) = 65 * Second
  /\ length (trace (snd result)) = 27%nat.
Proof. vm_compute. repeat split. Qed.

(** On a server that answers after 20 seconds it gives up at the third. *)
Example ForkRepository_gives_up_slow :
  let result := ForkRepository Fake.client Fake.provider 13 "upstream" "demo" ""
                  (Fake.boot (Fake.mkState false 20000000000%N [] 100%nat [] [] 2%nat
                                           [] [] [])) in
  now (snd result) = 95 * Second /\ length (trace (snd result)) = 7%nat.
Proof. vm_compute. repeat split. Qed.

(** * Further properties *)

(** ** Go integers *)

Lemma int_wrap_small n : - 2 ^ 63 <= n < 2 ^ 63 -> int_wrap n = n.
Proof. intros Hn. unfold int_wrap. rewrite Z.mod_small by lia. lia. Qed.

Lemma int_wrap_range n : - 2 ^ 63 <= int_wrap n < 2 ^ 63.
Proof.
  unfold int_wrap. pose proof (Z.mod_pos_bound (n + 2 ^ 63) (2 ^ 64)). lia.
Qed.

Lemma int_wrap_add_l a b : int_wrap (int_wrap a + b) = int_wrap (a + b).
Proof.
  unfold int_wrap.
  replace ((a + 2 ^ 63) mod 2 ^ 64 - 2 ^ 63 + b + 2 ^ 63)
    with ((a + 2 ^ 63) mod 2 ^ 64 + b) by lia.
  rewrite Zplus_mod_idemp_l. do 2 f_equal. lia.
Qed.

(** ** ListOrganisations *)

Lemma organisations_fold orgs (answer : list GitOrganisation.t) :
  fold_left
    (fun answer org =>
       let name := Organization.UserName org in
       if decide (name ≠ "") then answer ++ [{| GitOrganisation.Login := name |}]
       else answer)
    orgs answer
  = answer ++ List.map GitOrganisation.Build_t
                (filter (fun name => name ≠ "") (List.map Organization.UserName orgs)).
Proof.
  revert answer. induction orgs as [|org orgs IH]; intros answer; simpl.
  - by rewrite app_nil_r.
  - rewrite IH. destruct (decide (Organization.UserName org ≠ "")) as [Hname|Hname].
    + rewrite filter_cons_True by done. simpl. by rewrite <- app_assoc.
    + by rewrite filter_cons_False by done.
Qed.

Section ListOrganisations_facts.
Context {B : Type} (c : Client.t B) (x : More.t B).

(** X1: of the organisations the client lists, [ListOrganisations]
    returns those with a user name, in the order listed, under that name
    as login: no organisation it returns has an empty login. *)
Theorem ListOrganisations_logins (w : World B) orgs rs b :
  More.ListMyOrgs x (backend w) = (mkReply orgs rs None, b) ->
  exists answer,
    ListOrganisations c x w
    = (Ret (answer, None), mkWorld b (now w + Client.elapsed c b) (trace w))
    /\ List.map GitOrganisation.Login answer
       = filter (fun name => name ≠ "") (List.map Organization.UserName orgs)
    /\ Forall (fun org => GitOrganisation.Login org <> "") answer.
Proof.
  intros Hcall. eexists. split; [|split].
  - unfold ListOrganisations, bind, request, ret. rewrite Hcall. simpl.
    rewrite organisations_fold. reflexivity.
  - simpl. rewrite List.map_map. simpl. apply List.map_id.
  - simpl. apply Forall_forall. intros org Hin.
    apply list_elem_of_In, List.in_map_iff in Hin as (name & <- & Hin).
    apply list_elem_of_In, list_elem_of_filter in Hin as [Hname _]. exact Hname.
Qed.

End ListOrganisations_facts.

Lemma ListOrganisations_logins_witness :
  exists answer,
    fst (ListOrganisations Fake.client
           (Script.client
              {| Script.orgs := [{| Organization.UserName := "acme" |};
                                 {| Organization.UserName := "" |};
                                 {| Organization.UserName := "beta" |}];
                 Script.releases := []; Script.pulls := []; Script.issues := None;
                 Script.users := [] |})
           (Fake.boot Fake.empty))
    = Ret (answer, None)
    /\ List.map GitOrganisation.Login answer = ["acme"; "beta"].
Proof.
  destruct (ListOrganisations_logins Fake.client
              (Script.client
                 {| Script.orgs := [{| Organization.UserName := "acme" |};
                                    {| Organization.UserName := "" |};
                                    {| Organization.UserName := "beta" |}];
                    Script.releases := []; Script.pulls := []; Script.issues := None;
                    Script.users := [] |})
              (Fake.boot Fake.empty) _ _ _ eq_refl)
    as (answer & Hrun & Hlogins & _).
  exists answer. split; [by rewrite Hrun|exact Hlogins].
Defined.

(** ** toGiteaRelease *)

Lemma release_fold attachments total (assets : list GitReleaseAsset.t) :
  int_wrap total = total ->
  fold_left
    (fun acc asset =>
       let '(totalDownloadCount, assets) := acc in
       (int_add totalDownloadCount (Attachment.DownloadCount asset),
        assets ++ [{| GitReleaseAsset.ID := Attachment.ID asset;
                      GitReleaseAsset.Name := Attachment.Name asset;
                      GitReleaseAsset.BrowserDownloadURL := Attachment.DownloadURL asset |}]))
    attachments (total, assets)
  = (int_wrap (total + downloads attachments), assets ++ List.map assetOf attachments).
Proof.
  revert total assets. induction attachments as [|asset attachments IH];
    intros total assets Htotal; cbn [fold_left].
  - unfold downloads. cbn [List.map foldr]. rewrite Z.add_0_r, Htotal.
    by rewrite app_nil_r.
  - rewrite IH.
    + unfold int_add. rewrite int_wrap_add_l. unfold downloads.
      cbn [List.map foldr]. rewrite <- app_assoc. f_equal. f_equal. lia.
    + unfold int_add. apply int_wrap_small, int_wrap_range.
Qed.

(** X2: the download count of the release [toGiteaRelease] returns is
    the sum of the download counts of the attachments, in Go's [int]; it is
    the sum itself when no count is negative and the sum fits.  The assets
    are the attachments, one for one and in order. *)
Theorem toGiteaRelease_downloads release :
  let attachments := FullRelease.Attachments release in
  FullGitRelease.DownloadCount (toGiteaRelease release) = int_wrap (downloads attachments)
  /\ FullGitRelease.Assets (toGiteaRelease release) = Some (List.map assetOf attachments)
  /\ (0 <= downloads attachments < 2 ^ 63 ->
      FullGitRelease.DownloadCount (toGiteaRelease release) = downloads attachments).
Proof.
  intros attachments. unfold toGiteaRelease. fold attachments.
  rewrite (release_fold attachments 0 []) by reflexivity. simpl.
  split; [reflexivity|]. split; [reflexivity|].
  intros Hfits. apply int_wrap_small. lia.
Qed.

Lemma toGiteaRelease_downloads_witness :
  FullGitRelease.DownloadCount
    (toGiteaRelease (demoFullRelease [demoAttachment 1 10; demoAttachment 2 0;
                                      demoAttachment 3 32]))
  = 42.
Proof.
  apply (proj2 (proj2 (toGiteaRelease_downloads
                         (demoFullRelease [demoAttachment 1 10; demoAttachment 2 0;
                                           demoAttachment 3 32])))).
  vm_compute. split; [discriminate|reflexivity].
Defined.

(** ** GetLatestRelease *)

Section GetLatestRelease_facts.
Context {B : Type} (c : Client.t B) (x : More.t B).

(** X3: [GetLatestRelease] asks for page 1 with page size 1.  When the
    client fails it returns the client's error behind the text
    "getting releases for org/name: "; otherwise the first release of the
    reply, and nothing at all, release or error, when the reply is empty. *)
Theorem GetLatestRelease_first org name (w : World B) r b :
  More.ListReleases x org name
    {| ListReleasesOptions.Page := 1; ListReleasesOptions.PageSize := 1 |} (backend w)
  = (r, b) ->
  GetLatestRelease c x org name w
  = (Ret (match failure r with
          | Some msg =>
              (None,
               Some (Errorf (("getting releases for " +:+ org +:+ "/" +:+ name)
                             +:+ ": " +:+ msg)))
          | None => (toGiteaRelease <$> head (value r), None)
          end),
     mkWorld b (now w + Client.elapsed c b) (trace w)).
Proof.
  intros Hcall. unfold GetLatestRelease, bind, request, ret, err. rewrite Hcall. simpl.
  destruct (failure r); [reflexivity|]. destruct (value r); reflexivity.
Qed.

End GetLatestRelease_facts.

Lemma GetLatestRelease_first_witness :
  fst (GetLatestRelease Fake.client (Script.client Script.empty) "acme" "demo"
         (Fake.boot Fake.empty)) = Ret (None, None)
  /\ fst (GetLatestRelease Fake.client (Script.client Script.empty) "acme" "demo"
            (Fake.boot downServer))
     = Ret (None, Some (Errorf "getting releases for acme/demo: connection refused")).
Proof.
  split.
  - rewrite (GetLatestRelease_first Fake.client (Script.client Script.empty) "acme" "demo"
               (Fake.boot Fake.empty) _ _ eq_refl).
    reflexivity.
  - rewrite (GetLatestRelease_first Fake.client (Script.client Script.empty) "acme" "demo"
               (Fake.boot downServer) _ _ eq_refl).
    reflexivity.
Defined.

(** ** The repository a method returns *)

Section Repository_results.
Context {B : Type} (c : Client.t B) (p : GiteaProvider.t).

(** X4: whenever [GetRepository] or [CreateRepository] returns, it
    returns either a repository and no error, or no repository and an
    error; the repository it returns bears the name the caller has asked
    for, whatever name the object of the backend has. *)
Theorem GetRepository_CreateRepository_name org name private (w : World B) :
  (forall g e w',
      GetRepository c org name w = (Ret (g, e), w') ->
      (g = None <-> e <> None)
      /\ forall repo, g = Some repo -> GitRepository.Name repo = name)
  /\ (forall g e w',
         CreateRepository c org name private w = (Ret (g, e), w') ->
         (g = None <-> e <> None)
         /\ forall repo, g = Some repo -> GitRepository.Name repo = name).
Proof.
  split.
  - intros g e w'. unfold GetRepository. run.
    destruct (Client.GetRepo c org name (backend w)) as [r b]. simpl.
    destruct (err r); simpl.
    + intros H. inversion H; subst. split; [split; [discriminate|done]|discriminate].
    + destruct (value r); simpl; intros H; inversion H; subst.
      split; [split; [discriminate|done]|]. intros repo Hrepo. by inversion Hrepo.
  - intros g e w'. unfold CreateRepository. run.
    destruct (decide (Z.of_nat (String.length org) ≠ 0)); simpl.
    + destruct (Client.CreateOrgRepo c org _ (backend w)) as [r1 b1]. simpl.
      destruct (Client.CreateRepo c _ b1) as [r b]. simpl.
      destruct (err r); simpl.
      * intros H. inversion H; subst. split; [split; [discriminate|done]|discriminate].
      * destruct (value r); simpl; intros H; inversion H; subst.
        split; [split; [discriminate|done]|]. intros repo Hrepo. by inversion Hrepo.
    + destruct (Client.CreateRepo c _ (backend w)) as [r b]. simpl.
      destruct (err r); simpl.
      * intros H. inversion H; subst. split; [split; [discriminate|done]|discriminate].
      * destruct (value r); simpl; intros H; inversion H; subst.
        split; [split; [discriminate|done]|]. intros repo Hrepo. by inversion Hrepo.
Qed.

(** X5: the same of [ForkRepository], whether the fork is there at
    once or after polling, and whatever the fuel. *)
Theorem ForkRepository_name fuel originalOrg name destinationOrg (w : World B) g e w' :
  ForkRepository c p fuel originalOrg name destinationOrg w = (Ret (g, e), w') ->
  (g = None <-> e <> None)
  /\ forall repo, g = Some repo -> GitRepository.Name repo = name.
Proof.
  unfold ForkRepository. unfold bind at 1. unfold call.
  destruct (Client.CreateFork c originalOrg name _ (backend w)) as [r b]. simpl.
  destruct (err r) as [e0|]; simpl.
  - destruct (Contains (Error e0) "try again later").
    + unfold bind at 1. unfold Now. unfold bind at 1.
      destruct (waitForFork c fuel _ name _ _) as [[[repo|e']| |] w1]; simpl;
        intros H; inversion H; subst.
      * split; [split; [discriminate|done]|]. intros repo' Hrepo. by inversion Hrepo.
      * split; [split; [discriminate|done]|discriminate].
    + unfold ret. intros H. inversion H; subst.
      split; [split; [discriminate|done]|discriminate].
  - unfold bind, deref, ret. destruct (value r); simpl; intros H; inversion H; subst.
    split; [split; [discriminate|done]|]. intros repo Hrepo. by inversion Hrepo.
Qed.

End Repository_results.

Lemma GetRepository_CreateRepository_name_witness :
  exists repo,
    fst (CreateRepository Fake.client "" "demo" true (Fake.boot Fake.empty))
    = Ret (Some repo, None)
    /\ GitRepository.Name repo = "demo".
Proof.
  eexists. split; [reflexivity|].
  apply (proj2 (proj2 (GetRepository_CreateRepository_name Fake.client "" "demo" true
                         (Fake.boot Fake.empty)) _ _ _ eq_refl) _ eq_refl).
Defined.

Lemma ForkRepository_name_witness :
  exists repo w',
    ForkRepository Fake.client Fake.provider 13 "upstream" "demo" "acme"
      (Fake.boot (forkingServer 2)) = (Ret (Some repo, None), w')
    /\ GitRepository.Name repo = "demo".
Proof.
  eexists _, _. split; [vm_compute; reflexivity|].
  eapply (proj2 (ForkRepository_name Fake.client Fake.provider 13 "upstream" "demo" "acme"
                   (Fake.boot (forkingServer 2)) _ _ _ ltac:(vm_compute; reflexivity))).
  reflexivity.
Defined.

(** ** ValidateRepositoryName *)

Section ValidateRepositoryName_facts.
Context {B : Type} (c : Client.t B).
Variable RepoName : string -> string -> string.

(** X6: [ValidateRepositoryName] accepts a name exactly when asking for
    the repository fails with a 404 response.  When the repository is
    there the error is "Repository ... already exists"; any other failure
    of the client is returned as it is. *)
Theorem ValidateRepositoryName_free org name (w : World B) r b :
  Client.GetRepo c org name (backend w) = (r, b) ->
  let result := fst (ValidateRepositoryName c RepoName org name w) in
  (result = Ret None
   <-> failure r <> None /\ exists rs, resp r = Some rs /\ Response.StatusCode rs = 404)
  /\ (failure r = None ->
      result = Ret (Some (Errorf ("Repository " +:+ RepoName org name +:+ " already exists"))))
  /\ (forall msg, failure r = Some msg -> result <> Ret None ->
                  result = Ret (Some (ClientError msg))).
Proof.
  intros Hcall result. unfold result, ValidateRepositoryName. run. rewrite Hcall. simpl.
  unfold err. destruct (failure r) as [msg|]; simpl.
  - destruct (resp r) as [rs|]; simpl.
    + case_bool_decide as H404; simpl.
      * split; [|split; [discriminate|]].
        -- split; [|done]. intros _. split; [discriminate|]. by exists rs.
        -- intros msg' _ Hnot. contradiction.
      * split; [|split; [discriminate|]].
        -- split; [discriminate|]. intros [_ (rs' & Hrs & Hcode)].
           inversion Hrs; subst. contradiction.
        -- intros msg' Hmsg _. by inversion Hmsg.
    + split; [|split; [discriminate|]].
      * split; [discriminate|]. intros [_ (rs' & Hrs & _)]. discriminate.
      * intros msg' Hmsg _. by inversion Hmsg.
  - split; [|split; [done|discriminate]].
    split; [discriminate|]. intros [Hfail _]. contradiction.
Qed.

End ValidateRepositoryName_facts.

Lemma ValidateRepositoryName_free_witness :
  fst (ValidateRepositoryName Fake.client (fun org name => org +:+ "/" +:+ name)
         "acme" "demo" (Fake.boot Fake.empty)) = Ret None
  /\ fst (ValidateRepositoryName Fake.client (fun org name => org +:+ "/" +:+ name)
            "acme" "" (Fake.boot (Fake.with_repos Fake.empty [nameless])))
     = Ret (Some (Errorf "Repository acme/ already exists")).
Proof.
  split.
  - apply (proj1 (ValidateRepositoryName_free Fake.client _ "acme" "demo"
                    (Fake.boot Fake.empty) _ _ eq_refl)).
    split; [discriminate|]. eexists. split; reflexivity.
  - apply (proj1 (proj2 (ValidateRepositoryName_free Fake.client
                           (fun org name => org +:+ "/" +:+ name) "acme" ""
                           (Fake.boot (Fake.with_repos Fake.empty [nameless]))
                           _ _ eq_refl))).
    reflexivity.
Defined.

(** ** UpdateReleaseStatus and UpdateRelease *)

Section Release_facts.
Context {B : Type} (c : Client.t B).

(** X7: for a release the client has found, the edit request of
    [UpdateReleaseStatus] carries the tag name, title and note of the
    backend and draft = false; it carries a pre-release flag only when the
    caller's differs from the backend's, and then the caller's. *)
Theorem UpdateReleaseStatus_edit owner repo tag releaseInfo (w : World B) release rs b :
  Client.GetReleaseByTag c owner repo tag (backend w) = (mkReply (Some release) rs None, b) ->
  exists opt,
    trace (snd (UpdateReleaseStatus c owner repo tag releaseInfo w))
    = trace w ++ [EvGetReleaseByTag owner repo tag;
                  EvEditRelease owner repo (Release.ID release) opt]
    /\ EditReleaseOption.TagName opt = Release.TagName release
    /\ EditReleaseOption.Title opt = Release.Title release
    /\ EditReleaseOption.Note opt = Release.Note release
    /\ EditReleaseOption.IsDraft opt = Some false
    /\ EditReleaseOption.IsPrerelease opt
       = (if decide (Release.IsPrerelease release = GitRelease.PreRelease releaseInfo)
          then None else Some (GitRelease.PreRelease releaseInfo)).
Proof.
  intros Hcall. unfold UpdateReleaseStatus. run. rewrite Hcall. simpl.
  destruct (decide (Release.IsPrerelease release ≠ GitRelease.PreRelease releaseInfo))
    as [Hne|Heq]; simpl.
  - eexists. split.
    + destruct (Client.EditRelease c owner repo _ _ b) as [r' b']. simpl.
      rewrite <- app_assoc. simpl. destruct (err r'); reflexivity.
    + simpl. repeat split. by destruct (decide _).
  - eexists. split.
    + destruct (Client.EditRelease c owner repo _ _ b) as [r' b']. simpl.
      rewrite <- app_assoc. simpl. destruct (err r'); reflexivity.
    + simpl. repeat split. destruct (decide _) as [|Hne]; [done|].
      exfalso. by apply Heq.
Qed.

(** X8: after an edit that succeeds, [UpdateRelease] returns the error
    of the fetch by tag: nil when the fetch had none, and the 404 error of
    the fetch when the release came with one, although the release has
    been edited.  The URL of the caller's release is that of the release
    the edit returns, when it returns one. *)
Theorem UpdateRelease_after_edit owner repo tag releaseInfo (w : World B)
    r b release r2 b2 :
  Client.GetReleaseByTag c owner repo tag (backend w) = (r, b) ->
  err r = None \/ (exists rs, resp r = Some rs /\ Response.StatusCode rs = 404) ->
  value r = Some release ->
  Client.EditRelease c owner repo (Release.ID release)
    (editReleaseOption release releaseInfo) b = (r2, b2) ->
  failure r2 = None ->
  fst (UpdateRelease c owner repo tag releaseInfo w)
  = Ret (match value r2 with
         | Some edited => GitRelease.with_URL releaseInfo (Release.URL edited)
         | None => releaseInfo
         end,
         err r).
Proof.
  intros Hcall Hsoft Hvalue Hedit Hok. unfold UpdateRelease.
  unfold bind at 1. unfold call at 1. rewrite Hcall. cbv beta iota.
  assert (Hgo : bool_decide (err r ≠ None) && negb (hasStatus (resp r) 404) = false).
  { destruct Hsoft as [Hnil|(rs & Hrs & H404)].
    - rewrite bool_decide_eq_false_2; [done|]. intros H. by apply H.
    - rewrite Hrs. simpl. rewrite (bool_decide_eq_true_2 _ H404).
      apply andb_false_r. }
  rewrite Hgo, Hvalue. unfold bind, call. cbn [backend]. rewrite Hedit.
  unfold err at 1. rewrite Hok. reflexivity.
Qed.

End Release_facts.

Lemma UpdateReleaseStatus_edit_witness :
  exists opt,
    trace (snd (UpdateReleaseStatus Fake.client "acme" "demo" "v1.0.0"
                  (GitRelease.with_URL
                     {| GitRelease.Name := ""; GitRelease.TagName := "";
                        GitRelease.Body := ""; GitRelease.URL := "";
                        GitRelease.PreRelease := true |} "")
                  (Fake.boot releaseServer)))
    = [EvGetReleaseByTag "acme" "demo" "v1.0.0"; EvEditRelease "acme" "demo" 1 opt]
    /\ EditReleaseOption.Title opt = "" /\ EditReleaseOption.IsPrerelease opt = Some true.
Proof.
  destruct (UpdateReleaseStatus_edit Fake.client "acme" "demo" "v1.0.0"
              (GitRelease.with_URL
                 {| GitRelease.Name := ""; GitRelease.TagName := "";
                    GitRelease.Body := ""; GitRelease.URL := "";
                    GitRelease.PreRelease := true |} "")
              (Fake.boot releaseServer) demoRelease _ _ eq_refl)
    as (opt & Htrace & _ & Htitle & _ & _ & Hpre).
  exists opt. split; [exact Htrace|]. split; [exact Htitle|exact Hpre].
Defined.

Lemma UpdateRelease_after_edit_witness :
  fst (UpdateRelease Fake.client "acme" "demo" "v1.0.0" demoReleaseInfo
         (Fake.boot releaseServer))
  = Ret (GitRelease.with_URL demoReleaseInfo "https://gitea.test/releases/v1.0.0", None).
Proof.
  apply (UpdateRelease_after_edit Fake.client "acme" "demo" "v1.0.0" demoReleaseInfo
           (Fake.boot releaseServer) _ _ demoRelease _ _ eq_refl (or_introl eq_refl)
           eq_refl eq_refl eq_refl).
Defined.

(** ** Pull requests *)

Lemma pullRequestOption_sent data :
  let title := GitPullRequestArguments.Title data in
  let body := GitPullRequestArguments.Body data in
  let head := GitPullRequestArguments.Head data in
  let base := GitPullRequestArguments.Base data in
  let config := CreatePullRequestOption.zero in
  let config :=
    if decide (title ≠ "") then CreatePullRequestOption.with_Title config title
    else config in
  let config :=
    if decide (body ≠ "") then CreatePullRequestOption.with_Body config body
    else config in
  let config :=
    if decide (head ≠ "") then CreatePullRequestOption.with_Head config head
    else config in
  let config :=
    if decide (base ≠ "") then CreatePullRequestOption.with_Base config base
    else config in
  config = pullRequestOption data.
Proof.
  destruct data as [org name title body head base]. unfold pullRequestOption. simpl.
  destruct (decide (title ≠ "")) as [|Ht], (decide (body ≠ "")) as [|Hb],
           (decide (head ≠ "")) as [|Hh], (decide (base ≠ "")) as [|Hs]; simpl;
    repeat match goal with
           | H : ¬ _ ≠ "" |- _ => apply dec_stable in H; subst
           end;
    reflexivity.
Qed.

Section PullRequest_facts.
Context {B : Type} (c : Client.t B) (x : More.t B).
Variable goSyntaxPR : GitPullRequest.t -> string.

(** X9: the request [CreatePullRequest] sends carries the title, body,
    head and base of the caller, empty or not; of the pull request the
    client returns, the result takes the index as number, the HTML URL and
    the sha of the head, if there is a head, and it takes owner and repo
    from the caller. *)
Theorem CreatePullRequest_sends_arguments data (w : World B) pr rs b :
  More.CreatePullRequest x (GitPullRequestArguments.Organisation data)
    (GitPullRequestArguments.Name data) (pullRequestOption data) (backend w)
  = (mkReply (Some pr) rs None, b) ->
  exists g,
    CreatePullRequest c x data w
    = (Ret (Some g, None), mkWorld b (now w + Client.elapsed c b) (trace w))
    /\ GitPullRequest.Number g = Some (PullRequest.Index pr)
    /\ GitPullRequest.URL g = PullRequest.HTMLURL pr
    /\ GitPullRequest.Owner g = GitPullRequestArguments.Organisation data
    /\ GitPullRequest.Repo g = GitPullRequestArguments.Name data
    /\ GitPullRequest.LastCommitSha g
       = match PullRequest.Head pr with Some head => PRBranchInfo.Sha head | None => "" end.
Proof.
  intros Hcall. unfold CreatePullRequest. rewrite (pullRequestOption_sent data).
  unfold bind, request, ret, deref. rewrite Hcall. simpl.
  eexists. split; [reflexivity|]. simpl. repeat split.
Qed.

(** X10: when the client finds the pull request, [UpdatePullRequestStatus]
    leaves its URL, owner, repo and number as they are and takes title,
    body, state, merge data and author from the backend; the last commit
    sha becomes that of the head, and empty when the backend names no
    head, whatever it was before. *)
Theorem UpdatePullRequestStatus_refreshes pr n (w : World B) source poster rs b :
  GitPullRequest.Number pr = Some n ->
  More.GetPullRequest x (GitPullRequest.Owner pr) (GitPullRequest.Repo pr) n (backend w)
  = (mkReply (Some source) rs None, b) ->
  PullRequest.Poster source = Some poster ->
  exists pr',
    UpdatePullRequestStatus c x goSyntaxPR pr w
    = (Ret (pr', None), mkWorld b (now w + Client.elapsed c b) (trace w))
    /\ GitPullRequest.URL pr' = GitPullRequest.URL pr
    /\ GitPullRequest.Owner pr' = GitPullRequest.Owner pr
    /\ GitPullRequest.Repo pr' = GitPullRequest.Repo pr
    /\ GitPullRequest.Number pr' = Some n
    /\ GitPullRequest.Title pr' = PullRequest.Title source
    /\ GitPullRequest.Body pr' = PullRequest.Body source
    /\ GitPullRequest.State pr' = Some (PullRequest.State source)
    /\ GitPullRequest.Merged pr' = Some (PullRequest.HasMerged source)
    /\ (GitUser.Login <$> GitPullRequest.Author pr') = Some (User.UserName poster)
    /\ GitPullRequest.LastCommitSha pr'
       = match PullRequest.Head source with
         | Some head => PRBranchInfo.Sha head
         | None => ""
         end.
Proof.
  intros Hn Hcall Hposter. unfold UpdatePullRequestStatus, updatePullRequest.
  rewrite Hn. unfold bind, request, ret, deref. rewrite Hcall. simpl.
  rewrite Hposter. eexists. split; [reflexivity|]. simpl. repeat split.
Qed.

(** X11: without a number, [UpdatePullRequestStatus], [MergePullRequest]
    and [AddPRComment] return an error and send nothing: the world is as
    it was. *)
Theorem pull_request_needs_number pr message comment (w : World B) :
  GitPullRequest.Number pr = None ->
  (exists e, UpdatePullRequestStatus c x goSyntaxPR pr w = (Ret (pr, Some e), w))
  /\ (exists e, MergePullRequest c x goSyntaxPR pr message w = (Ret (Some e), w))
  /\ (exists e, AddPRComment c x goSyntaxPR pr comment w = (Ret (Some e), w)).
Proof.
  intros Hn. unfold UpdatePullRequestStatus, MergePullRequest, AddPRComment.
  rewrite Hn. repeat split; by eexists.
Qed.

(** X12: whatever the client answers, the pull request [GetPullRequest]
    returns, next to an error or not, bears the owner and the number asked
    for and the name of the repository passed. *)
Theorem GetPullRequest_identity owner repo number (w : World B) pr e w' :
  GetPullRequest c x goSyntaxPR owner repo number w = (Ret (pr, e), w') ->
  GitPullRequest.Owner pr = owner
  /\ GitPullRequest.Repo pr = GitRepository.Name repo
  /\ GitPullRequest.Number pr = Some number.
Proof.
  unfold GetPullRequest, UpdatePullRequestStatus, updatePullRequest. simpl.
  unfold bind, request, ret, deref.
  destruct (More.GetPullRequest x owner _ number (backend w)) as [r b]. simpl.
  destruct (err r); simpl.
  - intros H. inversion H; subst. done.
  - destruct (value r) as [source|]; simpl; [|discriminate].
    destruct (PullRequest.Poster source); simpl; [|discriminate].
    intros H. inversion H; subst. done.
Qed.

(** X13: for a pull request with number [n], [MergePullRequest] asks for
    a merge of style "merge" under the title "<title> (#<n>)", [n] in
    decimal, with the caller's message, and returns the client's error as
    it is. *)
Theorem MergePullRequest_title pr n message (w : World B) r b :
  GitPullRequest.Number pr = Some n ->
  More.MergePullRequest x (GitPullRequest.Owner pr) (GitPullRequest.Repo pr) n
    {| MergePullRequestOption.Style := "merge";
       MergePullRequestOption.Title := GitPullRequest.Title pr +:+ " (#" +:+ Itoa n +:+ ")";
       MergePullRequestOption.Message := message |} (backend w)
  = (r, b) ->
  MergePullRequest c x goSyntaxPR pr message w
  = (Ret (ClientError <$> failure r), mkWorld b (now w + Client.elapsed c b) (trace w)).
Proof.
  intros Hn Hcall. unfold MergePullRequest. rewrite Hn.
  unfold bind, request, ret. unfold MergeStyleMerge. rewrite Hcall. simpl.
  unfold err. by destruct (failure r).
Qed.

End PullRequest_facts.

Lemma CreatePullRequest_sends_arguments_witness :
  exists g,
    fst (CreatePullRequest Fake.client (Script.client Script.empty) demoPullArguments
           (Fake.boot Fake.empty)) = Ret (Some g, None)
    /\ GitPullRequest.Number g = Some 1
    /\ GitPullRequest.LastCommitSha g = "f00d".
Proof.
  destruct (CreatePullRequest_sends_arguments Fake.client (Script.client Script.empty)
              demoPullArguments (Fake.boot Fake.empty) _ _ _ eq_refl)
    as (g & Hrun & Hnumber & _ & _ & _ & Hsha).
  exists g. split; [by rewrite Hrun|]. split; [exact Hnumber|exact Hsha].
Defined.

Lemma UpdatePullRequestStatus_refreshes_witness :
  exists pr',
    fst (UpdatePullRequestStatus Fake.client
           (Script.client
              {| Script.orgs := []; Script.releases := [];
                 Script.pulls :=
                   [Script.new_pull
                      {| CreatePullRequestOption.Head := ""; CreatePullRequestOption.Base := "";
                         CreatePullRequestOption.Title := "New title";
                         CreatePullRequestOption.Body := "" |} 7];
                 Script.issues := None; Script.users := [] |})
           Fake.goSyntax (numbered (Some 7)) (Fake.boot Fake.empty))
    = Ret (pr', None)
    /\ GitPullRequest.URL pr' = "https://old.test/1"
    /\ GitPullRequest.Title pr' = "New title"
    /\ GitPullRequest.LastCommitSha pr' = "f00d".
Proof.
  destruct (UpdatePullRequestStatus_refreshes Fake.client
              (Script.client
                 {| Script.orgs := []; Script.releases := [];
                    Script.pulls :=
                      [Script.new_pull
                         {| CreatePullRequestOption.Head := "";
                            CreatePullRequestOption.Base := "";
                            CreatePullRequestOption.Title := "New title";
                            CreatePullRequestOption.Body := "" |} 7];
                    Script.issues := None; Script.users := [] |})
              Fake.goSyntax (numbered (Some 7)) 7 (Fake.boot Fake.empty)
              _ _ _ _ eq_refl eq_refl eq_refl)
    as (pr' & Hrun & Hurl & _ & _ & _ & Htitle & _ & _ & _ & _ & Hsha).
  exists pr'. split; [by rewrite Hrun|]. split; [exact Hurl|]. split; [exact Htitle|exact Hsha].
Defined.

Lemma pull_request_needs_number_witness :
  exists e,
    MergePullRequest Fake.client (Script.client Script.empty) Fake.goSyntax
      (numbered None) "merge it" (Fake.boot Fake.empty)
    = (Ret (Some e), Fake.boot Fake.empty).
Proof.
  apply (proj1 (proj2 (pull_request_needs_number Fake.client (Script.client Script.empty)
                         Fake.goSyntax (numbered None) "merge it" "" (Fake.boot Fake.empty)
                         eq_refl))).
Defined.

Lemma GetPullRequest_identity_witness :
  exists pr e,
    fst (GetPullRequest Fake.client (Script.client Script.empty) Fake.goSyntax "acme"
           (toGiteaRepo "demo" nameless) 7 (Fake.boot Fake.empty)) = Ret (pr, Some e)
    /\ GitPullRequest.Owner pr = "acme"
    /\ GitPullRequest.Repo pr = "demo"
    /\ GitPullRequest.Number pr = Some 7.
Proof.
  eexists _, _. split; [reflexivity|].
  apply (GetPullRequest_identity Fake.client (Script.client Script.empty) Fake.goSyntax
           "acme" (toGiteaRepo "demo" nameless) 7 (Fake.boot Fake.empty) _ _ _ eq_refl).
Defined.

Lemma MergePullRequest_title_witness :
  MergePullRequest Fake.client (Script.client Script.empty) Fake.goSyntax
    (numbered (Some 12)) "merge it" (Fake.boot Fake.empty)
  = (Ret (Some (ClientError "404 Not Found")), Fake.boot Fake.empty).
Proof.
  apply (MergePullRequest_title Fake.client (Script.client Script.empty) Fake.goSyntax
           (numbered (Some 12)) 12 "merge it" (Fake.boot Fake.empty) _ _ eq_refl eq_refl).
Defined.

(** ** Issues *)

Section Issue_facts.
Context {B : Type} (c : Client.t B) (x : More.t B) (p : GiteaProvider.t).
Variable UrlJoin : list string -> string.
Variable FilterIssuesClosedSince : list (option GitIssue.t) -> Time -> list (option GitIssue.t).

Lemma fromGiteaIssue_issueOf org name i (w : World B) :
  is_Some (Issue.Poster i) ->
  exists g, fromGiteaIssue p UrlJoin org name i w = (Ret (g, None), w)
            /\ issueOf p UrlJoin org name i g.
Proof.
  intros [poster Hposter]. unfold fromGiteaIssue, bind, deref, ret. rewrite Hposter.
  eexists. split; [reflexivity|]. eexists. split; [reflexivity|]. simpl.
  rewrite !fold_left_snoc. simpl. repeat split.
Qed.

Lemma convertIssues_all org name issues :
  forall (answer : list (option GitIssue.t)) (w : World B),
    Forall (fun i => is_Some (Issue.Poster i)) issues ->
    exists found,
      convertIssues p UrlJoin org name issues answer w = (Ret (answer ++ found, None), w)
      /\ Forall2 (issueOf p UrlJoin org name) issues found.
Proof.
  induction issues as [|i issues IH]; intros answer w Hposters.
  - exists []. split; [|constructor]. simpl. unfold ret. by rewrite app_nil_r.
  - inversion Hposters as [|? ? Hposter Hrest]; subst.
    destruct (fromGiteaIssue_issueOf org name i w Hposter) as (g & Hrun & Hg).
    destruct (IH (answer ++ [g]) w Hrest) as (found & Hloop & Hall).
    exists (g :: found). split; [|by constructor].
    simpl. unfold bind at 1. rewrite Hrun. rewrite Hloop. by rewrite <- app_assoc.
Qed.

(** X14: when the listing of issues fails, a search returns no issue; it
    returns no error either when the response is there with status 404,
    and the client's error in every other case.  Whatever page the options
    name, the page asked for is 0. *)
Theorem searchIssuesWithOptions_not_found org name opts (w : World B) r b msg :
  More.ListRepoIssues x org name (ListIssueOption.with_Page opts 0) (backend w) = (r, b) ->
  failure r = Some msg ->
  let result := fst (searchIssuesWithOptions c x p UrlJoin org name opts w) in
  (forall rs, resp r = Some rs -> Response.StatusCode rs = 404 -> result = Ret ([], None))
  /\ (resp r = None \/ (exists rs, resp r = Some rs /\ Response.StatusCode rs <> 404) ->
      result = Ret ([], Some (ClientError msg))).
Proof.
  intros Hcall Hfail result. unfold result, searchIssuesWithOptions.
  unfold bind, request, ret. rewrite Hcall. simpl. unfold err. rewrite Hfail. split.
  - intros rs Hrs H404. rewrite Hrs. simpl. by rewrite bool_decide_eq_true_2.
  - intros [Hnil|(rs & Hrs & Hother)].
    + by rewrite Hnil.
    + rewrite Hrs. simpl. by rewrite bool_decide_eq_false_2.
Qed.

(** X15: on a listing that succeeds, with a poster on every issue,
    [SearchIssues] asks for the issues that match the key word and returns
    one issue for each issue listed, in the order listed; the number of
    each is the ID of the backend's issue, and its URL is made from that
    ID. *)
Theorem SearchIssues_converts org name filter (w : World B) issues rs b :
  More.ListRepoIssues x org name
    {| ListIssueOption.Page := 0; ListIssueOption.State := "";
       ListIssueOption.KeyWord := filter |} (backend w)
  = (mkReply issues rs None, b) ->
  Forall (fun i => is_Some (Issue.Poster i)) issues ->
  exists found,
    SearchIssues c x p UrlJoin org name filter w
    = (Ret (found, None), mkWorld b (now w + Client.elapsed c b) (trace w))
    /\ Forall2 (issueOf p UrlJoin org name) issues found.
Proof.
  intros Hcall Hposters. unfold SearchIssues, searchIssuesWithOptions.
  unfold bind, request. unfold ListIssueOption.with_Page. simpl. rewrite Hcall. simpl.
  destruct (convertIssues_all org name issues []
              (mkWorld b (now w + Client.elapsed c b) (trace w)) Hposters)
    as (found & Hrun & Hall).
  exists found. split; [exact Hrun|exact Hall].
Qed.


(** X17: the issue [GetIssue] returns for an issue the client has found
    bears the ID of the backend's issue as its number, and a URL made from
    that ID, not from the number the caller has asked for. *)
Theorem GetIssue_number org name number (w : World B) i rs b :
  Client.GetIssue c org name number (backend w) = (mkReply (Some i) rs None, b) ->
  is_Some (Issue.Poster i) ->
  exists g,
    fst (GetIssue c p UrlJoin org name number w) = Ret (g, None)
    /\ issueOf p UrlJoin org name i g.
Proof.
  intros Hcall Hposter. unfold GetIssue. unfold bind at 1. unfold call. rewrite Hcall.
  simpl. unfold bind at 1. unfold deref at 1.
  destruct (fromGiteaIssue_issueOf org name i
              (mkWorld b (now w + Client.elapsed c b) (trace w ++ [EvGetIssue org name number]))
              Hposter) as (g & Hrun & Hg).
  exists g. split; [by rewrite Hrun|exact Hg].
Qed.

(** X18: for a user the client has found, [UserInfo] returns what
    [toGiteaUser] makes of the user under the URL of the server; when the
    client fails it returns nothing, and no error. *)
Theorem UserInfo_toGiteaUser username (w : World B) r b :
  More.GetUserInfo x username (backend w) = (r, b) ->
  (failure r <> None -> fst (UserInfo c x p username w) = Ret None)
  /\ (forall user,
         failure r = None -> value r = Some user ->
         fst (UserInfo c x p username w)
         = Ret (Some (toGiteaUser (AuthServer.URL (GiteaProvider.Server p)) user))).
Proof.
  intros Hcall. unfold UserInfo, bind, request, ret, deref, err. rewrite Hcall. simpl.
  split.
  - intros Hfail. by destruct (failure r).
  - intros user Hok Hvalue. by rewrite Hok, Hvalue.
Qed.

End Issue_facts.

Lemma searchIssuesWithOptions_not_found_witness :
  fst (searchIssuesWithOptions Fake.client (Script.client Script.empty) Fake.provider
         Fake.UrlJoin "acme" "demo"
         {| ListIssueOption.Page := 3; ListIssueOption.State := "";
            ListIssueOption.KeyWord := "" |}
         (Fake.boot Fake.empty)) = Ret ([], None)
  /\ fst (searchIssuesWithOptions Fake.client (Script.client Script.empty) Fake.provider
            Fake.UrlJoin "acme" "demo"
            {| ListIssueOption.Page := 3; ListIssueOption.State := "";
               ListIssueOption.KeyWord := "" |}
            (Fake.boot downServer)) = Ret ([], Some (ClientError "connection refused")).
Proof.
  split.
  - apply (proj1 (searchIssuesWithOptions_not_found Fake.client (Script.client Script.empty)
                    Fake.provider Fake.UrlJoin "acme" "demo" _ (Fake.boot Fake.empty)
                    _ _ _ eq_refl eq_refl) {| Response.StatusCode := 404 |});
      reflexivity.
  - apply (proj2 (searchIssuesWithOptions_not_found Fake.client (Script.client Script.empty)
                    Fake.provider Fake.UrlJoin "acme" "demo" _ (Fake.boot downServer)
                    _ _ _ eq_refl eq_refl)).
    left. reflexivity.
Defined.

Lemma SearchIssues_converts_witness :
  exists found,
    fst (SearchIssues Fake.client (Script.client issueScript) Fake.provider Fake.UrlJoin
           "acme" "demo" "bug" (Fake.boot Fake.empty)) = Ret (found, None)
    /\ length found = 2%nat.
Proof.
  destruct (SearchIssues_converts Fake.client (Script.client issueScript) Fake.provider
              Fake.UrlJoin "acme" "demo" "bug" (Fake.boot Fake.empty) _ _ _ eq_refl)
    as (found & Hrun & Hall).
  - repeat constructor; by eexists.
  - exists found. split; [by rewrite Hrun|].
    symmetry. exact (Forall2_length _ _ _ Hall).
Defined.


Lemma GetIssue_number_witness :
  exists g gi,
    fst (GetIssue Fake.client Fake.provider Fake.UrlJoin "acme" "demo" 5
           (Fake.boot issueServer)) = Ret (g, None)
    /\ g = Some gi /\ GitIssue.Number gi = Some 5.
Proof.
  destruct (GetIssue_number Fake.client Fake.provider Fake.UrlJoin "acme" "demo" 5
              (Fake.boot issueServer) _ _ _ eq_refl ltac:(by eexists))
    as (g & Hrun & gi & Hg & Hnumber & _).
  exists g, gi. split; [exact Hrun|]. split; [exact Hg|exact Hnumber].
Defined.

Lemma UserInfo_toGiteaUser_witness :
  fst (UserInfo Fake.client (Script.client issueScript) Fake.provider "dev"
         (Fake.boot Fake.empty))
  = Ret (Some (toGiteaUser "gitea.test" (demoUser "dev")))
  /\ fst (UserInfo Fake.client (Script.client issueScript) Fake.provider "nobody"
            (Fake.boot Fake.empty)) = Ret None.
Proof.
  split.
  - apply (proj2 (UserInfo_toGiteaUser Fake.client (Script.client issueScript) Fake.provider
                    "dev" (Fake.boot Fake.empty) _ _ eq_refl)); reflexivity.
  - apply (proj1 (UserInfo_toGiteaUser Fake.client (Script.client issueScript) Fake.provider
                    "nobody" (Fake.boot Fake.empty) _ _ eq_refl)).
    discriminate.
Defined.

(** ** More on CreateWebHook *)

Section CreateWebHook_more.
Context {B : Type} (c : Client.t B) (p : GiteaProvider.t).
Variable goSyntaxHook : CreateHookOption.t -> string.

(** X19: without a repository name [CreateWebHook] returns the
    "Missing property Repo" error and sends nothing. *)
Theorem CreateWebHook_missing_repo data (w : World B) :
  GitRepositoryInfo.Name (GitWebHookArguments.Repo data) = "" ->
  CreateWebHook c p goSyntaxHook data w = (Ret (Some (Errorf "Missing property Repo")), w).
Proof.
  intros Hname. unfold CreateWebHook.
  destruct (decide (GitRepositoryInfo.Name (GitWebHookArguments.Repo data) = ""));
    [reflexivity|contradiction].
Qed.

(** X20: when no hook listed has the requested url, the hook
    [CreateWebHook] asks for is of type "gitea", active, for the events
    create, push and pull_request; its configuration has the url, the
    content type "json" and the secret, the secret only when the caller's
    is not empty, and no other key.  The owner is the user of the provider
    when the caller names none. *)
Theorem CreateWebHook_hook data (w : World B) hooks rs b :
  GitRepositoryInfo.Name (GitWebHookArguments.Repo data) <> "" ->
  let owner :=
    if decide (GitWebHookArguments.Owner data = "") then GiteaProvider.Username p
    else GitWebHookArguments.Owner data in
  let repo := GitRepositoryInfo.Name (GitWebHookArguments.Repo data) in
  Client.ListRepoHooks c owner repo (backend w) = (mkReply hooks rs None, b) ->
  Forall (fun hook => ~ targets (GitWebHookArguments.URL data) hook) hooks ->
  exists opt,
    trace (snd (CreateWebHook c p goSyntaxHook data w))
    = trace w ++ [EvListRepoHooks owner repo; EvCreateRepoHook owner repo opt]
    /\ CreateHookOption.Type_ opt = "gitea"
    /\ CreateHookOption.Active opt = true
    /\ CreateHookOption.Events opt = ["create"; "push"; "pull_request"]
    /\ forall key,
         CreateHookOption.Config opt !! key
         = if decide (key = "url") then Some (GitWebHookArguments.URL data)
           else if decide (key = "content_type") then Some "json"
           else if decide (key = "secret" /\ GitWebHookArguments.Secret data <> "")
                then Some (GitWebHookArguments.Secret data)
                else None.
Proof.
  intros Hname owner repo Hlist Hnone.
  rewrite CreateWebHook_unfold by done. fold (hookOwner p data) in owner.
  fold owner repo. rewrite Hlist. simpl.
  apply alreadyRegistered_Forall in Hnone. rewrite Hnone.
  destruct (Client.CreateRepoHook c owner repo (hookOption data) b) as [r' b']. simpl.
  exists (hookOption data). split; [by rewrite <- app_assoc|].
  unfold hookOption. simpl. repeat split. intros key.
  destruct (decide (GitWebHookArguments.Secret data ≠ "")) as [Hsecret|Hsecret].
  - destruct (decide (key = "url")) as [->|Hurl].
    { rewrite lookup_insert_ne by done. rewrite lookup_insert_ne by done.
      by rewrite lookup_insert_eq. }
    destruct (decide (key = "content_type")) as [->|Hct].
    { rewrite lookup_insert_ne by done. by rewrite lookup_insert_eq. }
    destruct (decide (key = "secret" ∧ GitWebHookArguments.Secret data ≠ ""))
      as [[-> _]|Hno].
    { by rewrite lookup_insert_eq. }
    rewrite lookup_insert_ne by (intros <-; apply Hno; done).
    rewrite lookup_insert_ne by done. rewrite lookup_insert_ne by done.
    apply lookup_empty.
  - destruct (decide (key = "url")) as [->|Hurl].
    { rewrite lookup_insert_ne by done. by rewrite lookup_insert_eq. }
    destruct (decide (key = "content_type")) as [->|Hct].
    { by rewrite lookup_insert_eq. }
    destruct (decide (key = "secret" ∧ GitWebHookArguments.Secret data ≠ ""))
      as [[_ Hyes]|_]; [contradiction|].
    rewrite lookup_insert_ne by done. rewrite lookup_insert_ne by done.
    apply lookup_empty.
Qed.

End CreateWebHook_more.

Lemma CreateWebHook_missing_repo_witness :
  CreateWebHook Fake.client Fake.provider Fake.goSyntax
    {| GitWebHookArguments.Owner := "acme";
       GitWebHookArguments.Repo := {| GitRepositoryInfo.Name := "" |};
       GitWebHookArguments.URL := "https://ci.test/hook";
       GitWebHookArguments.Secret := "" |}
    (Fake.boot Fake.empty)
  = (Ret (Some (Errorf "Missing property Repo")), Fake.boot Fake.empty).
Proof.
  apply (CreateWebHook_missing_repo Fake.client Fake.provider Fake.goSyntax _
           (Fake.boot Fake.empty)).
  reflexivity.
Defined.

Lemma CreateWebHook_hook_witness :
  exists opt,
    trace (snd (CreateWebHook Fake.client Fake.provider Fake.goSyntax
                  {| GitWebHookArguments.Owner := "";
                     GitWebHookArguments.Repo := {| GitRepositoryInfo.Name := "demo" |};
                     GitWebHookArguments.URL := "https://ci.test/hook";
                     GitWebHookArguments.Secret := "" |}
                  (Fake.boot Fake.empty)))
    = [EvListRepoHooks "me" "demo"; EvCreateRepoHook "me" "demo" opt]
    /\ CreateHookOption.Config opt !! "secret" = None
    /\ CreateHookOption.Config opt !! "content_type" = Some "json".
Proof.
  destruct (CreateWebHook_hook Fake.client Fake.provider Fake.goSyntax
              {| GitWebHookArguments.Owner := "";
                 GitWebHookArguments.Repo := {| GitRepositoryInfo.Name := "demo" |};
                 GitWebHookArguments.URL := "https://ci.test/hook";
                 GitWebHookArguments.Secret := "" |}
              (Fake.boot Fake.empty) [] Fake.ok Fake.empty
              ltac:(discriminate) eq_refl (List.Forall_nil _))
    as (opt & Htrace & _ & _ & _ & Hconfig).
  exists opt. split; [exact Htrace|]. split.
  - exact (Hconfig "secret").
  - exact (Hconfig "content_type").
Defined.

(** ** More on ListOpenPullRequests *)

Lemma toPullRequest_listedFor {B} owner repo pr (w : World B) g w' :
  toPullRequest owner repo pr w = (Ret g, w') -> listedFor owner repo g.
Proof.
  unfold toPullRequest, updatePullRequest, bind, deref, ret.
  destruct (PullRequest.Poster pr); simpl; intros H; inversion H; subst.
  unfold listedFor. simpl. repeat split; by eexists.
Qed.

Lemma convert_page_listedFor {B} owner repo prs :
  forall (answer : list GitPullRequest.t) (w : World B) answer' w',
    foldM (fun answer pr =>
             let* converted := toPullRequest owner repo pr in
             ret (answer ++ [converted]))
          prs answer w
    = (Ret answer', w') ->
    Forall (listedFor owner repo) answer ->
    Forall (listedFor owner repo) answer'.
Proof.
  induction prs as [|pr prs IH]; intros answer w answer' w' Hrun Hanswer; simpl in Hrun.
  - inversion Hrun; subst. exact Hanswer.
  - unfold bind at 1 in Hrun. unfold bind at 1 in Hrun.
    destruct (toPullRequest owner repo pr w) as [[g| |] w1] eqn:Hg;
      simpl in Hrun; try discriminate.
    apply (IH _ _ _ _ Hrun). apply Forall_app. split; [exact Hanswer|].
    constructor; [|constructor]. by eapply toPullRequest_listedFor.
Qed.

Section ListOpenPullRequests_more.
Context {B : Type} (c : Client.t B).
Variable pageSize : Z.

Lemma listOpenPullRequestsFrom_listedFor owner repo fuel :
  forall opt (answer : list GitPullRequest.t) (w : World B) answer' e w',
    listOpenPullRequestsFrom c pageSize fuel owner repo opt answer w
    = (Ret (answer', e), w') ->
    Forall (listedFor owner repo) answer ->
    Forall (listedFor owner repo) answer'.
Proof.
  induction fuel as [|fuel IH]; intros opt answer w answer' e w' Hrun Hanswer;
    simpl in Hrun; [discriminate|].
  unfold bind at 1 in Hrun. unfold call in Hrun.
  destruct (Client.ListRepoPullRequests c owner repo opt (backend w)) as [r b].
  simpl in Hrun. destruct (err r).
  - inversion Hrun; subst. exact Hanswer.
  - unfold bind at 1 in Hrun.
    destruct (foldM _ (value r) answer _) as [[answer1| |] w1] eqn:Hpage;
      simpl in Hrun; try discriminate.
    pose proof (convert_page_listedFor _ _ _ _ _ _ _ Hpage Hanswer) as Hanswer1.
    destruct (decide (len (value r) < pageSize ∨ len (value r) = 0)).
    + inversion Hrun; subst. exact Hanswer1.
    + exact (IH _ _ _ _ _ _ Hrun Hanswer1).
Qed.

(** X21: every pull request [ListOpenPullRequests] returns, with an
    error or without, bears the owner and the repo asked for, a number and
    an author. *)
Theorem ListOpenPullRequests_listedFor fuel owner repo (w : World B) answer e w' :
  ListOpenPullRequests c pageSize fuel owner repo w = (Ret (answer, e), w') ->
  Forall (listedFor owner repo) answer.
Proof.
  intros Hrun. unfold ListOpenPullRequests in Hrun.
  exact (listOpenPullRequestsFrom_listedFor _ _ _ _ _ _ _ _ _ Hrun (List.Forall_nil _)).
Qed.

(** X22: on a backend that answers every request with a full page,
    [ListOpenPullRequests] does not return: whatever the fuel, the loop is
    still asking for pages when the fuel is used up. *)
Theorem ListOpenPullRequests_endless owner repo :
  (forall opt b,
      exists prs rs b',
        Client.ListRepoPullRequests c owner repo opt b = (mkReply prs rs None, b')
        /\ ~ short pageSize prs
        /\ Forall (fun pr => is_Some (PullRequest.Poster pr)) prs) ->
  forall fuel (w : World B),
    fst (ListOpenPullRequests c pageSize fuel owner repo w) = OutOfFuel.
Proof.
  intros Hfull fuel w. unfold ListOpenPullRequests.
  generalize ListPullRequestsOptions.zero as opt.
  generalize (@nil GitPullRequest.t) as answer. revert w.
  induction fuel as [|fuel IH]; intros w answer opt; [reflexivity|].
  simpl. unfold bind at 1. unfold call.
  destruct (Hfull opt (backend w)) as (prs & rs & b' & Hcall & Hnot & Hposters).
  rewrite Hcall. simpl.
  destruct (convert_page owner repo prs answer
              (mkWorld b' (now w + Client.elapsed c b')
                 (trace w ++ [EvListRepoPullRequests owner repo opt])) Hposters)
    as (gs & Hrun & _).
  unfold bind at 1. rewrite Hrun.
  destruct (decide (len prs < pageSize ∨ len prs = 0)) as [Hshort|_]; [contradiction|].
  apply IH.
Qed.

(** X23: when a request fails after full pages, [ListOpenPullRequests]
    stops asking: it returns the conversions of the pages it has, in
    order, next to the client's error, having asked for each page once. *)
Theorem ListOpenPullRequests_stops_on_error fuel owner repo (w : World B)
    full b1 final msg b' :
  Serves c owner repo 0 (backend w) full b1 ->
  Forall (fun prs => ~ short pageSize prs) full ->
  Client.ListRepoPullRequests c owner repo (pageRequest (len full)) b1 = (final, b') ->
  failure final = Some msg ->
  Forall (fun pr => is_Some (PullRequest.Poster pr)) (concat full) ->
  len full < 2 ^ 63 ->
  (length full < fuel)%nat ->
  exists answer w',
    ListOpenPullRequests c pageSize fuel owner repo w
    = (Ret (answer, Some (ClientError msg)), w')
    /\ Forall2 (converts owner repo) (concat full) answer
    /\ backend w' = b'
    /\ trace w' = trace w ++ pageRequests owner repo 0 (S (length full)).
Proof.
  intros Hserves Hfull Hfinal Hfail Hposters Hmax Hfuel.
  destruct (listOpenPullRequestsFrom_pages c pageSize owner repo full fuel 0 w [] b1 final b')
    as (gs & w' & Hrun & Hall & Hb & Ht); try done.
  - rewrite Hfail. discriminate.
  - rewrite Hfail. by rewrite app_nil_r.
  - exists gs, w'. unfold ListOpenPullRequests.
    change ListPullRequestsOptions.zero with (pageRequest 0).
    rewrite Hrun. unfold err. rewrite Hfail. simpl.
    rewrite Hfail in Hall. rewrite app_nil_r in Hall. done.
Qed.

End ListOpenPullRequests_more.

Lemma ListOpenPullRequests_listedFor_witness :
  exists answer,
    fst (ListOpenPullRequests Fake.client 2 3 "acme" "demo"
           (Fake.boot (pullServer (List.map demoPull [1; 2; 3])))) = Ret (answer, None)
    /\ Forall (listedFor "acme" "demo") answer.
Proof.
  eexists. split; [vm_compute; reflexivity|].
  eapply (ListOpenPullRequests_listedFor Fake.client 2 3 "acme" "demo"
            (Fake.boot (pullServer (List.map demoPull [1; 2; 3])))).
  vm_compute. reflexivity.
Defined.

Lemma ListOpenPullRequests_endless_witness :
  fst (ListOpenPullRequests endless 2 1000 "acme" "demo" (Fake.boot Fake.empty)) = OutOfFuel.
Proof.
  apply (ListOpenPullRequests_endless endless 2 "acme" "demo").
  intros opt b. exists [demoPull 1; demoPull 2], Fake.ok, b.
  split; [reflexivity|]. split.
  - unfold short, len. simpl. lia.
  - repeat constructor; by eexists.
Defined.

Lemma ListOpenPullRequests_stops_on_error_witness :
  exists w',
    ListOpenPullRequests Fake.client 2 1 "acme" "demo" (Fake.boot downServer)
    = (Ret ([], Some (ClientError "connection refused")), w')
    /\ trace w' = [EvListRepoPullRequests "acme" "demo" (pageRequest 0)].
Proof.
  destruct (ListOpenPullRequests_stops_on_error Fake.client 2 1 "acme" "demo"
              (Fake.boot downServer) [] downServer _ "connection refused" _
              (serves_nil _ _ _ _ _) (List.Forall_nil _) eq_refl eq_refl
              (List.Forall_nil _) ltac:(unfold len; simpl; lia) ltac:(simpl; lia))
    as (answer & w' & Hrun & Hall & _ & Htrace).
  inversion Hall; subst. exists w'. split; [exact Hrun|exact Htrace].
Defined.

(** ** The two status methods *)

Lemma firstState_find results :
  firstState results
  = GitRepoStatus.State
      <$> List.find (fun s => negb (String.eqb (GitRepoStatus.State s) ""))
                    (List.map statusOf results).
Proof.
  induction results as [|result results IH]; simpl; [reflexivity|].
  destruct (decide (Status.State result ≠ "")) as [Hstate|Hstate].
  - apply String.eqb_neq in Hstate. by rewrite Hstate.
  - apply dec_stable in Hstate. rewrite Hstate. simpl. exact IH.
Qed.

Section Status_facts.
Context {B : Type} (c : Client.t B).
Variable goSyntaxPR : GitPullRequest.t -> string.

(** X24: on the same reply of the client, [ListCommitStatus] returns one
    status for each status of the backend, in order, with the ID in
    decimal, and [PullRequestLastCommitStatus] returns the state of the
    first of these whose state is not empty, or an error when there is
    none. *)
Theorem status_methods_agree pr (w : World B) results rs b :
  let owner := GitPullRequest.Owner pr in
  let repo := GitPullRequest.Repo pr in
  let sha := GitPullRequest.LastCommitSha pr in
  sha <> "" ->
  Client.ListStatuses c owner repo sha (backend w) = (mkReply results rs None, b) ->
  fst (ListCommitStatus c owner repo sha w) = Ret (List.map statusOf results, None)
  /\ fst (PullRequestLastCommitStatus c goSyntaxPR pr w)
     = Ret (match List.find (fun s => negb (String.eqb (GitRepoStatus.State s) ""))
                            (List.map statusOf results) with
            | Some status => (GitRepoStatus.State status, None)
            | None =>
                ("", Some (Errorf ("Could not find a status for repository " +:+ owner +:+ "/"
                                   +:+ repo +:+ " with ref " +:+ sha)))
            end).
Proof.
  intros owner repo sha Hsha Hcall. split.
  - unfold ListCommitStatus. run. rewrite Hcall. simpl.
    change (fun answer result => answer ++ [_]) with
      (fun answer result => answer ++ [statusOf result]).
    by rewrite (fold_left_snoc statusOf).
  - unfold PullRequestLastCommitStatus. fold sha owner repo.
    destruct (decide (sha = "")); [contradiction|].
    run. rewrite Hcall. simpl. rewrite firstState_find.
    destruct (List.find _ _); reflexivity.
Qed.

End Status_facts.

Lemma status_methods_agree_witness :
  fst (ListCommitStatus Fake.client "acme" "demo" "abc123"
         (Fake.boot (statusServer [demoStatus 1 ""; demoStatus 2 "failure"])))
  = Ret ([statusOf (demoStatus 1 ""); statusOf (demoStatus 2 "failure")], None)
  /\ fst (PullRequestLastCommitStatus Fake.client Fake.goSyntax (demoPullRequest "abc123")
            (Fake.boot (statusServer [demoStatus 1 ""; demoStatus 2 "failure"])))
     = Ret ("failure", None).
Proof.
  apply (status_methods_agree Fake.client Fake.goSyntax (demoPullRequest "abc123")
           (Fake.boot (statusServer [demoStatus 1 ""; demoStatus 2 "failure"]))
           _ _ _ ltac:(discriminate) eq_refl).
Defined.

(** ** More on ForkRepository and CreateRepository *)

Section Repository_more.
Context {B : Type} (c : Client.t B) (p : GiteaProvider.t).

(** X25: when the fork request fails with an error that does not say
    "try again later", [ForkRepository] returns at once, without a poll:
    the error names the repository, the destination when there is one, and
    the client's error. *)
Theorem ForkRepository_fails_at_once fuel originalOrg name destinationOrg (w : World B)
    r0 b0 msg :
  Client.CreateFork c originalOrg name
    {| CreateForkOption.Organization := Some destinationOrg |} (backend w) = (r0, b0) ->
  failure r0 = Some msg ->
  Contains msg "try again later" = false ->
  ForkRepository c p fuel originalOrg name destinationOrg w
  = (Ret (None,
          Some (Errorf ("Failed to fork repository " +:+ originalOrg +:+ "/" +:+ name
                        +:+ (if decide (destinationOrg = "") then ""
                             else " to " +:+ destinationOrg)
                        +:+ " due to: " +:+ msg))),
     mkWorld b0 (now w + Client.elapsed c b0)
       (trace w ++ [EvCreateFork originalOrg name
                      {| CreateForkOption.Organization := Some destinationOrg |}])).
Proof.
  intros Hfork Hfail Hretry. unfold ForkRepository. unfold bind at 1. unfold call.
  rewrite Hfork. unfold err at 1. rewrite Hfail. cbv beta iota.
  change (Error (ClientError msg)) with msg. rewrite Hretry. unfold ret.
  destruct (decide (destinationOrg = "")) as [->|Hdest].
  - reflexivity.
  - destruct (decide (destinationOrg ≠ "")); [reflexivity|contradiction].
Qed.

(** X26: with an empty [org], [CreateRepository] sends the user-scoped
    request alone and returns what it makes of the reply. *)
Theorem CreateRepository_empty_org name private (w : World B) r b :
  let options :=
    {| CreateRepoOption.Name := name; CreateRepoOption.Private := private |} in
  Client.CreateRepo c options (backend w) = (r, b) ->
  CreateRepository c "" name private w
  = (match failure r, value r with
     | Some msg, _ =>
         Ret (None, Some (Errorf ("Failed to create repository /" +:+ name
                                  +:+ " due to: " +:+ msg)))
     | None, Some repo => Ret (Some (toGiteaRepo name repo), None)
     | None, None => NilDereference
     end,
     mkWorld b (now w + Client.elapsed c b) (trace w ++ [EvCreateRepo options])).
Proof.
  intros options Hcall. unfold CreateRepository. fold options. run. rewrite Hcall. simpl.
  unfold err. destruct (failure r); [reflexivity|]. destruct (value r); reflexivity.
Qed.

(** X27: [IsWikiEnabled] says yes exactly when the client returns,
    without an error, a repository whose wiki is on; without an error and
    without a repository it says no, and returns no error. *)
Theorem IsWikiEnabled_yes owner repo (w : World B) r b :
  Client.GetRepo c owner repo (backend w) = (r, b) ->
  ((exists e, fst (IsWikiEnabled c owner repo w) = Ret (true, e))
   <-> failure r = None /\ exists found, value r = Some found
                                         /\ Repository.HasWiki found = true)
  /\ (failure r = None -> value r = None ->
      fst (IsWikiEnabled c owner repo w) = Ret (false, None)).
Proof.
  intros Hcall. unfold IsWikiEnabled. run. rewrite Hcall. simpl. unfold err.
  destruct (value r) as [found|], (failure r) as [msg|]; simpl.
  - split; [|discriminate]. split.
    + intros [e H]. discriminate.
    + intros [H _]. discriminate.
  - split; [|discriminate]. split.
    + intros [e H]. inversion H. split; [done|]. by exists found.
    + intros [_ (found' & Hfound & Hwiki)]. inversion Hfound; subst.
      exists None. by rewrite Hwiki.
  - split; [|discriminate]. split.
    + intros [e H]. discriminate.
    + intros [H _]. discriminate.
  - split; [|done]. split.
    + intros [e H]. discriminate.
    + intros [_ (found' & Hfound & _)]. discriminate.
Qed.

End Repository_more.

Section Owner_default.
Context {B : Type} (c : Client.t B) (x : More.t B) (p : GiteaProvider.t).

(** X28: with an empty [org], [DeleteRepository] and [ListReleases] act
    on the account of the user of the provider; [DeleteRepository] wraps
    the client's error under that owner and the name, [ListReleases]
    returns one release for each release listed, in order. *)
Theorem empty_org_is_user name (w : World B) :
  (forall r b,
      More.DeleteRepo x (GiteaProvider.Username p) name (backend w) = (r, b) ->
      fst (DeleteRepository c x p "" name w)
      = Ret (match failure r with
             | Some msg =>
                 Some (Errorf ("Failed to delete repository " +:+ GiteaProvider.Username p
                               +:+ "/" +:+ name +:+ " due to: " +:+ msg))
             | None => None
             end))
  /\ (forall releases rs b,
         More.ListReleases x (GiteaProvider.Username p) name ListReleasesOptions.zero
           (backend w) = (mkReply releases rs None, b) ->
         fst (ListReleases c x p "" name w) = Ret (List.map toGiteaRelease releases, None)).
Proof.
  split.
  - intros r b Hcall. unfold DeleteRepository, bind, request, ret, err. simpl.
    rewrite Hcall. simpl. by destruct (failure r).
  - intros releases rs b Hcall. unfold ListReleases, bind, request, ret, err. simpl.
    rewrite Hcall. simpl. by rewrite fold_left_snoc.
Qed.

End Owner_default.

Lemma ForkRepository_fails_at_once_witness :
  fst (ForkRepository Fake.client Fake.provider 13 "upstream" "demo" "acme"
         (Fake.boot downServer))
  = Ret (None,
         Some (Errorf "Failed to fork repository upstream/demo to acme due to: connection refused")).
Proof.
  rewrite (ForkRepository_fails_at_once Fake.client Fake.provider 13 "upstream" "demo" "acme"
             (Fake.boot downServer) _ _ _ eq_refl eq_refl eq_refl).
  reflexivity.
Defined.

Lemma CreateRepository_empty_org_witness :
  trace (snd (CreateRepository Fake.client "" "demo" false (Fake.boot Fake.empty)))
  = [EvCreateRepo {| CreateRepoOption.Name := "demo"; CreateRepoOption.Private := false |}].
Proof.
  rewrite (CreateRepository_empty_org Fake.client "demo" false (Fake.boot Fake.empty)
             _ _ eq_refl).
  reflexivity.
Defined.

Lemma IsWikiEnabled_yes_witness :
  fst (IsWikiEnabled Fake.client "acme" "demo" (Fake.boot Fake.empty))
  = Ret (false, Some (ClientError "404 Not Found"))
  /\ ~ exists e, fst (IsWikiEnabled Fake.client "acme" "" 
                        (Fake.boot (Fake.with_repos Fake.empty [nameless]))) = Ret (true, e).
Proof.
  split; [reflexivity|].
  intros Hyes.
  apply (proj1 (IsWikiEnabled_yes Fake.client "acme" ""
                  (Fake.boot (Fake.with_repos Fake.empty [nameless])) _ _ eq_refl))
    in Hyes as [_ (found & Hfound & Hwiki)].
  inversion Hfound; subst. discriminate.
Defined.

Lemma empty_org_is_user_witness :
  fst (DeleteRepository Fake.client (Script.client Script.empty) Fake.provider "" "demo"
         (Fake.boot Fake.empty))
  = Ret (Some (Errorf "Failed to delete repository me/demo due to: 404 Not Found")).
Proof.
  apply (proj1 (empty_org_is_user Fake.client (Script.client Script.empty) Fake.provider
                  "demo" (Fake.boot Fake.empty)) _ _ eq_refl).
Defined.
